(** * RISC-V GDB server: the RSP packet engine of [GdbServerImpl.cpp]

    A shallow embedding of [src/server/GdbServerImpl.cpp].  The server is a
    single-threaded object that owns a packet buffer and talks to two
    abstract collaborators, the target [ITarget * cpu] and the connection
    [AbstractConnection * rsp].  Both are interfaces in the source and are
    type classes here; the server's methods are state transformers over a
    record holding the server's fields, the collaborators' states and the
    chronological list of calls made on them.

    Not modelled: diagnostics written to [cerr] and the trace lines written
    to [cout] under a trace flag.  Durations are [double] in the source; the
    user timeout only ever holds an [int] number of seconds and is an
    integer here, clock readings are integer ticks. *)

From Stdlib Require Import String Ascii ZArith Bool Lia List.
Import ListNotations.
Open Scope Z_scope.

(** ** Machine integers *)

(** [uint32_t] ([uint_reg_t] on this target), [uint8_t], [int] and the
    64-bit [std::size_t], each with its wrap-around. *)
Definition uint32 (z : Z) : Z := z mod 2 ^ 32.
Definition uint64 (z : Z) : Z := z mod 2 ^ 64.
Definition uint8 (z : Z) : Z := z mod 2 ^ 8.
Definition int32 (z : Z) : Z := (z + 2 ^ 31) mod 2 ^ 32 - 2 ^ 31.
Definition INT_MAX : Z := 2 ^ 31 - 1.
Definition INT_MIN : Z := - 2 ^ 31.

(** The value of an [int] expression is defined when it is in range. *)
Definition int_fits (z : Z) : Prop := INT_MIN <= z <= INT_MAX.

(** ** C strings in a character buffer *)

Definition str (s : string) : list ascii := list_ascii_of_string s.
Arguments str s%_string.

Definition NUL : ascii := Ascii.zero.
Definition code (c : ascii) : Z := Z.of_N (N_of_ascii c).
Definition chr (z : Z) : ascii := ascii_of_N (Z.to_N (uint8 z)).
Definition is_nul (c : ascii) : bool := Ascii.eqb c NUL.

(** The C string that starts at the head of [buf]: the characters before
    the first NUL. *)
Fixpoint cstr (buf : list ascii) : list ascii :=
  match buf with
  | [] => []
  | c :: rest => if is_nul c then [] else c :: cstr rest
  end.

Definition strlen (buf : list ascii) : Z := Z.of_nat (length (cstr buf)).

(** [buf + n] as a pointer into the buffer. *)
Definition at_off (n : Z) (buf : list ascii) : list ascii :=
  skipn (Z.to_nat n) buf.

(** [buf[i]]; outside the buffer the model reads NUL. *)
Definition char_at (buf : list ascii) (i : Z) : ascii :=
  if i <? 0 then NUL else nth (Z.to_nat i) buf NUL.

(** Overwrite [buf] from index [off] with the characters [s]; the buffer
    keeps its size, so the caller checks that [s] fits. *)
Definition store (off : Z) (s : list ascii) (buf : list ascii) : list ascii :=
  firstn (Z.to_nat off) buf ++ firstn (length buf - Z.to_nat off) s
    ++ skipn (Z.to_nat off + length s) buf.

Fixpoint list_eqb (a b : list ascii) : bool :=
  match a, b with
  | [], [] => true
  | x :: a', y :: b' => Ascii.eqb x y && list_eqb a' b'
  | _, _ => false
  end.

(** [0 == strcmp (a, b)] on C strings. *)
Definition strcmp0 (a b : list ascii) : bool := list_eqb (cstr a) (cstr b).

(** [0 == strncmp (a, b, n)]: the first [n] characters agree, or both
    strings end together before that. *)
Fixpoint strncmp0 (a b : list ascii) (n : nat) : bool :=
  match n with
  | O => true
  | S n' =>
      let x := hd NUL a in
      let y := hd NUL b in
      if Ascii.eqb x y
      then (if is_nul x then true else strncmp0 (tl a) (tl b) n')
      else false
  end.

Definition isspace (c : ascii) : bool :=
  let n := code c in (n =? 32) || ((9 <=? n) && (n <=? 13)).

Definition tolower (c : ascii) : ascii :=
  let n := code c in if (65 <=? n) && (n <=? 90) then chr (n + 32) else c.

(** [0 == strcasecmp (a, b)]. *)
Definition strcasecmp0 (a b : list ascii) : bool :=
  list_eqb (map tolower (cstr a)) (map tolower (cstr b)).

(** [memchr (buf, c, n)]: index of the first [c] among the first [n]
    bytes, NUL bytes included. *)
Fixpoint memchr_from (i : Z) (buf : list ascii) (c : ascii) (n : nat)
  : option Z :=
  match n, buf with
  | S n', x :: rest =>
      if Ascii.eqb x c then Some i else memchr_from (i + 1) rest c n'
  | _, _ => None
  end.

Definition memchr (buf : list ascii) (c : ascii) (n : Z) : option Z :=
  memchr_from 0 buf c (Z.to_nat n).

(** ** Number formatting ([printf] and [ostream]) *)

Definition digit_char (d : Z) : ascii :=
  nth (Z.to_nat d) (str "0123456789abcdef") NUL.

Fixpoint digits_of (base : Z) (fuel : nat) (n : Z) : list ascii :=
  match fuel with
  | O => []
  | S f =>
      if n <? base then [digit_char n]
      else digits_of base f (n / base) ++ [digit_char (n mod base)]
  end.

(** [%x] of a 32-bit unsigned value (an [int] argument is converted):
    lowercase, no prefix, no padding. *)
Definition fmt_x (n : Z) : list ascii := digits_of 16 8 (uint32 n).

(** [ostream << uint64_t]: decimal. *)
Definition fmt_u64 (n : Z) : list ascii := digits_of 10 20 (uint64 n).

(** ** [sscanf] conversions (glibc, LP64) *)

Definition hex_val (c : ascii) : option Z :=
  let n := code c in
  if (48 <=? n) && (n <=? 57) then Some (n - 48)
  else if (97 <=? n) && (n <=? 102) then Some (n - 87)
  else if (65 <=? n) && (n <=? 70) then Some (n - 55)
  else None.

Definition dec_val (c : ascii) : option Z :=
  let n := code c in
  if (48 <=? n) && (n <=? 57) then Some (n - 48) else None.

Fixpoint skip_ws (s : list ascii) : list ascii :=
  match s with
  | c :: rest => if isspace c then skip_ws rest else s
  | [] => []
  end.

(** Longest run of digits, accumulated in base [base]; [None] when the
    run is empty. *)
Fixpoint scan_digits (dv : ascii -> option Z) (base : Z) (acc : option Z)
  (s : list ascii) : option Z * list ascii :=
  match s with
  | c :: rest =>
      match dv c with
      | Some d =>
          scan_digits dv base
            (Some (base * match acc with Some a => a | None => 0 end + d)) rest
      | None => (acc, s)
      end
  | [] => (acc, s)
  end.

Definition scan_sign (s : list ascii) : bool * list ascii :=
  match s with
  | c :: rest =>
      if Ascii.eqb c "-" then (true, rest)
      else if Ascii.eqb c "+" then (false, rest)
      else (false, s)
  | [] => (false, s)
  end.

(** The optional [0x] or [0X] ahead of hexadecimal digits: whether it
    is there, and what follows it. *)
Definition skip_0x (s : list ascii) : bool * list ascii :=
  match s with
  | c :: d :: rest =>
      if Ascii.eqb c "0" && (Ascii.eqb d "x" || Ascii.eqb d "X")
      then (true, rest)
      else (false, s)
  | _ => (false, s)
  end.

(** The [unsigned long] that [strtoul] hands back for the magnitude [v]:
    [ULONG_MAX] when [v] does not fit, whatever the sign; otherwise [v],
    negated as an unsigned long after a minus sign. *)
Definition strtoul_result (neg : bool) (v : Z) : Z :=
  if 2 ^ 64 - 1 <? v then 2 ^ 64 - 1
  else uint64 (if neg then - v else v).

(** Directive [%x] (and [%lx] before the store): leading white space, an
    optional sign, an optional [0x], then hexadecimal digits.  Without
    the prefix one digit at least is needed; a prefix that no digit
    follows is read whole, as the number 0. *)
Definition scan_hex (s : list ascii) : option (Z * list ascii) :=
  let (neg, s1) := scan_sign (skip_ws s) in
  let (prefixed, s2) := skip_0x s1 in
  match scan_digits hex_val 16 None s2 with
  | (Some v, rest) => Some (strtoul_result neg v, rest)
  | (None, _) => if prefixed then Some (0, s2) else None
  end.

(** Directive [%d]: the [long] that [strtol] hands back, saturated. *)
Definition scan_dec (s : list ascii) : option (Z * list ascii) :=
  let (neg, s1) := scan_sign (skip_ws s) in
  match scan_digits dec_val 10 None s1 with
  | (Some v, rest) =>
      Some (if neg then Z.max (- v) (- 2 ^ 63) else Z.min v (2 ^ 63 - 1), rest)
  | (None, _) => None
  end.

(** An ordinary character of the format matches itself. *)
Definition scan_lit (c : ascii) (s : list ascii) : option (list ascii) :=
  match s with
  | x :: rest => if Ascii.eqb x c then Some rest else None
  | [] => None
  end.

Fixpoint scan_lits (cs : list ascii) (s : list ascii) : option (list ascii) :=
  match cs with
  | [] => Some s
  | c :: cs' =>
      match scan_lit c s with
      | Some rest => scan_lits cs' rest
      | None => None
      end
  end.

(** Directive [%<w>s]: leading white space, then up to [w] characters
    that are not white space, at least one. *)
Fixpoint scan_word (w : nat) (s : list ascii) : list ascii * list ascii :=
  match w, s with
  | S w', c :: rest =>
      if isspace c then ([], s)
      else let (tok, rest') := scan_word w' rest in (c :: tok, rest')
  | _, _ => ([], s)
  end.

Definition scan_str (w : nat) (s : list ascii)
  : option (list ascii * list ascii) :=
  match scan_word w (skip_ws s) with
  | ([], _) => None
  | (tok, rest) => Some (tok, rest)
  end.

(** [2 == sscanf (s, "<c>%x,%x:", &a, &b)] with both targets 32 bits
    wide.  The trailing [:] of the format cannot change the count. *)
Definition sscanf_c_x_x (c : ascii) (s : list ascii) : option (Z * Z) :=
  match scan_lit c (cstr s) with
  | None => None
  | Some s1 =>
      match scan_hex s1 with
      | None => None
      | Some (a, s2) =>
          match scan_lit ","%char s2 with
          | None => None
          | Some s3 =>
              match scan_hex s3 with
              | None => None
              | Some (b, _) => Some (uint32 a, uint32 b)
              end
          end
      end
  end.

(** [2 == sscanf (s, "X%x,%lx:", &addr, &len)]: [len] is a [size_t]. *)
Definition sscanf_X (s : list ascii) : option (Z * Z) :=
  match scan_lit "X"%char (cstr s) with
  | None => None
  | Some s1 =>
      match scan_hex s1 with
      | None => None
      | Some (a, s2) =>
          match scan_lit ","%char s2 with
          | None => None
          | Some s3 =>
              match scan_hex s3 with
              | None => None
              | Some (b, _) => Some (uint32 a, b)
              end
          end
      end
  end.

(** [1 == sscanf (s, "p%x", &regNum)]. *)
Definition sscanf_p (s : list ascii) : option Z :=
  match scan_lit "p"%char (cstr s) with
  | None => None
  | Some s1 =>
      match scan_hex s1 with
      | None => None
      | Some (r, _) => Some (uint32 r)
      end
  end.

(** [2 == sscanf (s, "P%x=%8s", &regNum, valstr)]. *)
Definition sscanf_P (s : list ascii) : option (Z * list ascii) :=
  match scan_lit "P"%char (cstr s) with
  | None => None
  | Some s1 =>
      match scan_hex s1 with
      | None => None
      | Some (r, s2) =>
          match scan_lit "="%char s2 with
          | None => None
          | Some s3 =>
              match scan_str 8 s3 with
              | None => None
              | Some (v, _) => Some (uint32 r, v)
              end
          end
      end
  end.

(** [1 == sscanf (cmd, "timeout %d", &timeout)]: the blank of the format
    matches any amount of white space, none included. *)
Definition sscanf_timeout (s : list ascii) : option Z :=
  match scan_lits (str "timeout") (cstr s) with
  | None => None
  | Some s1 =>
      match scan_dec (skip_ws s1) with
      | None => None
      | Some (t, _) => Some (int32 t)
      end
  end.

(** ** [Utils]: hex codec helpers *)

(** Modelled from the spec: [Utils::hex2Char] is declared in [Utils.h],
    which is not among the sources; the spec lists it as nibble to
    character.  Lowercase digit of a nibble, NUL outside [0, 15]. *)
Definition hex2Char (d : Z) : ascii :=
  if (0 <=? d) && (d <=? 15) then digit_char d else NUL.

(** Modelled from the spec: [Utils::char2Hex], character to nibble; [-1]
    for a character that is not a hexadecimal digit. *)
Definition char2Hex (c : ascii) : Z :=
  match hex_val c with Some d => d | None => -1 end.

(** Modelled from the spec: [Utils::val2Hex (val, buf, numBytes, true)],
    value to hex, little-endian: two digits per byte, lowest byte first.
    The terminating NUL is written by [pkt_val2Hex] below. *)
Fixpoint val2Hex (val : Z) (numBytes : nat) : list ascii :=
  match numBytes with
  | O => []
  | S n =>
      let byte := Z.land val 255 in
      hex2Char (Z.land (Z.shiftr byte 4) 15) :: hex2Char (Z.land byte 15)
        :: val2Hex (val / 256) n
  end.

(** Modelled from the spec: [Utils::hex2Val (buf, numBytes, true)], hex
    to value, little-endian. *)
Fixpoint hex2Val (buf : list ascii) (numBytes : nat) : Z :=
  match numBytes with
  | O => 0
  | S n =>
      let hi := char2Hex (hd NUL buf) in
      let lo := char2Hex (hd NUL (tl buf)) in
      Z.lor (Z.shiftl (hex2Val (tl (tl buf)) n) 8)
            (Z.lor (Z.shiftl (Z.land hi 15) 4) (Z.land lo 15))
  end.

(** Modelled from the spec: [Utils::hex2Ascii (dest, src)], hex-ASCII to
    ASCII: one character per complete pair of digits, up to the end of
    the source string. *)
Fixpoint hex2Ascii (src : list ascii) : list ascii :=
  match src with
  | a :: b :: rest =>
      if is_nul a || is_nul b then []
      else chr (Z.lor (Z.shiftl (Z.land (char2Hex a) 15) 4)
                      (Z.land (char2Hex b) 15)) :: hex2Ascii rest
  | _ => []
  end.

(** Modelled from the spec: [Utils::rspUnescape (buf, len)], binary
    un-escape: [}x] stands for [x ^ 0x20]. *)
Fixpoint rspUnescape (buf : list ascii) : list ascii :=
  match buf with
  | [] => []
  | c :: rest =>
      if Ascii.eqb c "}"%char
      then match rest with
           | x :: rest' => chr (Z.lxor (code x) 32) :: rspUnescape rest'
           | [] => []
           end
      else c :: rspUnescape rest
  end.

(** Modelled from the spec: [Utils::split (s, " ", tokens)], split at
    blanks; empty tokens are dropped. *)
Fixpoint split_acc (cur : list ascii) (s : list ascii)
  : list (list ascii) :=
  let flush := match cur with [] => [] | _ => [rev cur] end in
  match s with
  | [] => flush
  | c :: rest =>
      if Ascii.eqb c " "%char then flush ++ split_acc [] rest
      else split_acc (c :: cur) rest
  end.

Definition split (s : list ascii) : list (list ascii) := split_acc [] (cstr s).

(** ** Protocol enumerations *)

(** [GdbServerImpl::TargetSignal]: the numbers go on the wire. *)
Inductive TargetSignal := SIG_NONE | SIG_INT | SIG_TRAP | SIG_XCPU | SIG_UNKNOWN.

Definition signal_number (sig : TargetSignal) : Z :=
  match sig with
  | SIG_NONE => 0
  | SIG_INT => 2
  | SIG_TRAP => 5
  | SIG_XCPU => 24
  | SIG_UNKNOWN => 143
  end.

Inductive ResumeType := STEP | CONTINUE | STOP.

Inductive ResumeRes :=
  NONE | SUCCESS | FAILURE | STEPPED | INTERRUPTED | TIMEOUT | SYSCALL.

Inductive ResetType := COLD | WARM.

Inductive KillBehaviour := RESET_ON_KILL | EXIT_ON_KILL.

Inductive SyscallContinuationType :=
| SYSCALL_NONE_PENDING
| SYSCALL_THEN_FINISH_STEPPING
| SYSCALL_THEN_FINISH_CONTINUE.

Inductive MpType := BP_MEMORY | BP_HARDWARE | WP_WRITE | WP_READ | WP_ACCESS.

(** [MpHash]: saved instruction per (kind, address); the table is owned
    by the server. *)
Definition MpHash : Type := list (MpType * Z * Z).

(** [TraceFlags]: named boolean flags, in iteration order. *)
Definition TraceFlags : Type := list (list ascii * bool).

Fixpoint isFlag (name : list ascii) (fl : TraceFlags) : bool :=
  match fl with
  | [] => false
  | (n, _) :: rest => list_eqb n name || isFlag name rest
  end.

Fixpoint flag (name : list ascii) (fl : TraceFlags) : bool :=
  match fl with
  | [] => false
  | (n, v) :: rest => if list_eqb n name then v else flag name rest
  end.

Fixpoint set_flag (name : list ascii) (v : bool) (fl : TraceFlags)
  : TraceFlags :=
  match fl with
  | [] => []
  | (n, x) :: rest =>
      if list_eqb n name then (n, v) :: rest
      else (n, x) :: set_flag name v rest
  end.

(** [SyscallReplyPacket]: what [parse] leaves behind for [valid],
    [retcode] and [hasCtrlC]. *)
Record SyscallReplyPacket := {
  valid : bool;
  retcode : Z;
  hasCtrlC : bool
}.

(** The pause between two polls for a break, in clock ticks per second
    and as a duration: [interruptTimeout] is 0.1 s. *)
Definition ticks_per_second : Z := 1000000000.
Definition interruptTimeout : Z := ticks_per_second / 10.

Definition DUMMY_TID : Z := 1.
Definition RISCV_NUM_REGS : nat := 33.
(** [sizeof (uint_reg_t)] *)
Definition REG_BYTES : nat := 4.

(** ** The collaborators *)

(** [ITarget]: the simulated CPU.  A call takes the target's state and
    returns its result with the next state; [readRegister] and [read]
    are [const] in the interface. *)
Class ITarget (T : Type) := {
  resume : ResumeType -> option Z -> T -> ResumeRes * T;
  reset : ResetType -> T -> ResumeRes * T;
  (** value stored through the reference, and the size returned *)
  readRegister : Z -> T -> Z * Z;
  writeRegister : Z -> Z -> T -> Z * T;
  (** [read (addr, &ch, 1)]: the byte, when the call returns 1 *)
  read : Z -> T -> option Z;
  (** [write (addr, buf, size)]: number of bytes written *)
  write : Z -> list Z -> T -> Z * T;
  (** text put on the stream, and whether the command was accepted *)
  command : list ascii -> T -> (bool * list ascii) * T;
  getCycleCount : T -> Z;
  getInstrCount : T -> Z
}.

(** [RspPacket]: the buffer [data] of [bufSize] characters and the
    logical length [len]. *)
Record RspPacket := {
  data : list ascii;
  len : Z
}.

Definition getBufSize (p : RspPacket) : Z := Z.of_nat (length (data p)).

(** [AbstractConnection]: the framed byte stream.  [getPkt] fills the
    packet it is handed; [putPkt] is handed the payload, the first [len]
    characters of the buffer. *)
Class AbstractConnection (C : Type) := {
  rspConnect : C -> bool * C;
  rspClose : C -> C;
  isConnected : C -> bool;
  getPkt : RspPacket -> C -> (bool * RspPacket) * C;
  putPkt : list ascii -> C -> C;
  haveBreak : C -> bool * C
}.

(** [std::chrono::system_clock]: a reading in ticks, and the reading put
    through [localtime] and [strftime ("%F %T")]. *)
Class SystemClock (K : Type) := {
  now : K -> Z * K;
  strftime_now : K -> list ascii * K
}.

(** One entry per call on a collaborator, and per line put on [cout]. *)
Inductive Event :=
| EvResume (ty : ResumeType) (slice : option Z)
| EvReset (ty : ResetType)
| EvReadRegister (reg : Z)
| EvWriteRegister (reg val : Z)
| EvRead (addr : Z)
| EvWrite (addr : Z) (bytes : list Z)
| EvCommand (cmd : list ascii)
| EvGetCycleCount
| EvGetInstrCount
| EvConnect
| EvClose
| EvGetPkt
| EvPutPkt (payload : list ascii)
| EvHaveBreak
| EvNow
| EvCout (line : list ascii).

(** ** [RspPacket] operations *)

Definition setLen (n : Z) (p : RspPacket) : RspPacket :=
  {| data := data p; len := n |}.

Definition setData (d : list ascii) (p : RspPacket) : RspPacket :=
  {| data := d; len := len p |}.

(** Two lowercase hex digits per character. *)
Fixpoint hexstr (s : list ascii) : list ascii :=
  match s with
  | [] => []
  | c :: rest =>
      hex2Char (Z.shiftr (code c) 4) :: hex2Char (Z.land (code c) 15)
        :: hexstr rest
  end.

(** Modelled from the spec: [RspPacket::packStr] is declared in
    [RspPacket.h], which is not among the sources; the spec has it copy
    the ASCII string and set the length ([L <= C] is the packet's
    invariant, so a string that does not fit is cut). *)
Definition packStr (s : list ascii) (p : RspPacket) : RspPacket :=
  let s' := firstn (length (data p) - 1) (cstr s) in
  {| data := store 0 (s' ++ [NUL]) (data p); len := Z.of_nat (length s') |}.

(** Modelled from the spec: [RspPacket::packHexstr], hex-encode each
    byte and set the length. *)
Definition packHexstr (s : list ascii) (p : RspPacket) : RspPacket :=
  let s' := firstn ((length (data p) - 1) / 2) (cstr s) in
  {| data := store 0 (hexstr s' ++ [NUL]) (data p);
     len := Z.of_nat (length (hexstr s')) |}.

(** Modelled from the spec: [RspPacket::packRcmdStr (s, true)], an
    [O]-prefixed hex-encoded monitor output packet. *)
Definition packRcmdStr (s : list ascii) (p : RspPacket) : RspPacket :=
  let s' := firstn ((length (data p) - 2) / 2) (cstr s) in
  {| data := store 0 ("O"%char :: hexstr s' ++ [NUL]) (data p);
     len := Z.of_nat (length ("O"%char :: hexstr s')) |}.

(** ** Outcomes of a server method *)

(** A method returns, or the process leaves through [exit
    (EXIT_FAILURE)], or the C++ has no defined behaviour (a store outside
    the packet buffer, a null pointer from [memchr]), or the loop has not
    returned within the steps allowed to it. *)
Inductive Outcome (S A : Type) :=
| Ret (a : A) (s : S)
| Exit (s : S)
| Undefined (s : S)
| OutOfFuel (s : S).
Arguments Ret {S A} a s.
Arguments Exit {S A} s.
Arguments Undefined {S A} s.
Arguments OutOfFuel {S A} s.

Definition M (S A : Type) : Type := S -> Outcome S A.

Definition ret {S A} (a : A) : M S A := fun s => Ret a s.

Definition bind {S A B} (m : M S A) (k : A -> M S B) : M S B :=
  fun s =>
    match m s with
    | Ret a s' => k a s'
    | Exit s' => Exit s'
    | Undefined s' => Undefined s'
    | OutOfFuel s' => OutOfFuel s'
    end.

Definition exit_failure {S A} : M S A := fun s => Exit s.
Definition undefined {S A} : M S A := fun s => Undefined s.
Definition out_of_fuel {S A} : M S A := fun s => OutOfFuel s.

Declare Scope server_scope.
Delimit Scope server_scope with server.
Notation "x <- m ;; k" := (bind m (fun x => k))
  (at level 61, m at next level, right associativity) : server_scope.
Notation "m ;; k" := (bind m (fun _ => k))
  (at level 61, right associativity) : server_scope.
Open Scope server_scope.

(** The state an outcome ends in. *)
Definition final {S A} (o : Outcome S A) : S :=
  match o with
  | Ret _ s | Exit s | Undefined s | OutOfFuel s => s
  end.

(** [for (i = first; ...; i++) body (i)], [n] times. *)
Fixpoint for_loop {S} (n : nat) (i : Z) (body : Z -> M S unit) : M S unit :=
  match n with
  | O => ret tt
  | S n' => body i ;; for_loop n' (i + 1) body
  end.

Fixpoint for_each {S A} (l : list A) (body : A -> M S unit) : M S unit :=
  match l with
  | [] => ret tt
  | x :: rest => body x ;; for_each rest body
  end.

(** ** The server *)

(** [GdbServerImpl]: the fields of the class, the states of the
    collaborators it points to, and [trace], the calls made so far,
    oldest first. *)
Record GdbServerImpl (T C K : Type) := {
  cpu : T;
  rsp : C;
  clock : K;
  traceFlags : TraceFlags;
  pkt : RspPacket;
  mpHash : MpHash;
  mTimeout : Z;
  killBehaviour : KillBehaviour;
  mExitServer : bool;
  mSyscallContinuation : SyscallContinuationType;
  trace : list Event
}.
Arguments cpu {T C K} _.
Arguments rsp {T C K} _.
Arguments clock {T C K} _.
Arguments traceFlags {T C K} _.
Arguments pkt {T C K} _.
Arguments mpHash {T C K} _.
Arguments mTimeout {T C K} _.
Arguments killBehaviour {T C K} _.
Arguments mExitServer {T C K} _.
Arguments mSyscallContinuation {T C K} _.
Arguments trace {T C K} _.

(** The constructor: no timeout, no exit requested, no system call
    pending, an empty matchpoint table.  [buf] is the freshly allocated
    packet buffer of [RSP_PKT_SIZE] characters. *)
Definition GdbServerImpl_new {T C K} (conn : C) (t : T) (k : K)
  (flags : TraceFlags) (kb : KillBehaviour) (buf : list ascii)
  : GdbServerImpl T C K :=
  {| cpu := t; rsp := conn; clock := k; traceFlags := flags;
     pkt := {| data := buf; len := 0 |}; mpHash := [];
     mTimeout := 0; killBehaviour := kb; mExitServer := false;
     mSyscallContinuation := SYSCALL_NONE_PENDING; trace := [] |}.

(** ** A scripted target, connection and clock

    The fakes drive the server on concrete sessions: the target answers
    the calls that run it from a list of results, the connection hands
    out a list of packets and answers [haveBreak] from a list, the clock
    reads out a list of ticks. *)

Fixpoint lookup (k : Z) (m : list (Z * Z)) : option Z :=
  match m with
  | [] => None
  | (k', v) :: rest => if k =? k' then Some v else lookup k rest
  end.

Record FakeTarget := {
  fake_regs : list (Z * Z);
  (** mapped bytes; a read elsewhere fails *)
  fake_mem : list (Z * Z);
  fake_results : list ResumeRes;
  (** the text [command] answers with, when it accepts commands *)
  fake_command : option (list ascii)
}.

Fixpoint fake_store (addr : Z) (bytes : list Z) (m : list (Z * Z))
  : list (Z * Z) :=
  match bytes with
  | [] => m
  | b :: rest => fake_store (addr + 1) rest ((addr, b) :: m)
  end.

#[export] Instance FakeTarget_ITarget : ITarget FakeTarget := {
  resume ty _ t :=
    match ty with
    | STOP => (NONE, t)
    | _ =>
        match fake_results t with
        | [] => (TIMEOUT, t)
        | r :: rest =>
            (r, {| fake_regs := fake_regs t; fake_mem := fake_mem t;
                   fake_results := rest; fake_command := fake_command t |})
        end
    end;
  reset _ t := (SUCCESS, t);
  readRegister reg t :=
    (match lookup reg (fake_regs t) with Some v => v | None => 0 end, 4);
  writeRegister reg val t :=
    (4, {| fake_regs := (reg, val) :: fake_regs t; fake_mem := fake_mem t;
           fake_results := fake_results t;
           fake_command := fake_command t |});
  read addr t := lookup addr (fake_mem t);
  write addr bytes t :=
    (Z.of_nat (length bytes),
     {| fake_regs := fake_regs t;
        fake_mem := fake_store addr bytes (fake_mem t);
        fake_results := fake_results t;
        fake_command := fake_command t |});
  command _ t :=
    match fake_command t with
    | Some out => ((true, out), t)
    | None => ((false, []), t)
    end;
  getCycleCount _ := 0;
  getInstrCount _ := 0
}.

Record FakeConnection := {
  fake_connected : bool;
  fake_inbox : list (list ascii);
  fake_outbox : list (list ascii);
  fake_breaks : list bool
}.

#[export] Instance FakeConnection_AbstractConnection
  : AbstractConnection FakeConnection := {
  rspConnect c :=
    (true, {| fake_connected := true; fake_inbox := fake_inbox c;
              fake_outbox := fake_outbox c; fake_breaks := fake_breaks c |});
  rspClose c :=
    {| fake_connected := false; fake_inbox := fake_inbox c;
       fake_outbox := fake_outbox c; fake_breaks := fake_breaks c |};
  isConnected c := fake_connected c;
  getPkt p c :=
    match fake_inbox c with
    | [] => ((false, p), c)
    | x :: rest =>
        ((true, {| data := store 0 (x ++ [NUL]) (data p);
                   len := Z.of_nat (length x) |}),
         {| fake_connected := fake_connected c; fake_inbox := rest;
            fake_outbox := fake_outbox c; fake_breaks := fake_breaks c |})
    end;
  putPkt pl c :=
    {| fake_connected := fake_connected c; fake_inbox := fake_inbox c;
       fake_outbox := fake_outbox c ++ [pl]; fake_breaks := fake_breaks c |};
  haveBreak c :=
    match fake_breaks c with
    | [] => (false, c)
    | b :: rest =>
        (b, {| fake_connected := fake_connected c;
               fake_inbox := fake_inbox c; fake_outbox := fake_outbox c;
               fake_breaks := rest |})
    end
}.

(** A connection that is lost: no packet arrives and it cannot be
    brought up again. *)
Record LostConnection := { lost_connected : bool }.

#[export] Instance LostConnection_AbstractConnection
  : AbstractConnection LostConnection := {
  rspConnect c := (false, c);
  rspClose _ := {| lost_connected := false |};
  isConnected c := lost_connected c;
  getPkt p c := ((false, p), c);
  putPkt _ c := c;
  haveBreak c := (false, c)
}.

Record FakeClock := { fake_ticks : list Z }.

#[export] Instance FakeClock_SystemClock : SystemClock FakeClock := {
  now k :=
    match fake_ticks k with
    | [] => (0, k)
    | t :: rest => (t, {| fake_ticks := rest |})
    end;
  strftime_now k := (str "1970-01-01 00:00:00", k)
}.

(** Modelled from the spec: [SyscallReplyPacket::parse] is not among the
    sources; the spec has it read [F<retcode>[,<errno>][;C]] into retcode,
    errno, the Ctrl-C flag and validity.  The numbers are hexadecimal. *)
Definition fake_parse (buf : list ascii) : SyscallReplyPacket :=
  let bad := {| valid := false; retcode := 0; hasCtrlC := false |} in
  match cstr buf with
  | "F"%char :: rest =>
      let (neg, r1) := scan_sign rest in
      match scan_digits hex_val 16 None r1 with
      | (Some v, r2) =>
          let rc := int32 (if neg then - v else v) in
          let r3 :=
            match r2 with
            | ","%char :: r =>
                snd (scan_digits hex_val 16 None (snd (scan_sign r)))
            | _ => r2
            end in
          match r3 with
          | [] => {| valid := true; retcode := rc; hasCtrlC := false |}
          | [";"%char; "C"%char] =>
              {| valid := true; retcode := rc; hasCtrlC := true |}
          | _ => bad
          end
      | (None, _) => bad
      end
  | _ => bad
  end.

Definition FakeServer : Type :=
  GdbServerImpl FakeTarget FakeConnection FakeClock.

(** A packet buffer of 256 characters. *)
Definition fake_buffer : list ascii := repeat NUL 256.

(** A connected server with the packets [inbox] waiting, the registers
    [regs], the memory [mem], the target results [results], the answers
    [breaks] to the coming break polls and the clock readings [ticks]. *)
Definition fake_server (inbox : list (list ascii)) (regs mem : list (Z * Z))
  (results : list ResumeRes) (cmd : option (list ascii))
  (breaks : list bool) (ticks : list Z) : FakeServer :=
  GdbServerImpl_new
    {| fake_connected := true; fake_inbox := inbox; fake_outbox := [];
       fake_breaks := breaks |}
    {| fake_regs := regs; fake_mem := mem; fake_results := results;
       fake_command := cmd |}
    {| fake_ticks := ticks |}
    [] EXIT_ON_KILL fake_buffer.

(** A server that holds the packet [payload] in its buffer, as [getPkt]
    leaves it, with the continuation [sysCont] pending. *)
Definition fake_holding (payload : list ascii) (regs mem : list (Z * Z))
  (results : list ResumeRes) (cmd : option (list ascii))
  (sysCont : SyscallContinuationType) : FakeServer :=
  {| cpu := {| fake_regs := regs; fake_mem := mem; fake_results := results;
               fake_command := cmd |};
     rsp := {| fake_connected := true; fake_inbox := []; fake_outbox := [];
               fake_breaks := [] |};
     clock := {| fake_ticks := [] |};
     traceFlags := [];
     pkt := {| data := payload ++ NUL :: repeat NUL (255 - length payload);
               len := Z.of_nat (length payload) |};
     mpHash := [];
     mTimeout := 0;
     killBehaviour := EXIT_ON_KILL;
     mExitServer := false;
     mSyscallContinuation := sysCont;
     trace := [] |}.

(** ** The methods of the server *)

Section Server.

Context {T C K : Type}.
Context `{Target : ITarget T} `{Connection : AbstractConnection C}.
Context `{Clock : SystemClock K}.

(** [SyscallReplyPacket::parse] is declared in [SyscallReplyPacket.h],
    which is not among the sources: the server is modelled over any
    parser of the packet text. *)
Variable parse : list ascii -> SyscallReplyPacket.

Local Abbreviation Server := (GdbServerImpl T C K).

Definition with_cpu (t : T) (s : Server) : Server :=
  {| cpu := t; rsp := rsp s; clock := clock s; traceFlags := traceFlags s;
     pkt := pkt s; mpHash := mpHash s; mTimeout := mTimeout s;
     killBehaviour := killBehaviour s; mExitServer := mExitServer s;
     mSyscallContinuation := mSyscallContinuation s; trace := trace s |}.

Definition with_rsp (c : C) (s : Server) : Server :=
  {| cpu := cpu s; rsp := c; clock := clock s; traceFlags := traceFlags s;
     pkt := pkt s; mpHash := mpHash s; mTimeout := mTimeout s;
     killBehaviour := killBehaviour s; mExitServer := mExitServer s;
     mSyscallContinuation := mSyscallContinuation s; trace := trace s |}.

Definition with_clock (k : K) (s : Server) : Server :=
  {| cpu := cpu s; rsp := rsp s; clock := k; traceFlags := traceFlags s;
     pkt := pkt s; mpHash := mpHash s; mTimeout := mTimeout s;
     killBehaviour := killBehaviour s; mExitServer := mExitServer s;
     mSyscallContinuation := mSyscallContinuation s; trace := trace s |}.

Definition with_traceFlags (f : TraceFlags) (s : Server) : Server :=
  {| cpu := cpu s; rsp := rsp s; clock := clock s; traceFlags := f;
     pkt := pkt s; mpHash := mpHash s; mTimeout := mTimeout s;
     killBehaviour := killBehaviour s; mExitServer := mExitServer s;
     mSyscallContinuation := mSyscallContinuation s; trace := trace s |}.

Definition with_pkt (p : RspPacket) (s : Server) : Server :=
  {| cpu := cpu s; rsp := rsp s; clock := clock s; traceFlags := traceFlags s;
     pkt := p; mpHash := mpHash s; mTimeout := mTimeout s;
     killBehaviour := killBehaviour s; mExitServer := mExitServer s;
     mSyscallContinuation := mSyscallContinuation s; trace := trace s |}.

Definition with_mTimeout (t : Z) (s : Server) : Server :=
  {| cpu := cpu s; rsp := rsp s; clock := clock s; traceFlags := traceFlags s;
     pkt := pkt s; mpHash := mpHash s; mTimeout := t;
     killBehaviour := killBehaviour s; mExitServer := mExitServer s;
     mSyscallContinuation := mSyscallContinuation s; trace := trace s |}.

Definition with_mExitServer (b : bool) (s : Server) : Server :=
  {| cpu := cpu s; rsp := rsp s; clock := clock s; traceFlags := traceFlags s;
     pkt := pkt s; mpHash := mpHash s; mTimeout := mTimeout s;
     killBehaviour := killBehaviour s; mExitServer := b;
     mSyscallContinuation := mSyscallContinuation s; trace := trace s |}.

Definition with_mSyscallContinuation (c : SyscallContinuationType)
  (s : Server) : Server :=
  {| cpu := cpu s; rsp := rsp s; clock := clock s; traceFlags := traceFlags s;
     pkt := pkt s; mpHash := mpHash s; mTimeout := mTimeout s;
     killBehaviour := killBehaviour s; mExitServer := mExitServer s;
     mSyscallContinuation := c; trace := trace s |}.

Definition log (e : Event) (s : Server) : Server :=
  {| cpu := cpu s; rsp := rsp s; clock := clock s; traceFlags := traceFlags s;
     pkt := pkt s; mpHash := mpHash s; mTimeout := mTimeout s;
     killBehaviour := killBehaviour s; mExitServer := mExitServer s;
     mSyscallContinuation := mSyscallContinuation s;
     trace := trace s ++ [e] |}.

(** *** Calls on the collaborators *)

Definition get {A} (f : Server -> A) : M Server A := fun s => Ret (f s) s.
Definition modify (f : Server -> Server) : M Server unit :=
  fun s => Ret tt (f s).

Definition cpu_resume (ty : ResumeType) (slice : option Z)
  : M Server ResumeRes :=
  fun s => let (r, t) := resume ty slice (cpu s) in
           Ret r (log (EvResume ty slice) (with_cpu t s)).

Definition cpu_reset (ty : ResetType) : M Server ResumeRes :=
  fun s => let (r, t) := reset ty (cpu s) in
           Ret r (log (EvReset ty) (with_cpu t s)).

Definition cpu_readRegister (reg : Z) : M Server (Z * Z) :=
  fun s => Ret (readRegister reg (cpu s)) (log (EvReadRegister reg) s).

Definition cpu_writeRegister (reg val : Z) : M Server Z :=
  fun s => let (n, t) := writeRegister reg val (cpu s) in
           Ret n (log (EvWriteRegister reg val) (with_cpu t s)).

Definition cpu_read (addr : Z) : M Server (option Z) :=
  fun s => Ret (read addr (cpu s)) (log (EvRead addr) s).

Definition cpu_write (addr : Z) (bytes : list Z) : M Server Z :=
  fun s => let (n, t) := write addr bytes (cpu s) in
           Ret n (log (EvWrite addr bytes) (with_cpu t s)).

Definition cpu_command (cmd : list ascii) : M Server (bool * list ascii) :=
  fun s => let (r, t) := command cmd (cpu s) in
           Ret r (log (EvCommand cmd) (with_cpu t s)).

Definition cpu_getCycleCount : M Server Z :=
  fun s => Ret (getCycleCount (cpu s)) (log EvGetCycleCount s).

Definition cpu_getInstrCount : M Server Z :=
  fun s => Ret (getInstrCount (cpu s)) (log EvGetInstrCount s).

Definition rsp_rspConnect : M Server bool :=
  fun s => let (b, c) := rspConnect (rsp s) in
           Ret b (log EvConnect (with_rsp c s)).

Definition rsp_rspClose : M Server unit :=
  fun s => Ret tt (log EvClose (with_rsp (rspClose (rsp s)) s)).

Definition rsp_getPkt : M Server bool :=
  fun s => let '(b, p, c) := getPkt (pkt s) (rsp s) in
           Ret b (log EvGetPkt (with_pkt p (with_rsp c s))).

(** [rsp->putPkt (pkt)]: the payload is [data[0 .. len)]. *)
Definition payload (p : RspPacket) : list ascii :=
  firstn (Z.to_nat (len p)) (data p).

Definition rsp_putPkt : M Server unit :=
  fun s => let pl := payload (pkt s) in
           Ret tt (log (EvPutPkt pl) (with_rsp (putPkt pl (rsp s)) s)).

Definition rsp_haveBreak : M Server bool :=
  fun s => let (b, c) := haveBreak (rsp s) in
           Ret b (log EvHaveBreak (with_rsp c s)).

Definition system_clock_now : M Server Z :=
  fun s => let (t, k) := now (clock s) in
           Ret t (log EvNow (with_clock k s)).

Definition system_clock_strftime : M Server (list ascii) :=
  fun s => let (t, k) := strftime_now (clock s) in
           Ret t (log EvNow (with_clock k s)).

Definition cout (line : list ascii) : M Server unit :=
  modify (log (EvCout line)).

(** *** Stores into the packet buffer *)

(** [pkt->data[i] = c]; a store outside the buffer is undefined. *)
Definition poke (i : Z) (c : ascii) : M Server unit :=
  fun s =>
    if (0 <=? i) && (i <? getBufSize (pkt s))
    then Ret tt (with_pkt (setData (store i [c] (data (pkt s))) (pkt s)) s)
    else Undefined s.

(** [sprintf (pkt->data + off, ...)] with the formatted text [txt]: the
    text and its NUL, unchecked against the buffer size. *)
Definition sprintf_at (off : Z) (txt : list ascii) : M Server unit :=
  fun s =>
    if (0 <=? off) && (off + Z.of_nat (length txt) <? getBufSize (pkt s))
    then Ret tt
           (with_pkt (setData (store off (txt ++ [NUL]) (data (pkt s)))
                              (pkt s)) s)
    else Undefined s.

Definition sprintf (txt : list ascii) : M Server unit := sprintf_at 0 txt.

(** [pkt->setLen (strlen (pkt->data))] *)
Definition setLen_strlen : M Server unit :=
  modify (fun s => with_pkt (setLen (strlen (data (pkt s))) (pkt s)) s).

Definition pkt_packStr (txt : list ascii) : M Server unit :=
  modify (fun s => with_pkt (packStr txt (pkt s)) s).

Definition pkt_packHexstr (txt : list ascii) : M Server unit :=
  modify (fun s => with_pkt (packHexstr txt (pkt s)) s).

Definition pkt_packRcmdStr (txt : list ascii) : M Server unit :=
  modify (fun s => with_pkt (packRcmdStr txt (pkt s)) s).

(** [pkt->packStr (txt); rsp->putPkt (pkt);] *)
Definition reply (txt : list ascii) : M Server unit :=
  pkt_packStr txt ;; rsp_putPkt.

(** [Utils::val2Hex (val, &(pkt->data[off]), byteSize, true)]: the
    digits and the closing NUL. *)
Definition pkt_val2Hex (val : Z) (off : Z) (byteSize : Z) : M Server unit :=
  if byteSize <? 0 then undefined
  else sprintf_at off (val2Hex val (Z.to_nat byteSize)).

(** *** Stop replies *)

(** [rspReportException (sig)] *)
Definition rspReportException (sig : TargetSignal) : M Server unit :=
  poke 0 "S"%char ;;
  poke 1 (hex2Char (Z.shiftr (signal_number sig) 4)) ;;
  poke 2 (hex2Char (Z.rem (signal_number sig) 16)) ;;
  poke 3 NUL ;;
  setLen_strlen ;;
  rsp_putPkt.

(** *** Semihosted system calls *)

(** [stringLength (addr)], entered with the count so far. *)
Fixpoint stringLength_from (fuel : nat) (addr : Z) (count : Z)
  : M Server Z :=
  match fuel with
  | O => out_of_fuel
  | S fuel' =>
      r <- cpu_read (uint32 (addr + count)) ;;
      match r with
      | Some ch =>
          let count' := int32 (count + 1) in
          if uint8 ch =? 0 then ret count'
          else stringLength_from fuel' addr count'
      | None => ret count
      end
  end.

Definition stringLength (fuel : nat) (addr : Z) : M Server Z :=
  stringLength_from fuel addr 0.

Definition comma : list ascii := str ",".

(** [rspSyscallRequest (cType)] *)
Definition rspSyscallRequest (fuel : nat) (cType : SyscallContinuationType)
  : M Server unit :=
  modify (with_mSyscallContinuation cType) ;;
  r0 <- cpu_readRegister 10 ;;
  r1 <- cpu_readRegister 11 ;;
  r2 <- cpu_readRegister 12 ;;
  r3 <- cpu_readRegister 13 ;;
  r7 <- cpu_readRegister 17 ;;
  let a0 := uint32 (fst r0) in
  let a1 := uint32 (fst r1) in
  let a2 := uint32 (fst r2) in
  let a7 := uint32 (fst r7) in
  let send := setLen_strlen ;; rsp_putPkt in
  if a7 =? 57 then
    sprintf (str "Fclose," ++ fmt_x a0) ;; send
  else if a7 =? 62 then
    sprintf (str "Flseek," ++ fmt_x a0 ++ comma ++ fmt_x a1 ++ comma
               ++ fmt_x a2) ;; send
  else if a7 =? 63 then
    sprintf (str "Fread," ++ fmt_x a0 ++ comma ++ fmt_x a1 ++ comma
               ++ fmt_x a2) ;; send
  else if a7 =? 64 then
    sprintf (str "Fwrite," ++ fmt_x a0 ++ comma ++ fmt_x a1 ++ comma
               ++ fmt_x a2) ;; send
  else if a7 =? 80 then
    sprintf (str "Ffstat," ++ fmt_x a0 ++ comma ++ fmt_x a1) ;; send
  else if a7 =? 93 then
    sprintf (str "W" ++ fmt_x a0) ;;
    modify (with_mSyscallContinuation SYSCALL_NONE_PENDING) ;;
    send
  else if a7 =? 169 then
    sprintf (str "Fgettimeofday," ++ fmt_x a0 ++ comma ++ fmt_x a1) ;; send
  else if a7 =? 1024 then
    n <- stringLength fuel a0 ;;
    sprintf (str "Fopen," ++ fmt_x a0 ++ str "/" ++ fmt_x n ++ comma
               ++ fmt_x a1 ++ comma ++ fmt_x a2) ;; send
  else if a7 =? 1026 then
    n <- stringLength fuel a0 ;;
    sprintf (str "Funlink," ++ fmt_x a0 ++ str "/" ++ fmt_x n) ;; send
  else if a7 =? 1038 then
    n <- stringLength fuel a0 ;;
    sprintf (str "Fstat," ++ fmt_x a0 ++ str "/" ++ fmt_x n ++ comma
               ++ fmt_x a1) ;; send
  else
    rspReportException SIG_TRAP.

(** *** Continue and step *)

(** The [for (;;)] of [rspContinue]: one pass per slice the target is
    given. *)
Fixpoint rspContinue_loop (fuel : nat) (timeout_end : Z) : M Server unit :=
  match fuel with
  | O => out_of_fuel
  | S fuel' =>
      resType <- cpu_resume CONTINUE (Some interruptTimeout) ;;
      match resType with
      | SYSCALL => rspSyscallRequest fuel' SYSCALL_THEN_FINISH_CONTINUE
      | STEPPED | INTERRUPTED => rspReportException SIG_TRAP
      | TIMEOUT =>
          timeout <- get mTimeout ;;
          expired <-
            (if timeout =? 0 then ret false
             else t <- system_clock_now ;; ret (timeout_end <? t)) ;;
          if (expired : bool) then
            cpu_resume STOP None ;; rspReportException SIG_XCPU
          else
            brk <- rsp_haveBreak ;;
            if (brk : bool) then
              cpu_resume STOP None ;; rspReportException SIG_INT
            else rspContinue_loop fuel' timeout_end
      | _ => exit_failure
      end
  end.

(** [rspContinue ()] *)
Definition rspContinue (fuel : nat) : M Server unit :=
  t0 <- system_clock_now ;;
  timeout <- get mTimeout ;;
  let timeout_end := t0 + timeout * ticks_per_second in
  brk <- rsp_haveBreak ;;
  if (brk : bool) then cpu_resume STOP None ;; rspReportException SIG_INT
  else rspContinue_loop fuel timeout_end.

(** [rspSingleStep ()] *)
Definition rspSingleStep (fuel : nat) : M Server unit :=
  brk <- rsp_haveBreak ;;
  if (brk : bool) then cpu_resume STOP None ;; rspReportException SIG_INT
  else
    resType <- cpu_resume STEP None ;;
    match resType with
    | SYSCALL => rspSyscallRequest fuel SYSCALL_THEN_FINISH_STEPPING
    | _ =>
        brk' <- rsp_haveBreak ;;
        if (brk' : bool) then
          cpu_resume STOP None ;; rspReportException SIG_INT
        else rspReportException SIG_TRAP
    end.

(** [rspSyscallReply ()] *)
Definition rspSyscallReply (fuel : nat) : M Server unit :=
  sysCont <- get mSyscallContinuation ;;
  modify (with_mSyscallContinuation SYSCALL_NONE_PENDING) ;;
  buf <- get (fun s => data (pkt s)) ;;
  let p := parse buf in
  if valid p then
    (if retcode p =? -1 then ret tt
     else cpu_writeRegister 10 (uint32 (retcode p)) ;; ret tt) ;;
    if hasCtrlC p then rspReportException SIG_INT
    else
      match sysCont with
      | SYSCALL_NONE_PENDING
      | SYSCALL_THEN_FINISH_STEPPING => rspReportException SIG_TRAP
      | SYSCALL_THEN_FINISH_CONTINUE => rspContinue fuel
      end
  else reply (str "E01").

(** *** Registers and memory *)

(** [rspReadAllRegs ()]: the loop body, entered with [pktSize]. *)
Fixpoint rspReadAllRegs_loop (n : nat) (regNum : Z) (pktSize : Z)
  : M Server Z :=
  match n with
  | O => ret pktSize
  | S n' =>
      r <- cpu_readRegister regNum ;;
      let val := uint32 (fst r) in
      let byteSize := int32 (snd r) in
      pkt_val2Hex val pktSize byteSize ;;
      rspReadAllRegs_loop n' (regNum + 1) (int32 (pktSize + byteSize * 2))
  end.

Definition rspReadAllRegs : M Server unit :=
  pktSize <- rspReadAllRegs_loop RISCV_NUM_REGS 0 0 ;;
  poke pktSize NUL ;;
  modify (fun s => with_pkt (setLen pktSize (pkt s)) s) ;;
  rsp_putPkt.

(** [rspWriteAllRegs ()]: the values are taken from the start of the
    buffer, eight digits apiece. *)
Definition rspWriteAllRegs : M Server unit :=
  for_loop RISCV_NUM_REGS 0
    (fun regNum =>
       buf <- get (fun s => data (pkt s)) ;;
       let pktSize := regNum * (Z.of_nat REG_BYTES * 2) in
       let val := uint32 (hex2Val (at_off pktSize buf) REG_BYTES) in
       cpu_writeRegister regNum val ;; ret tt) ;;
  reply (str "OK").

(** [rspReadMem ()] *)
Definition rspReadMem : M Server unit :=
  buf <- get (fun s => data (pkt s)) ;;
  bufSize <- get (fun s => getBufSize (pkt s)) ;;
  match sscanf_c_x_x "m"%char buf with
  | None => reply (str "E01")
  | Some (addr, ulen) =>
      let len0 := int32 ulen in
      let len1 :=
        if int32 (len0 * 2) >=? bufSize then Z.quot (bufSize - 1) 2
        else len0 in
      for_loop (Z.to_nat len1) 0
        (fun off =>
           r <- cpu_read (uint32 (addr + off)) ;;
           match r with
           | Some ch =>
               poke (off * 2) (hex2Char (Z.shiftr (uint8 ch) 4)) ;;
               poke (off * 2 + 1) (hex2Char (Z.land (uint8 ch) 15))
           | None => ret tt
           end) ;;
      poke (Z.max len1 0 * 2) NUL ;;
      setLen_strlen ;;
      rsp_putPkt
  end.

(** [rspWriteMem ()] *)
Definition rspWriteMem : M Server unit :=
  buf <- get (fun s => data (pkt s)) ;;
  bufSize <- get (fun s => getBufSize (pkt s)) ;;
  pktLen <- get (fun s => len (pkt s)) ;;
  match sscanf_c_x_x "M"%char buf with
  | None => reply (str "E01")
  | Some (addr, ulen) =>
      let len0 := int32 ulen in
      match memchr buf ":"%char bufSize with
      | None => undefined
      | Some colon =>
          let symDat := colon + 1 in
          let datLen := int32 (pktLen - symDat) in
          if negb (int32 (len0 * 2) =? datLen) then reply (str "E01")
          else
            for_loop (Z.to_nat len0) 0
              (fun off =>
                 let nyb1 := uint8 (char2Hex (char_at buf (symDat + off * 2))) in
                 let nyb2 :=
                   uint8 (char2Hex (char_at buf (symDat + off * 2 + 1))) in
                 let val := uint8 (Z.lor (Z.shiftl nyb1 4) nyb2) in
                 cpu_write (uint32 (addr + off)) [val] ;; ret tt) ;;
            reply (str "OK")
      end
  end.

(** [rspReadReg ()] *)
Definition rspReadReg : M Server unit :=
  buf <- get (fun s => data (pkt s)) ;;
  match sscanf_p buf with
  | None => reply (str "E01")
  | Some regNum =>
      r <- cpu_readRegister (int32 regNum) ;;
      let val := uint32 (fst r) in
      let byteSize := int32 (snd r) in
      if byteSize <? 0 then reply (str "E01")
      else pkt_val2Hex val 0 byteSize ;; setLen_strlen ;; rsp_putPkt
  end.

(** [rspWriteReg ()] *)
Definition rspWriteReg : M Server unit :=
  buf <- get (fun s => data (pkt s)) ;;
  match sscanf_P buf with
  | None => reply (str "E01")
  | Some (regNum, valstr) =>
      let val := uint32 (hex2Val valstr REG_BYTES) in
      cpu_writeRegister (int32 regNum) val ;;
      reply (str "OK")
  end.

(** [rspWriteMemBin ()] *)
Definition rspWriteMemBin : M Server unit :=
  buf <- get (fun s => data (pkt s)) ;;
  bufSize <- get (fun s => getBufSize (pkt s)) ;;
  pktLen <- get (fun s => len (pkt s)) ;;
  match sscanf_X buf with
  | None => reply (str "E01")
  | Some (addr, len0) =>
      match memchr buf ":"%char bufSize with
      | None => undefined
      | Some colon =>
          let off := colon + 1 in
          let bindat := rspUnescape (firstn (Z.to_nat (pktLen - off))
                                            (at_off off buf)) in
          let newLen := Z.of_nat (length bindat) in
          modify (fun s =>
                    with_pkt (setData (store off bindat buf) (pkt s)) s) ;;
          let len1 :=
            if negb (newLen =? len0)
            then uint64 (int32 (if len0 <? newLen then len0 else newLen))
            else len0 in
          cpu_write addr (map code (firstn (Z.to_nat len1) bindat)) ;;
          reply (str "OK")
      end
  end.

(** *** Matchpoints *)

(** [rspRemoveMatchpoint ()]: the body opens with an empty reply and
    [return]; the statements after it are never reached. *)
Definition rspRemoveMatchpoint : M Server unit := reply (str "").

(** [rspInsertMatchpoint ()]: likewise. *)
Definition rspInsertMatchpoint : M Server unit := reply (str "").

(** *** Queries *)

Definition rspSet : M Server unit := reply (str "").

Definition rspVpkt : M Server unit := reply (str "").

(** [0 == strncmp (lit, buf, strlen (lit))] *)
Definition starts_with (lit : string) (buf : list ascii) : bool :=
  strncmp0 (str lit) buf (length (str lit)).

(** The text the target's [command] left on the stream, given to
    [packRcmdStr] and sent, then [OK]. *)
Definition relay_output (out : list ascii) : M Server unit :=
  pkt_packRcmdStr out ;; rsp_putPkt ;; reply (str "OK").

(** [rspSetCommand (cmd)] *)
Definition rspSetCommand (cmd : list ascii) : M Server unit :=
  let tokens := split cmd in
  match tokens with
  | [t0; flagName; value] =>
      if list_eqb (str "debug") t0 then
        flags <- get traceFlags ;;
        if negb (isFlag flagName flags) then reply (str "E01")
        else if strcasecmp0 value (str "0") || strcasecmp0 value (str "off")
                || strcasecmp0 value (str "false")
        then modify (with_traceFlags (set_flag flagName false flags)) ;;
             reply (str "OK")
        else if strcasecmp0 value (str "1") || strcasecmp0 value (str "on")
                || strcasecmp0 value (str "true")
        then modify (with_traceFlags (set_flag flagName true flags)) ;;
             reply (str "OK")
        else reply (str "E02")
      else
        r <- cpu_command (str "set " ++ cstr cmd) ;;
        if fst r then relay_output (snd r) else reply (str "E04")
  | _ =>
      r <- cpu_command (str "set " ++ cstr cmd) ;;
      if fst r then relay_output (snd r) else reply (str "E04")
  end.

Definition on_off (b : bool) : list ascii :=
  if b then str "ON" else str "OFF".

Definition endl : list ascii := ["010"%char].

Fixpoint show_flags (fl all : TraceFlags) : list ascii :=
  match fl with
  | [] => []
  | (n, _) :: rest =>
      n ++ str ": " ++ on_off (flag n all) ++ endl ++ show_flags rest all
  end.

(** [rspShowCommand (cmd)] *)
Definition rspShowCommand (cmd : list ascii) : M Server unit :=
  let tokens := split cmd in
  let target :=
    r <- cpu_command (str "show " ++ cstr cmd) ;;
    if fst r then relay_output (snd r) else reply (str "E04") in
  match tokens with
  | [t0] =>
      if list_eqb (str "debug") t0 then
        flags <- get traceFlags ;;
        relay_output (show_flags flags flags)
      else target
  | [t0; flagName] =>
      if list_eqb (str "debug") t0 then
        flags <- get traceFlags ;;
        if negb (isFlag flagName flags) then reply (str "E01")
        else relay_output
               (flagName ++ str ": " ++ on_off (flag flagName flags) ++ endl)
      else target
  | _ => target
  end.

(** *** Monitor commands *)

(** The [mess] table of the help command; every line ends in a newline. *)
Definition help_mess : list (list ascii) :=
  map (fun l => str l ++ endl)
    [ "The following generic monitor commands are supported:";
      "  help";
      "    Produce this message";
      "  reset [cold | warm]";
      "    Reset the simulator (default warm)";
      "  exit";
      "    Exit the GDB server";
      "  timeout <interval>";
      "    Maximum time in seconds taken by continue packet";
      "  cyclecount";
      "    Report cycles executed since last report and since reset";
      "  instrcount";
      "    Report instructions executed since last report and since reset";
      "  set debug <level>";
      "    Set debug messaging in target to <level>";
      "  show debug";
      "    Show current level of debug messaging in target";
      "  set remote-debug <0|1>";
      "    Disable/enable tracing of Remote Serial Protocol (RSP)";
      "  show remote-debug";
      "    Show whether RSP tracing is enabled";
      "  echo <message>";
      "    Echo <message> on stdout of the gdbserver" ]%string.

(** [while (getline (ss, line, '\n'))]: the lines of a stream. *)
Fixpoint getlines_acc (cur : list ascii) (s : list ascii)
  : list (list ascii) :=
  match s with
  | [] => match cur with [] => [] | _ => [rev cur] end
  | c :: rest =>
      if Ascii.eqb c "010"%char then rev cur :: getlines_acc [] rest
      else getlines_acc (c :: cur) rest
  end.

Definition getlines (s : list ascii) : list (list ascii) := getlines_acc [] s.

(** [pkt->packRcmdStr (line, true); rsp->putPkt (pkt);] *)
Definition put_rcmd (line : list ascii) : M Server unit :=
  pkt_packRcmdStr line ;; rsp_putPkt.

(** The branch of [rspCommand] taken by the help command. *)
Definition rspCommand_help : M Server unit :=
  for_each help_mess put_rcmd ;;
  r <- cpu_command (str "help") ;;
  (if fst r then
     put_rcmd (str "The following target specific monitor commands are supported:"
               ++ endl) ;;
     for_each (getlines (snd r)) (fun line => put_rcmd (line ++ endl))
   else
     put_rcmd (str "There are no target specific monitor commands")) ;;
  reply (str "OK").

(** The last [else] of [rspCommand]: the command goes to the target. *)
Definition rspCommand_target (cmd : list ascii) : M Server unit :=
  r <- cpu_command cmd ;;
  if fst r then relay_output (snd r) else reply (str "E01").

(** [rspCommand ()]: [cmd] is the decoded text as a C string. *)
Definition rspCommand : M Server unit :=
  buf <- get (fun s => data (pkt s)) ;;
  let cmd := cstr (hex2Ascii (at_off 6 buf)) in
  if strncmp0 (str "help") cmd (length cmd) then rspCommand_help
  else if strcmp0 cmd (str "reset") || strcmp0 cmd (str "reset warm") then
    r <- cpu_reset WARM ;;
    match r with SUCCESS => reply (str "OK") | _ => exit_failure end
  else if strcmp0 cmd (str "reset cold") then
    r <- cpu_reset COLD ;;
    match r with SUCCESS => reply (str "OK") | _ => exit_failure end
  else if strcmp0 cmd (str "exit") then
    modify (with_mExitServer true)
  else
    match sscanf_timeout cmd with
    | Some timeout =>
        modify (with_mTimeout timeout) ;; reply (str "OK")
    | None =>
        if strcmp0 cmd (str "timestamp") then
          buff <- system_clock_strftime ;;
          pkt_packHexstr (buff ++ endl) ;; rsp_putPkt ;; reply (str "OK")
        else if strcmp0 cmd (str "cyclecount") then
          n <- cpu_getCycleCount ;;
          pkt_packHexstr (fmt_u64 n ++ endl) ;; rsp_putPkt ;; reply (str "OK")
        else if strcmp0 cmd (str "instrcount") then
          n <- cpu_getInstrCount ;;
          pkt_packHexstr (fmt_u64 n ++ endl) ;; rsp_putPkt ;; reply (str "OK")
        else if starts_with "echo" cmd then
          cout (skip_ws (at_off 4 cmd)) ;; reply (str "OK")
        else if starts_with "set " cmd then
          rspSetCommand (skip_ws (at_off 4 cmd))
        else if starts_with "show " cmd then
          rspShowCommand (skip_ws (at_off 5 cmd))
        else rspCommand_target cmd
    end.

(** [rspQuery ()] *)
Definition rspQuery : M Server unit :=
  buf <- get (fun s => data (pkt s)) ;;
  bufSize <- get (fun s => getBufSize (pkt s)) ;;
  if strcmp0 (str "qC") buf then
    sprintf (str "QC" ++ fmt_x DUMMY_TID) ;; setLen_strlen ;; rsp_putPkt
  else if starts_with "qCRC" buf then reply (str "E01")
  else if strcmp0 (str "qfThreadInfo") buf then
    sprintf (str "m" ++ fmt_x DUMMY_TID) ;; setLen_strlen ;; rsp_putPkt
  else if strcmp0 (str "qsThreadInfo") buf then reply (str "l")
  else if starts_with "qL" buf then reply (str "qM001")
  else if starts_with "qRcmd," buf then rspCommand
  else if starts_with "qSupported" buf then
    sprintf (str "PacketSize=" ++ fmt_x bufSize) ;; setLen_strlen ;;
    rsp_putPkt
  else if starts_with "qSymbol:" buf then reply (str "OK")
  else if starts_with "qThreadExtraInfo," buf then
    sprintf (hexstr (str "Runnable") ++ str "00") ;; setLen_strlen ;;
    rsp_putPkt
  else reply (str "").

(** *** The dispatcher *)

Definition is_char (c : ascii) (x : string) : bool :=
  match x with
  | String a _ => Ascii.eqb c a
  | EmptyString => false
  end.

(** The [switch (pkt->data[0])] of [rspClientRequest]. *)
Definition rspClientRequest_switch (fuel : nat) (c : ascii)
  : M Server unit :=
    if is_char c "!" then reply (str "OK")
    else if is_char c "?" then rspReportException SIG_TRAP
    else if is_char c "A" then reply (str "E01")
    else if is_char c "b" then ret tt
    else if is_char c "B" then ret tt
    else if is_char c "F" then rspSyscallReply fuel
    else if is_char c "c" || is_char c "C" then rspContinue fuel
    else if is_char c "d" then ret tt
    else if is_char c "D" then reply (str "OK") ;; rsp_rspClose
    else if is_char c "g" then rspReadAllRegs
    else if is_char c "G" then rspWriteAllRegs
    else if is_char c "H" then reply (str "OK")
    else if is_char c "i" then rspReportException SIG_TRAP
    else if is_char c "I" then rspReportException SIG_TRAP
    else if is_char c "k" then
      kb <- get killBehaviour ;;
      match kb with
      | EXIT_ON_KILL => modify (with_mExitServer true)
      | RESET_ON_KILL => ret tt
      end
    else if is_char c "m" then rspReadMem
    else if is_char c "M" then rspWriteMem
    else if is_char c "p" then rspReadReg
    else if is_char c "P" then rspWriteReg
    else if is_char c "q" then rspQuery
    else if is_char c "Q" then rspSet
    else if is_char c "r" then ret tt
    else if is_char c "R" then ret tt
    else if is_char c "s" || is_char c "S" then rspSingleStep fuel
    else if is_char c "t" then ret tt
    else if is_char c "T" then reply (str "OK")
    else if is_char c "v" then rspVpkt
    else if is_char c "X" then rspWriteMemBin
    else if is_char c "z" then rspRemoveMatchpoint
    else if is_char c "Z" then rspInsertMatchpoint
    else ret tt.

(** [rspClientRequest ()]: one packet is read and the [switch] on its
    first character is taken. *)
Definition rspClientRequest (fuel : nat) : M Server unit :=
  ok <- rsp_getPkt ;;
  if negb ok then rsp_rspClose
  else
    c <- get (fun s => char_at (data (pkt s)) 0) ;;
    rspClientRequest_switch fuel c.

(** *** The main loop *)

Definition EXIT_SUCCESS : Z := 0.
Definition EXIT_FAILURE : Z := 1.

(** [while (!rsp->isConnected ())] of [rspServer]: [false] when
    [rspConnect] fails. *)
Fixpoint rspServer_connect (fuel : nat) : M Server bool :=
  match fuel with
  | O => out_of_fuel
  | S fuel' =>
      connected <- get (fun s => isConnected (rsp s)) ;;
      if (connected : bool) then ret true
      else
        ok <- rsp_rspConnect ;;
        if negb ok then ret false
        else
          modify (with_mSyscallContinuation SYSCALL_NONE_PENDING) ;;
          rspServer_connect fuel'
  end.

(** [rspServer ()] *)
Fixpoint rspServer (fuel : nat) : M Server Z :=
  match fuel with
  | O => out_of_fuel
  | S fuel' =>
      quit <- get mExitServer ;;
      if (quit : bool) then ret EXIT_SUCCESS
      else
        ok <- rspServer_connect fuel' ;;
        if negb ok then ret EXIT_FAILURE
        else rspClientRequest fuel' ;; rspServer fuel'
  end.

(** [GdbServerImpl::command]: the callback offered to targets. *)
Definition GdbServerImpl_command (cmd : list ascii) : bool := false.

(** ** Vocabulary of the statements *)

Definition is_put (e : Event) : bool :=
  match e with EvPutPkt _ => true | _ => false end.

Fixpoint count (f : Event -> bool) (l : list Event) : nat :=
  match l with
  | [] => O
  | e :: rest => (if f e then 1 else 0) + count f rest
  end.

(** The packets handed to [putPkt] in a list of calls. *)
Definition puts (l : list Event) : nat := count is_put l.

(** The calls a run added to the trace of the state it started in. *)
Definition new_events {A} (s : Server) (o : Outcome Server A)
  : list Event :=
  skipn (length (trace s)) (trace (final o)).

(** The number a string of hexadecimal digits writes. *)
Definition hex_number (h : list ascii) : Z :=
  fold_left
    (fun acc c => 16 * acc + match hex_val c with Some d => d | None => 0 end)
    h 0.

Definition is_hex_digit (c : ascii) : Prop := hex_val c <> None.

(** The byte two hexadecimal digits of an [M] packet decode to. *)
Definition hex_pair (a b : ascii) : Z :=
  uint8 (Z.lor (Z.shiftl (uint8 (char2Hex a)) 4) (uint8 (char2Hex b))).

Fixpoint hex_pairs (dat : list ascii) : list Z :=
  match dat with
  | a :: b :: rest => hex_pair a b :: hex_pairs rest
  | _ => []
  end.

(** The writes of [bytes], one byte per call, from [addr] upwards. *)
Fixpoint byte_writes (addr : Z) (off : Z) (bytes : list Z) : list Event :=
  match bytes with
  | [] => []
  | b :: rest =>
      EvWrite (uint32 (addr + off)) [b] :: byte_writes addr (off + 1) rest
  end.

(** The target once [bytes] are written to it, one byte per call, from
    [addr + off] upwards. *)
Fixpoint written_bytes (addr : Z) (off : Z) (bytes : list Z) (t : T) : T :=
  match bytes with
  | [] => t
  | b :: rest =>
      written_bytes addr (off + 1) rest
        (snd (write (uint32 (addr + off)) [b] t))
  end.

(** The reads of [n] consecutive bytes from [addr + off] upwards. *)
Fixpoint byte_reads (n : nat) (addr : Z) (off : Z) : list Event :=
  match n with
  | O => []
  | S n' => EvRead (uint32 (addr + off)) :: byte_reads n' addr (off + 1)
  end.

(** The five register reads that open [rspSyscallRequest]. *)
Definition syscall_reads : list Event :=
  [EvReadRegister 10; EvReadRegister 11; EvReadRegister 12;
   EvReadRegister 13; EvReadRegister 17].

(** The payload [packRcmdStr] leaves in a buffer of [n] characters. *)
Definition rcmd_payload (n : nat) (line : list ascii) : list ascii :=
  "O"%char :: hexstr (firstn ((n - 2) / 2) (cstr line)).

(** The stop reply of a signal: [S] and the two digits of its number. *)
Definition stop_reply (sig : TargetSignal) : list ascii :=
  [ "S"%char; hex2Char (Z.shiftr (signal_number sig) 4);
    hex2Char (Z.rem (signal_number sig) 16) ].

Definition no_nul (txt : list ascii) : Prop :=
  Forall (fun c => is_nul c = false) txt.

(** The state of the server once the text [pl] has been put in the
    packet buffer and handed to [putPkt]. *)
Definition sent_state (pl : list ascii) (s : Server) : Server :=
  log (EvPutPkt pl)
    (with_rsp (putPkt pl (rsp s))
       (with_pkt {| data := store 0 (pl ++ [NUL]) (data (pkt s));
                    len := Z.of_nat (length pl) |} s)).

(** Whatever the outcome of [m], the calls it adds to the trace all
    satisfy [P]. *)
Definition only {A} (P : Event -> Prop) (m : M Server A) : Prop :=
  forall s, exists d : list Event,
    trace (final (m s)) = trace s ++ d /\ Forall P d.

(** Whatever the outcome of [m], it hands at most [hi] packets to
    [putPkt]; when it returns, it has handed over at least [lo]. *)
Definition sends {A} (lo hi : nat) (m : M Server A) : Prop :=
  forall s, exists d : list Event,
    trace (final (m s)) = trace s ++ d /\
    (puts d <= hi)%nat /\
    (forall a s', m s = Ret a s' -> (lo <= puts d)%nat).

(** [m] makes no call, whatever its outcome. *)
Definition silent {A} (m : M Server A) : Prop :=
  forall s, trace (final (m s)) = trace s.

(** [m] returns after exactly one call, [e]. *)
Definition calls {A} (e : Event) (m : M Server A) : Prop :=
  forall s, exists a s', m s = Ret a s' /\ trace s' = trace s ++ [e].

(** The state [s] with the calls [l] added to its trace. *)
Definition logs (l : list Event) (s : Server) : Server :=
  fold_left (fun s' e => log e s') l s.

(** The state [rspSyscallRequest] is in once it has recorded the
    continuation and read the five registers. *)
Definition syscall_entered (cType : SyscallContinuationType) (s : Server)
  : Server :=
  logs syscall_reads (with_mSyscallContinuation cType s).

(** The [F] request of a system call that takes a path, as the table of
    system calls has it: [Fopen,<a0>/<len>,<a1>,<a2>] for 1024,
    [Funlink,<a0>/<len>] for 1026, [Fstat,<a0>/<len>,<a1>] for 1038. *)
Definition path_request (a7 a0 n a1 a2 : Z) : list ascii :=
  if a7 =? 1024 then
    str "Fopen," ++ fmt_x a0 ++ str "/" ++ fmt_x n ++ str "," ++ fmt_x a1
      ++ str "," ++ fmt_x a2
  else if a7 =? 1026 then
    str "Funlink," ++ fmt_x a0 ++ str "/" ++ fmt_x n
  else
    str "Fstat," ++ fmt_x a0 ++ str "/" ++ fmt_x n ++ str "," ++ fmt_x a1.

(** The tests of [rspCommand] ahead of its last [else], in its order:
    the command is one of the generic monitor commands. *)
Definition generic_command (cmd : list ascii) : bool :=
  strncmp0 (str "help") cmd (length cmd)
  || strcmp0 cmd (str "reset") || strcmp0 cmd (str "reset warm")
  || strcmp0 cmd (str "reset cold")
  || strcmp0 cmd (str "exit")
  || match sscanf_timeout cmd with Some _ => true | None => false end
  || strcmp0 cmd (str "timestamp")
  || strcmp0 cmd (str "cyclecount")
  || strcmp0 cmd (str "instrcount")
  || starts_with "echo" cmd
  || starts_with "set " cmd
  || starts_with "show " cmd.

(** The lines the help command relays from the target's own help. *)
Definition target_help (r : bool * list ascii) : list (list ascii) :=
  if fst r then
    (str "The following target specific monitor commands are supported:"
       ++ endl)
      :: map (fun line => line ++ endl) (getlines (snd r))
  else [str "There are no target specific monitor commands"].

(** The monitor output packets of a list of lines, in a packet buffer
    of [n] characters. *)
Definition rcmd_packets (n : nat) (lines : list (list ascii))
  : list Event :=
  map (fun line => EvPutPkt (rcmd_payload n line)) lines.

(** The calls a system-call request may make: register and memory
    reads, and one packet, an [F] request, the [W] of an exit, or the
    stop reply of a trap. *)
Definition syscall_event (e : Event) : Prop :=
  match e with
  | EvReadRegister _ | EvRead _ => True
  | EvPutPkt p =>
      hd NUL p = "F"%char \/ hd NUL p = "W"%char \/ p = stop_reply SIG_TRAP
  | _ => False
  end.

(** The calls a continue may make besides: clock readings, break polls,
    resumes, and the stop replies of an interrupt and of a timeout. *)
Definition continue_event (e : Event) : Prop :=
  match e with
  | EvNow | EvHaveBreak | EvResume _ _ => True
  | EvPutPkt p =>
      p = stop_reply SIG_INT \/ p = stop_reply SIG_XCPU \/
      syscall_event (EvPutPkt p)
  | _ => syscall_event e
  end.

(** What [rspSyscallReply] does after a valid reply once the
    continuation is latched and a0 is written. *)
Definition syscall_reply_rest (fuel : nat) (p : SyscallReplyPacket)
  (sysCont : SyscallContinuationType) : M Server unit :=
  if hasCtrlC p then rspReportException SIG_INT
  else
    match sysCont with
    | SYSCALL_THEN_FINISH_CONTINUE => rspContinue fuel
    | _ => rspReportException SIG_TRAP
    end.

(** The write of a0 a valid reply causes: none for a retcode of -1. *)
Definition a0_write (p : SyscallReplyPacket) : list Event :=
  if retcode p =? -1 then [] else [EvWriteRegister 10 (uint32 (retcode p))].

(** Any call but the stop reply of a timeout. *)
Definition not_xcpu (e : Event) : Prop := e <> EvPutPkt (stop_reply SIG_XCPU).

(** A delimiter: a character that ends a run of hexadecimal digits and
    is not the [x] of a [0x] prefix. *)
Definition delimiter (c : ascii) : Prop :=
  hex_val c = None /\ Ascii.eqb c "x" = false /\ Ascii.eqb c "X" = false.

(** The characters whose [case] sends nothing, those whose handler
    answers with one packet, and those that run the target. *)
Definition ignored_requests : list ascii := str "bBdkrRt".
Definition answered_requests : list ascii := str "!?ADgGHiImMpPQTvXzZ".
Definition running_requests : list ascii := str "cCsSF".
Definition known_requests : list ascii :=
  str "!?AbBFcCdDgGHiIkmMpPqQrRsStTvXzZ".

(** The method [m], started in [s], returns after making the calls
    [evs], in that order, and no other. *)
Definition runs (m : M Server unit) (s : Server) (evs : list Event) : Prop :=
  exists s', m s = Ret tt s' /\ trace s' = trace s ++ evs.

(** The request that [getPkt] delivers in [s] is handled by the calls
    [evs]: [rspClientRequest] returns, and [getPkt] and [evs] are the
    calls it made. *)
Definition handled (fuel : nat) (s : Server) (evs : list Event) : Prop :=
  runs (rspClientRequest fuel) s (EvGetPkt :: evs).

(** The requests whose [case] is a fixed answer: the text sent, whatever
    follows the first character of the packet. *)
Definition fixed_reply (c : ascii) : option (list ascii) :=
  if is_char c "!" || is_char c "H" || is_char c "T" then Some (str "OK")
  else if is_char c "A" then Some (str "E01")
  else if is_char c "?" || is_char c "i" || is_char c "I"
  then Some (stop_reply SIG_TRAP)
  else if is_char c "Q" || is_char c "v" || is_char c "z" || is_char c "Z"
  then Some []
  else None.

(** The tests of [rspQuery]: the packet is one of the queries it knows. *)
Definition known_query (buf : list ascii) : bool :=
  strcmp0 (str "qC") buf || starts_with "qCRC" buf
  || strcmp0 (str "qfThreadInfo") buf || strcmp0 (str "qsThreadInfo") buf
  || starts_with "qL" buf || starts_with "qRcmd," buf
  || starts_with "qSupported" buf || starts_with "qSymbol:" buf
  || starts_with "qThreadExtraInfo," buf.

(** The packets a [c], [s] or [F] request may send: the stop reply of an
    interrupt, a trap or a timeout, the [F] request or the [W] packet of
    a system call, and [E01]. *)
Definition run_reply (pl : list ascii) : Prop :=
  pl = stop_reply SIG_INT \/ pl = stop_reply SIG_TRAP \/
  pl = stop_reply SIG_XCPU \/ hd NUL pl = "F"%char \/ hd NUL pl = "W"%char \/
  pl = str "E01".

Definition run_event (e : Event) : Prop :=
  match e with
  | EvPutPkt pl => run_reply pl
  | _ => True
  end.

(** The register numbers of [g] and [G], in order. *)
Definition all_regs : list Z := map Z.of_nat (seq 0 RISCV_NUM_REGS).

(** The writes of a [G] packet: register [i] is given the eight digits
    at [8 * i] of the buffer, the first character of the packet
    included. *)
Definition all_reg_writes (buf : list ascii) : list Event :=
  map (fun i =>
         EvWriteRegister i
           (uint32 (hex2Val (at_off (i * (Z.of_nat REG_BYTES * 2)) buf)
                      REG_BYTES)))
      all_regs.

(** The reply to [g] when every register is four bytes wide. *)
Definition all_regs_hex (t : T) : list ascii :=
  flat_map (fun i => val2Hex (uint32 (fst (readRegister i t))) 4) all_regs.

(** * Facts about buffers, digits and scanning *)

Lemma store_length (off : Z) (s buf : list ascii) :
  length (store off s buf) = length buf.
Proof.
  unfold store. rewrite !length_app, !length_firstn, length_skipn. lia.
Qed.

Lemma store_0_fits (s buf : list ascii) :
  (length s <= length buf)%nat ->
  store 0 s buf = s ++ skipn (length s) buf.
Proof.
  intros Hfit. unfold store. simpl.
  rewrite Nat.sub_0_r, firstn_all2 by lia. reflexivity.
Qed.

Lemma cstr_app_nul (txt rest : list ascii) :
  Forall (fun c => is_nul c = false) txt ->
  cstr (txt ++ NUL :: rest) = txt.
Proof.
  induction 1 as [|c txt Hc _ IH]; simpl.
  - reflexivity.
  - rewrite Hc, IH. reflexivity.
Qed.

Lemma firstn_cstr (l : list ascii) : firstn (length (cstr l)) l = cstr l.
Proof.
  induction l as [|c l IH]; simpl.
  - reflexivity.
  - destruct (is_nul c); simpl; [reflexivity | now rewrite IH].
Qed.

Lemma cstr_of_no_nul (l : list ascii) :
  Forall (fun c => is_nul c = false) l -> cstr l = l.
Proof.
  induction 1 as [|c l Hc _ IH]; simpl.
  - reflexivity.
  - now rewrite Hc, IH.
Qed.

(** Four single-character stores at 0, 1, 2, 3 are one store of four
    characters. *)
Lemma store_four (a b c d : ascii) (buf : list ascii) :
  (4 <= length buf)%nat ->
  store 3 [d] (store 2 [c] (store 1 [b] (store 0 [a] buf)))
  = store 0 [a; b; c; d] buf.
Proof.
  intros Hlen.
  destruct buf as [|x0 [|x1 [|x2 [|x3 rest]]]]; simpl in Hlen; try lia.
  reflexivity.
Qed.

Lemma digit_char_cases (d : Z) :
  0 <= d < 16 ->
  In (digit_char d) (str "0123456789abcdef") /\ hex_val (digit_char d) = Some d.
Proof.
  intros Hd.
  assert (Hc : d = 0 \/ d = 1 \/ d = 2 \/ d = 3 \/ d = 4 \/ d = 5 \/ d = 6
               \/ d = 7 \/ d = 8 \/ d = 9 \/ d = 10 \/ d = 11 \/ d = 12
               \/ d = 13 \/ d = 14 \/ d = 15) by lia.
  repeat (destruct Hc as [-> | Hc]); try subst d;
    (split; [vm_compute; tauto | reflexivity]).
Qed.

Lemma digit_char_not_nul (d : Z) : 0 <= d < 16 -> is_nul (digit_char d) = false.
Proof.
  intros Hd. destruct (digit_char_cases d Hd) as [Hin _].
  simpl in Hin.
  repeat (destruct Hin as [<- | Hin]; [reflexivity|]). contradiction.
Qed.

Lemma digits_of_16_no_nul (fuel : nat) (n : Z) :
  0 <= n -> Forall (fun c => is_nul c = false) (digits_of 16 fuel n).
Proof.
  revert n. induction fuel as [|f IH]; intros n Hn; simpl.
  - constructor.
  - destruct (n <? 16) eqn:E.
    + constructor; [|constructor]. apply digit_char_not_nul. lia.
    + apply Forall_app. split.
      * apply IH. apply Z.div_pos; lia.
      * constructor; [|constructor]. apply digit_char_not_nul.
        apply Z.mod_pos_bound. lia.
Qed.

Lemma digits_of_length (base : Z) (fuel : nat) (n : Z) :
  (length (digits_of base fuel n) <= fuel)%nat.
Proof.
  revert n. induction fuel as [|f IH]; intros n; simpl.
  - lia.
  - destruct (n <? base); simpl; [lia|].
    rewrite length_app. simpl. specialize (IH (n / base)). lia.
Qed.

Lemma uint32_range (z : Z) : 0 <= uint32 z < 2 ^ 32.
Proof. unfold uint32. apply Z.mod_pos_bound. lia. Qed.

Lemma fmt_x_no_nul (n : Z) : Forall (fun c => is_nul c = false) (fmt_x n).
Proof. apply digits_of_16_no_nul. apply uint32_range. Qed.

Lemma fmt_x_length (n : Z) : (length (fmt_x n) <= 8)%nat.
Proof. apply digits_of_length. Qed.

Lemma hex_number_snoc (h : list ascii) (c : ascii) :
  hex_number (h ++ [c])
  = 16 * hex_number h + match hex_val c with Some d => d | None => 0 end.
Proof. unfold hex_number. rewrite fold_left_app. reflexivity. Qed.

(** [%x] writes the digits of the number: reading them back gives it. *)
Lemma digits_of_16_number (fuel : nat) (n : Z) :
  0 <= n < 16 ^ Z.of_nat fuel ->
  hex_number (digits_of 16 fuel n) = n.
Proof.
  revert n. induction fuel as [|f IH]; intros n Hn.
  - simpl in Hn. change (hex_number (digits_of 16 0 n)) with 0. lia.
  - cbn [digits_of]. destruct (n <? 16) eqn:E.
    + apply Z.ltb_lt in E.
      change [digit_char n] with ([] ++ [digit_char n]).
      rewrite hex_number_snoc.
      destruct (digit_char_cases n) as [_ ->]; [lia|].
      change (hex_number []) with 0. lia.
    + apply Z.ltb_ge in E. rewrite hex_number_snoc, IH.
      * destruct (digit_char_cases (n mod 16)) as [_ ->].
        -- apply Z.mod_pos_bound. lia.
        -- symmetry. apply Z.div_mod. lia.
      * rewrite Nat2Z.inj_succ, Z.pow_succ_r in Hn by lia.
        split; [apply Z.div_pos; lia|].
        apply Z.div_lt_upper_bound; lia.
Qed.

Lemma fmt_x_number (n : Z) : hex_number (fmt_x n) = uint32 n.
Proof.
  apply digits_of_16_number. pose proof (uint32_range n) as Hr.
  change (16 ^ Z.of_nat 8) with (2 ^ 32). exact Hr.
Qed.

Lemma fmt_x_digits (n : Z) :
  Forall (fun c => In c (str "0123456789abcdef")) (fmt_x n).
Proof.
  unfold fmt_x. generalize (uint32_range n). generalize (uint32 n) as m.
  generalize 8%nat as fuel.
  induction fuel as [|f IH]; intros m Hm; simpl.
  - constructor.
  - destruct (m <? 16) eqn:E.
    + constructor; [|constructor]. apply digit_char_cases.
      apply Z.ltb_lt in E. lia.
    + apply Forall_app. split.
      * apply IH. split; [apply Z.div_pos; lia|].
        apply Z.div_lt_upper_bound; lia.
      * constructor; [|constructor]. apply digit_char_cases.
        apply Z.mod_pos_bound. lia.
Qed.

(** * Reasoning about runs of the server *)

Lemma count_app (f : Event -> bool) (a b : list Event) :
  count f (a ++ b) = (count f a + count f b)%nat.
Proof. induction a as [|e a IH]; simpl; [reflexivity | rewrite IH; lia]. Qed.

Lemma puts_app (a b : list Event) : puts (a ++ b) = (puts a + puts b)%nat.
Proof. apply count_app. Qed.

Lemma new_events_app {A} (s : Server) (o : Outcome Server A) (d : list Event) :
  trace (final o) = trace s ++ d -> new_events s o = d.
Proof.
  intros E. unfold new_events. rewrite E.
  rewrite skipn_app, skipn_all, Nat.sub_diag. reflexivity.
Qed.

(** ** Steps that add nothing to the trace, and steps that add one call *)

Lemma silent_ret {A} (a : A) : silent (ret a : M Server A).
Proof. intros s. reflexivity. Qed.

Lemma silent_get {A} (f : Server -> A) : silent (get f).
Proof. intros s. reflexivity. Qed.

Lemma silent_modify (f : Server -> Server) :
  (forall s, trace (f s) = trace s) -> silent (modify f).
Proof. intros Hf s. apply Hf. Qed.

Lemma silent_undefined {A} : silent (undefined : M Server A).
Proof. intros s. reflexivity. Qed.

Lemma silent_exit_failure {A} : silent (exit_failure : M Server A).
Proof. intros s. reflexivity. Qed.

Lemma silent_out_of_fuel {A} : silent (out_of_fuel : M Server A).
Proof. intros s. reflexivity. Qed.

Lemma silent_poke (i : Z) (c : ascii) : silent (poke i c).
Proof.
  intros s. unfold poke.
  destruct ((0 <=? i) && (i <? getBufSize (pkt s))); reflexivity.
Qed.

Lemma silent_sprintf_at (off : Z) (txt : list ascii) :
  silent (sprintf_at off txt).
Proof.
  intros s. unfold sprintf_at.
  destruct ((0 <=? off) && (off + Z.of_nat (length txt) <? getBufSize (pkt s)));
    reflexivity.
Qed.

Lemma silent_pkt_val2Hex (val off byteSize : Z) :
  silent (pkt_val2Hex val off byteSize).
Proof.
  unfold pkt_val2Hex. destruct (byteSize <? 0).
  - apply silent_undefined.
  - apply silent_sprintf_at.
Qed.

Lemma silent_bind {A B} (m : M Server A) (k : A -> M Server B) :
  silent m -> (forall a, silent (k a)) -> silent (bind m k).
Proof.
  intros Hm Hk s. unfold bind. specialize (Hm s).
  destruct (m s) as [a s'| | |]; simpl in *; try assumption.
  rewrite Hk. assumption.
Qed.

Lemma calls_cpu_resume ty sl : calls (EvResume ty sl) (cpu_resume ty sl).
Proof.
  intros s. unfold cpu_resume. destruct (resume ty sl (cpu s)) as [r t].
  eexists _, _. split; reflexivity.
Qed.

Lemma calls_cpu_reset ty : calls (EvReset ty) (cpu_reset ty).
Proof.
  intros s. unfold cpu_reset. destruct (reset ty (cpu s)) as [r t].
  eexists _, _. split; reflexivity.
Qed.

Lemma calls_cpu_readRegister reg :
  calls (EvReadRegister reg) (cpu_readRegister reg).
Proof. intros s. eexists _, _. split; reflexivity. Qed.

Lemma calls_cpu_writeRegister reg val :
  calls (EvWriteRegister reg val) (cpu_writeRegister reg val).
Proof.
  intros s. unfold cpu_writeRegister.
  destruct (writeRegister reg val (cpu s)) as [n t].
  eexists _, _. split; reflexivity.
Qed.

Lemma calls_cpu_read addr : calls (EvRead addr) (cpu_read addr).
Proof. intros s. eexists _, _. split; reflexivity. Qed.

Lemma calls_cpu_write addr bytes :
  calls (EvWrite addr bytes) (cpu_write addr bytes).
Proof.
  intros s. unfold cpu_write. destruct (write addr bytes (cpu s)) as [n t].
  eexists _, _. split; reflexivity.
Qed.

Lemma calls_cpu_command cmd : calls (EvCommand cmd) (cpu_command cmd).
Proof.
  intros s. unfold cpu_command. destruct (command cmd (cpu s)) as [r t].
  eexists _, _. split; reflexivity.
Qed.

Lemma calls_cpu_getCycleCount : calls EvGetCycleCount cpu_getCycleCount.
Proof. intros s. eexists _, _. split; reflexivity. Qed.

Lemma calls_cpu_getInstrCount : calls EvGetInstrCount cpu_getInstrCount.
Proof. intros s. eexists _, _. split; reflexivity. Qed.

Lemma calls_rsp_rspConnect : calls EvConnect rsp_rspConnect.
Proof.
  intros s. unfold rsp_rspConnect. destruct (rspConnect (rsp s)) as [b c].
  eexists _, _. split; reflexivity.
Qed.

Lemma calls_rsp_rspClose : calls EvClose rsp_rspClose.
Proof. intros s. eexists _, _. split; reflexivity. Qed.

Lemma calls_rsp_getPkt : calls EvGetPkt rsp_getPkt.
Proof.
  intros s. unfold rsp_getPkt.
  destruct (getPkt (pkt s) (rsp s)) as [[b p] c].
  eexists _, _. split; reflexivity.
Qed.

Lemma calls_rsp_haveBreak : calls EvHaveBreak rsp_haveBreak.
Proof.
  intros s. unfold rsp_haveBreak. destruct (haveBreak (rsp s)) as [b c].
  eexists _, _. split; reflexivity.
Qed.

Lemma calls_system_clock_now : calls EvNow system_clock_now.
Proof.
  intros s. unfold system_clock_now. destruct (now (clock s)) as [t k].
  eexists _, _. split; reflexivity.
Qed.

Lemma calls_system_clock_strftime : calls EvNow system_clock_strftime.
Proof.
  intros s. unfold system_clock_strftime.
  destruct (strftime_now (clock s)) as [t k].
  eexists _, _. split; reflexivity.
Qed.

Lemma calls_cout line : calls (EvCout line) (cout line).
Proof. intros s. eexists _, _. split; reflexivity. Qed.

(** ** [only]: every new call satisfies a predicate *)

Lemma only_silent {A} (P : Event -> Prop) (m : M Server A) :
  silent m -> only P m.
Proof.
  intros Hm s. exists []. rewrite app_nil_r. split; [apply Hm | constructor].
Qed.

Lemma only_calls {A} (P : Event -> Prop) (e : Event) (m : M Server A) :
  calls e m -> P e -> only P m.
Proof.
  intros Hm He s. destruct (Hm s) as (a & s' & -> & Htr).
  exists [e]. split; [exact Htr | constructor; [exact He | constructor]].
Qed.

Lemma only_bind {A B} (P : Event -> Prop) (m : M Server A)
  (k : A -> M Server B) :
  only P m -> (forall a, only P (k a)) -> only P (bind m k).
Proof.
  intros Hm Hk s. unfold bind. destruct (Hm s) as (d & Htr & Hd).
  destruct (m s) as [a s'| s' | s' | s']; simpl in Htr;
    try (exists d; split; [exact Htr | exact Hd]).
  destruct (Hk a s') as (d' & Htr' & Hd').
  exists (d ++ d'). split.
  - rewrite Htr', Htr, app_assoc. reflexivity.
  - apply Forall_app. split; assumption.
Qed.

Lemma only_weaken {A} (P Q : Event -> Prop) (m : M Server A) :
  (forall e, P e -> Q e) -> only P m -> only Q m.
Proof.
  intros HPQ Hm s. destruct (Hm s) as (d & Htr & Hd).
  exists d. split; [exact Htr | eapply Forall_impl; eassumption].
Qed.

(** ** [sends]: counting the packets put *)

Lemma sends_silent {A} (m : M Server A) : silent m -> sends 0 0 m.
Proof.
  intros Hm s. exists []. rewrite app_nil_r.
  unfold puts. simpl.
  split; [apply Hm | split; [lia | intros; lia]].
Qed.

Lemma sends_calls {A} (e : Event) (m : M Server A) :
  calls e m -> is_put e = false -> sends 0 0 m.
Proof.
  intros Hm He s. destruct (Hm s) as (a & s' & -> & Htr).
  exists [e]. unfold puts. simpl. rewrite He.
  split; [exact Htr | split; [lia | intros; lia]].
Qed.

Lemma sends_rsp_putPkt : sends 1 1 rsp_putPkt.
Proof.
  intros s. exists [EvPutPkt (payload (pkt s))].
  unfold puts. simpl.
  split; [reflexivity | split; [lia | intros; lia]].
Qed.

Lemma sends_bind {A B} (a b c d : nat) (m : M Server A)
  (k : A -> M Server B) :
  sends a b m -> (forall x, sends c d (k x)) ->
  sends (a + c) (b + d) (bind m k).
Proof.
  intros Hm Hk s. unfold bind. destruct (Hm s) as (d1 & Htr & Hhi & Hlo).
  destruct (m s) as [x s'| s' | s' | s'] eqn:E; simpl in Htr;
    try (exists d1; split; [exact Htr | split; [lia | discriminate]]).
  destruct (Hk x s') as (d2 & Htr' & Hhi' & Hlo').
  exists (d1 ++ d2). split; [|split].
  - rewrite Htr', Htr, app_assoc. reflexivity.
  - rewrite puts_app. lia.
  - intros y s'' E'. rewrite puts_app.
    specialize (Hlo x s' eq_refl). specialize (Hlo' y s'' E'). lia.
Qed.

(** A prefix that puts nothing. *)
Lemma sends_after {A B} (lo hi : nat) (m : M Server A)
  (k : A -> M Server B) :
  sends 0 0 m -> (forall x, sends lo hi (k x)) -> sends lo hi (bind m k).
Proof. intros Hm Hk. apply (sends_bind 0 0 lo hi); assumption. Qed.

(** A suffix that puts nothing. *)
Lemma sends_before {A B} (lo hi : nat) (m : M Server A)
  (k : A -> M Server B) :
  sends lo hi m -> (forall x, sends 0 0 (k x)) -> sends lo hi (bind m k).
Proof.
  intros Hm Hk. pose proof (sends_bind lo hi 0 0 m k Hm Hk) as Hb.
  rewrite !Nat.add_0_r in Hb. exact Hb.
Qed.

Lemma sends_for_loop (n : nat) (i : Z) (body : Z -> M Server unit) :
  (forall j, sends 0 0 (body j)) -> sends 0 0 (for_loop n i body).
Proof.
  intros Hb. revert i. induction n as [|n IH]; intros i; simpl.
  - apply sends_silent, silent_ret.
  - apply sends_after; [apply Hb | intros _; apply IH].
Qed.

(** ** Sending a text *)

Lemma payload_store (txt buf : list ascii) :
  (length txt < length buf)%nat ->
  firstn (length txt) (store 0 (txt ++ [NUL]) buf) = txt.
Proof.
  intros Hfit. rewrite store_0_fits by (rewrite length_app; simpl; lia).
  rewrite <- app_assoc, firstn_app, Nat.sub_diag, firstn_all. simpl.
  apply app_nil_r.
Qed.

Lemma cstr_store (txt buf : list ascii) :
  no_nul txt -> (length txt < length buf)%nat ->
  cstr (store 0 (txt ++ [NUL]) buf) = txt.
Proof.
  intros Hnn Hfit. rewrite store_0_fits by (rewrite length_app; simpl; lia).
  rewrite <- app_assoc. simpl. apply cstr_app_nul. exact Hnn.
Qed.

Lemma getBufSize_nat (p : RspPacket) (n : nat) :
  Z.of_nat n < getBufSize p -> (n < length (data p))%nat.
Proof. unfold getBufSize. lia. Qed.

(** [pkt->packStr (txt); rsp->putPkt (pkt);] with a text that fits. *)
Lemma reply_eq (txt : list ascii) (s : Server) :
  no_nul txt -> Z.of_nat (length txt) < getBufSize (pkt s) ->
  reply txt s = Ret tt (sent_state txt s).
Proof.
  intros Hnn Hfit. apply getBufSize_nat in Hfit.
  unfold reply, pkt_packStr, modify, bind, rsp_putPkt, sent_state, payload,
    packStr.
  cbn [pkt with_pkt data len rsp].
  rewrite (cstr_of_no_nul txt Hnn).
  rewrite (@firstn_all2 _ (length (data (pkt s)) - 1) txt) by lia.
  rewrite Nat2Z.id, payload_store by lia. reflexivity.
Qed.

(** [sprintf (pkt->data, ...); pkt->setLen (strlen (pkt->data));
    rsp->putPkt (pkt);] with a text that fits. *)
Lemma sprintf_send_eq (txt : list ascii) (s : Server) :
  no_nul txt -> Z.of_nat (length txt) < getBufSize (pkt s) ->
  (sprintf txt ;; setLen_strlen ;; rsp_putPkt) s = Ret tt (sent_state txt s).
Proof.
  intros Hnn Hfit. unfold sprintf, sprintf_at, bind.
  replace ((0 <=? 0) && (0 + Z.of_nat (length txt) <? getBufSize (pkt s)))
    with true by (symmetry; apply andb_true_iff; split;
                  [reflexivity | apply Z.ltb_lt; lia]).
  apply getBufSize_nat in Hfit.
  unfold setLen_strlen, modify, rsp_putPkt, sent_state, payload, strlen.
  cbn [pkt with_pkt data len rsp setData setLen].
  rewrite cstr_store by assumption.
  rewrite Nat2Z.id, payload_store by lia. reflexivity.
Qed.

(** The same with the continuation cleared in between, as the exit
    system call does. *)
Lemma sprintf_clear_send_eq (txt : list ascii) (s : Server) :
  no_nul txt -> Z.of_nat (length txt) < getBufSize (pkt s) ->
  (sprintf txt ;; modify (with_mSyscallContinuation SYSCALL_NONE_PENDING) ;;
   setLen_strlen ;; rsp_putPkt) s
  = Ret tt (sent_state txt (with_mSyscallContinuation SYSCALL_NONE_PENDING s)).
Proof.
  intros Hnn Hfit. unfold sprintf, sprintf_at, bind.
  replace ((0 <=? 0) && (0 + Z.of_nat (length txt) <? getBufSize (pkt s)))
    with true by (symmetry; apply andb_true_iff; split;
                  [reflexivity | apply Z.ltb_lt; lia]).
  apply getBufSize_nat in Hfit.
  unfold setLen_strlen, modify, rsp_putPkt, sent_state, payload, strlen.
  cbn [pkt with_pkt data len rsp setData setLen with_mSyscallContinuation].
  rewrite cstr_store by assumption.
  rewrite Nat2Z.id, payload_store by lia. reflexivity.
Qed.

Lemma sprintf_small (txt : list ascii) (s : Server) :
  getBufSize (pkt s) <= Z.of_nat (length txt) ->
  sprintf txt s = Undefined s.
Proof.
  intros Hbig. unfold sprintf, sprintf_at.
  replace (0 + Z.of_nat (length txt) <? getBufSize (pkt s)) with false
    by (symmetry; apply Z.ltb_ge; lia).
  reflexivity.
Qed.

Lemma poke_ok (i : Z) (c : ascii) (s : Server) :
  0 <= i < getBufSize (pkt s) ->
  poke i c s
  = Ret tt (with_pkt (setData (store i [c] (data (pkt s))) (pkt s)) s).
Proof.
  intros Hi. unfold poke.
  replace ((0 <=? i) && (i <? getBufSize (pkt s))) with true; [reflexivity|].
  symmetry. apply andb_true_iff. split; [apply Z.leb_le | apply Z.ltb_lt]; lia.
Qed.

Lemma getBufSize_poked (i : Z) (c : ascii) (s : Server) :
  getBufSize (pkt (with_pkt (setData (store i [c] (data (pkt s))) (pkt s)) s))
  = getBufSize (pkt s).
Proof. unfold getBufSize. simpl. now rewrite store_length. Qed.

Lemma stop_reply_no_nul (sig : TargetSignal) : no_nul (stop_reply sig).
Proof. destruct sig; repeat constructor. Qed.

(** [rspReportException (sig)] in a buffer of at least four characters:
    the stop reply is sent. *)
Lemma rspReportException_eq (sig : TargetSignal) (s : Server) :
  4 <= getBufSize (pkt s) ->
  rspReportException sig s = Ret tt (sent_state (stop_reply sig) s).
Proof.
  intros Hfit. unfold rspReportException, bind.
  rewrite poke_ok by lia.
  rewrite poke_ok by (rewrite getBufSize_poked; lia).
  rewrite poke_ok by (rewrite !getBufSize_poked; lia).
  rewrite poke_ok by (rewrite !getBufSize_poked; lia).
  unfold setLen_strlen, modify, rsp_putPkt, sent_state, payload, strlen.
  cbn [pkt with_pkt data len rsp setData setLen].
  assert (Hlen : (4 <= length (data (pkt s)))%nat)
    by (unfold getBufSize in Hfit; lia).
  rewrite store_four by exact Hlen.
  change [ "S"%char; hex2Char (Z.shiftr (signal_number sig) 4);
           hex2Char (Z.rem (signal_number sig) 16); NUL ]
    with (stop_reply sig ++ [NUL]).
  rewrite cstr_store by (try apply stop_reply_no_nul; simpl; lia).
  rewrite Nat2Z.id, payload_store by (simpl; lia). reflexivity.
Qed.

(** In a smaller buffer a store falls outside it before anything is
    sent. *)
Lemma rspReportException_small (sig : TargetSignal) (s : Server) :
  getBufSize (pkt s) < 4 ->
  exists s', rspReportException sig s = Undefined s' /\ trace s' = trace s.
Proof.
  intros Hsmall. unfold rspReportException, bind.
  assert (Hsil : forall i c s0, trace (final (poke i c s0)) = trace s0)
    by (intros; apply silent_poke).
  destruct (Z_lt_le_dec 0 (getBufSize (pkt s))) as [Hb0|Hb0].
  2:{ unfold poke at 1.
      replace (0 <? getBufSize (pkt s)) with false
        by (symmetry; apply Z.ltb_ge; lia).
      eexists. split; reflexivity. }
  rewrite poke_ok by lia.
  destruct (Z_lt_le_dec 1 (getBufSize (pkt s))) as [Hb1|Hb1].
  2:{ unfold poke at 1. rewrite getBufSize_poked.
      replace (1 <? getBufSize (pkt s)) with false
        by (symmetry; apply Z.ltb_ge; lia).
      eexists. split; reflexivity. }
  rewrite poke_ok by (rewrite getBufSize_poked; lia).
  destruct (Z_lt_le_dec 2 (getBufSize (pkt s))) as [Hb2|Hb2].
  2:{ unfold poke at 1. rewrite !getBufSize_poked.
      replace (2 <? getBufSize (pkt s)) with false
        by (symmetry; apply Z.ltb_ge; lia).
      eexists. split; reflexivity. }
  rewrite poke_ok by (rewrite !getBufSize_poked; lia).
  unfold poke at 1. rewrite !getBufSize_poked.
  replace (3 <? getBufSize (pkt s)) with false
    by (symmetry; apply Z.ltb_ge; lia).
  eexists. split; reflexivity.
Qed.

(** ** The dispatcher *)

(** Once [getPkt] has delivered a packet, the request is the [switch] on
    its first character, run on the state that holds the packet. *)
Lemma rspClientRequest_got (fuel : nat) (s : Server) (p : RspPacket) (c : C) :
  getPkt (pkt s) (rsp s) = (true, p, c) ->
  rspClientRequest fuel s
  = rspClientRequest_switch fuel (char_at (data p) 0)
      (log EvGetPkt (with_pkt p (with_rsp c s))).
Proof.
  intros Hget. unfold rspClientRequest, bind, rsp_getPkt. rewrite Hget.
  reflexivity.
Qed.

Lemma reply_empty (s : Server) : reply [] s = Ret tt (sent_state [] s).
Proof.
  unfold reply, pkt_packStr, modify, bind, rsp_putPkt, sent_state, payload,
    packStr.
  cbn [pkt with_pkt data len rsp cstr]. rewrite firstn_nil. reflexivity.
Qed.

(** * The claims *)

(** C7: every [Z] (insert matchpoint) and every [z] (remove matchpoint)
    packet, whatever its kind, address and length fields, is answered
    with the empty string and nothing else happens: the only call after
    [getPkt] is the [putPkt] of the empty payload, so no target memory is
    read or written, and the matchpoint table is unchanged. *)
Theorem matchpoint_packets_unsupported
  (fuel : nat) (s : Server) (p : RspPacket) (c : C) :
  getPkt (pkt s) (rsp s) = (true, p, c) ->
  char_at (data p) 0 = "z"%char \/ char_at (data p) 0 = "Z"%char ->
  exists s',
    rspClientRequest fuel s = Ret tt s' /\
    trace s' = trace s ++ [EvGetPkt; EvPutPkt []] /\
    mpHash s' = mpHash s /\
    cpu s' = cpu s.
Proof.
  intros Hget Hc. rewrite (rspClientRequest_got fuel s p c Hget).
  destruct Hc as [-> | ->];
    unfold rspClientRequest_switch; cbn [is_char Ascii.eqb Bool.eqb andb orb];
    unfold rspRemoveMatchpoint, rspInsertMatchpoint;
    change (str "") with (@nil ascii); rewrite reply_empty;
    eexists; (split; [reflexivity|]);
    cbn [sent_state log with_rsp with_pkt trace mpHash cpu];
    rewrite <- app_assoc; repeat split.
Qed.

(** ** One call at the head of a run *)

Lemma bind_cpu_resume {B} ty sl (k : ResumeRes -> M Server B) (s : Server) :
  bind (cpu_resume ty sl) k s
  = k (fst (resume ty sl (cpu s)))
      (log (EvResume ty sl) (with_cpu (snd (resume ty sl (cpu s))) s)).
Proof.
  unfold bind, cpu_resume. destruct (resume ty sl (cpu s)); reflexivity.
Qed.

Lemma bind_rsp_haveBreak {B} (k : bool -> M Server B) (s : Server) :
  bind rsp_haveBreak k s
  = k (fst (haveBreak (rsp s)))
      (log EvHaveBreak (with_rsp (snd (haveBreak (rsp s))) s)).
Proof.
  unfold bind, rsp_haveBreak. destruct (haveBreak (rsp s)); reflexivity.
Qed.

Lemma bind_system_clock_now {B} (k : Z -> M Server B) (s : Server) :
  bind system_clock_now k s
  = k (fst (now (clock s)))
      (log EvNow (with_clock (snd (now (clock s))) s)).
Proof.
  unfold bind, system_clock_now. destruct (now (clock s)); reflexivity.
Qed.

Lemma bind_cpu_command {B} cmd (k : bool * list ascii -> M Server B)
  (s : Server) :
  bind (cpu_command cmd) k s
  = k (fst (command cmd (cpu s)))
      (log (EvCommand cmd) (with_cpu (snd (command cmd (cpu s))) s)).
Proof.
  unfold bind, cpu_command. destruct (command cmd (cpu s)); reflexivity.
Qed.

Lemma bind_cpu_write {B} addr bytes (k : Z -> M Server B) (s : Server) :
  bind (cpu_write addr bytes) k s
  = k (fst (write addr bytes (cpu s)))
      (log (EvWrite addr bytes) (with_cpu (snd (write addr bytes (cpu s))) s)).
Proof.
  unfold bind, cpu_write. destruct (write addr bytes (cpu s)); reflexivity.
Qed.

(** ** System-call requests *)

Lemma bind_Ret {A B} (m : M Server A) (k : A -> M Server B) (s s' : Server)
  (a : A) :
  m s = Ret a s' -> bind m k s = k a s'.
Proof. intros E. unfold bind. rewrite E. reflexivity. Qed.

Lemma syscall_entered_trace cType s :
  trace (syscall_entered cType s) = trace s ++ syscall_reads.
Proof.
  unfold syscall_entered, syscall_reads, logs.
  cbn [fold_left trace log with_mSyscallContinuation].
  rewrite <- !app_assoc. reflexivity.
Qed.

Ltac solve_no_nul :=
  unfold no_nul;
  repeat (apply Forall_app; split);
  try apply fmt_x_no_nul;
  repeat constructor.

(** The exit system call: [W<a0>] is sent and the continuation is
    cleared. *)
Lemma rspSyscallRequest_exit
  (fuel : nat) (cType : SyscallContinuationType) (s : Server) :
  uint32 (fst (readRegister 17 (cpu s))) = 93 ->
  10 <= getBufSize (pkt s) ->
  rspSyscallRequest fuel cType s
  = Ret tt
      (sent_state (str "W" ++ fmt_x (uint32 (fst (readRegister 10 (cpu s)))))
         (with_mSyscallContinuation SYSCALL_NONE_PENDING
            (syscall_entered cType s))).
Proof.
  intros Ha7 Hfit. unfold rspSyscallRequest.
  do 6 (erewrite bind_Ret by reflexivity).
  cbn [cpu log with_mSyscallContinuation]. rewrite Ha7.
  cbn [Z.eqb Pos.eqb].
  apply sprintf_clear_send_eq; [solve_no_nul|].
  unfold getBufSize in *. cbn [pkt log with_mSyscallContinuation].
  rewrite length_app.
  pose proof (fmt_x_length (uint32 (fst (readRegister 10 (cpu s))))) as Hl.
  simpl length. lia.
Qed.

(** C6: when the target reports a system call and a7 holds 93 (exit),
    the server sends the packet [W<a0>], with a0 in lowercase
    hexadecimal, and leaves the continuation at [SYSCALL_NONE_PENDING];
    a continue that meets the system call returns right after that
    packet: it is the only one sent, no stop reply follows. *)
Theorem exit_syscall_sends_W :
  (forall (fuel : nat) (cType : SyscallContinuationType) (s : Server),
     uint32 (fst (readRegister 17 (cpu s))) = 93 ->
     10 <= getBufSize (pkt s) ->
     let a0 := uint32 (fst (readRegister 10 (cpu s))) in
     exists s',
       rspSyscallRequest fuel cType s = Ret tt s' /\
       trace s' = trace s ++ syscall_reads ++ [EvPutPkt (str "W" ++ fmt_x a0)]
       /\ mSyscallContinuation s' = SYSCALL_NONE_PENDING /\
       hex_number (fmt_x a0) = a0 /\
       Forall (fun c => In c (str "0123456789abcdef")) (fmt_x a0))
  /\
  (forall (fuel : nat) (timeout_end : Z) (s : Server) (t' : T),
     resume CONTINUE (Some interruptTimeout) (cpu s) = (SYSCALL, t') ->
     uint32 (fst (readRegister 17 t')) = 93 ->
     10 <= getBufSize (pkt s) ->
     let a0 := uint32 (fst (readRegister 10 t')) in
     exists s',
       rspContinue_loop (S fuel) timeout_end s = Ret tt s' /\
       trace s'
       = trace s ++ EvResume CONTINUE (Some interruptTimeout)
           :: syscall_reads ++ [EvPutPkt (str "W" ++ fmt_x a0)] /\
       mSyscallContinuation s' = SYSCALL_NONE_PENDING).
Proof.
  split.
  - intros fuel cType s Ha7 Hfit a0.
    eexists. split; [apply rspSyscallRequest_exit; assumption|].
    split; [|split; [|split]].
    + cbn [sent_state log with_rsp with_pkt with_mSyscallContinuation trace].
      change (trace (syscall_entered cType s)
                ++ [EvPutPkt (str "W" ++ fmt_x a0)]
              = trace s ++ syscall_reads
                  ++ [EvPutPkt (str "W" ++ fmt_x a0)]).
      rewrite syscall_entered_trace, <- app_assoc. reflexivity.
    + reflexivity.
    + unfold a0. rewrite fmt_x_number. unfold uint32.
      apply Z.mod_mod. lia.
    + apply fmt_x_digits.
  - intros fuel timeout_end s t' Hres Ha7 Hfit a0.
    cbn [rspContinue_loop]. rewrite bind_cpu_resume, Hres. cbn [fst snd].
    eexists. split; [apply rspSyscallRequest_exit; assumption|].
    split; [|reflexivity].
    cbn [sent_state log with_rsp with_pkt with_mSyscallContinuation trace].
    change (trace (syscall_entered SYSCALL_THEN_FINISH_CONTINUE
                     (log (EvResume CONTINUE (Some interruptTimeout))
                        (with_cpu t' s)))
              ++ [EvPutPkt (str "W" ++ fmt_x a0)]
            = trace s ++ EvResume CONTINUE (Some interruptTimeout)
                :: syscall_reads ++ [EvPutPkt (str "W" ++ fmt_x a0)]).
    rewrite syscall_entered_trace. cbn [trace log with_cpu].
    rewrite <- !app_assoc. reflexivity.
Qed.

Lemma logs_trace (l : list Event) (s : Server) :
  trace (logs l s) = trace s ++ l.
Proof.
  revert s. induction l as [|e l IH]; intros s; simpl.
  - now rewrite app_nil_r.
  - unfold logs in IH. rewrite IH. simpl. now rewrite <- app_assoc.
Qed.

Lemma logs_cpu (l : list Event) (s : Server) : cpu (logs l s) = cpu s.
Proof.
  revert s. induction l as [|e l IH]; intros s; simpl;
    [reflexivity | unfold logs in IH; now rewrite IH].
Qed.

Lemma logs_pkt (l : list Event) (s : Server) : pkt (logs l s) = pkt s.
Proof.
  revert s. induction l as [|e l IH]; intros s; simpl;
    [reflexivity | unfold logs in IH; now rewrite IH].
Qed.

Lemma int32_small (z : Z) : - 2 ^ 31 <= z < 2 ^ 31 -> int32 z = z.
Proof. intros Hz. unfold int32. rewrite Z.mod_small; lia. Qed.

Lemma uint32_small (z : Z) : 0 <= z < 2 ^ 32 -> uint32 z = z.
Proof. intros Hz. unfold uint32. apply Z.mod_small. lia. Qed.

(** [stringLength] on a string of [n] bytes followed by a NUL: it reads
    the [n + 1] bytes one at a time and returns [n + 1]. *)
Lemma stringLength_from_run (n : nat) :
  forall (fuel : nat) (addr count : Z) (s : Server),
    (n < fuel)%nat ->
    0 <= count -> count + Z.of_nat n + 1 <= INT_MAX ->
    (forall i, (i < n)%nat ->
       exists b, read (uint32 (addr + (count + Z.of_nat i))) (cpu s) = Some b
                 /\ uint8 b <> 0) ->
    (exists b, read (uint32 (addr + (count + Z.of_nat n))) (cpu s) = Some b
               /\ uint8 b = 0) ->
    stringLength_from fuel addr count s
    = Ret (count + Z.of_nat n + 1) (logs (byte_reads (S n) addr count) s).
Proof.
  unfold INT_MAX.
  induction n as [|n IH]; intros fuel addr count s Hfuel Hc Hmax Hbody Hend;
    (destruct fuel as [|fuel]; [lia|]); cbn [stringLength_from].
  - destruct Hend as (b & Hb & Hz).
    erewrite bind_Ret by reflexivity. cbn [cpu log].
    replace (count + Z.of_nat 0) with count in Hb by lia.
    rewrite Hb. rewrite Hz. cbn [Z.eqb].
    rewrite int32_small by lia.
    replace (count + Z.of_nat 0 + 1) with (count + 1) by lia. reflexivity.
  - destruct (Hbody O ltac:(lia)) as (b & Hb & Hnz).
    erewrite bind_Ret by reflexivity. cbn [cpu log].
    replace (count + Z.of_nat 0) with count in Hb by lia.
    rewrite Hb.
    replace (uint8 b =? 0) with false by (symmetry; apply Z.eqb_neq; exact Hnz).
    rewrite int32_small by lia.
    rewrite (IH fuel addr (count + 1)).
    + replace (count + 1 + Z.of_nat n + 1) with (count + Z.of_nat (S n) + 1)
        by lia.
      reflexivity.
    + lia.
    + lia.
    + lia.
    + intros i Hi. cbn [cpu log].
      destruct (Hbody (S i) ltac:(lia)) as (b' & Hb' & Hnz').
      exists b'. split; [|exact Hnz'].
      replace (count + 1 + Z.of_nat i) with (count + Z.of_nat (S i)) by lia.
      exact Hb'.
    + cbn [cpu log]. destruct Hend as (b' & Hb' & Hz'). exists b'.
      split; [|exact Hz'].
      replace (count + 1 + Z.of_nat n) with (count + Z.of_nat (S n)) by lia.
      exact Hb'.
Qed.

(** C9: for the system calls that take a path (a7 is 1024, 1026 or
    1038), when the string at a0 has [n] bytes before its first NUL and
    every read succeeds, the server reads those [n + 1] bytes one at a
    time and the [<len>] field of the [F] request is [n + 1], the
    terminator counted.  [n] is any length an [int] can count: the probe
    has no cap of its own. *)
Theorem path_syscall_length
  (fuel : nat) (cType : SyscallContinuationType) (s : Server) (n : nat) :
  let a0 := uint32 (fst (readRegister 10 (cpu s))) in
  let a1 := uint32 (fst (readRegister 11 (cpu s))) in
  let a2 := uint32 (fst (readRegister 12 (cpu s))) in
  let a7 := uint32 (fst (readRegister 17 (cpu s))) in
  a7 = 1024 \/ a7 = 1026 \/ a7 = 1038 ->
  64 <= getBufSize (pkt s) ->
  (n < fuel)%nat ->
  Z.of_nat n + 1 <= INT_MAX ->
  (forall i, (i < n)%nat ->
     exists b, read (uint32 (a0 + Z.of_nat i)) (cpu s) = Some b
               /\ uint8 b <> 0) ->
  (exists b, read (uint32 (a0 + Z.of_nat n)) (cpu s) = Some b
             /\ uint8 b = 0) ->
  exists s',
    rspSyscallRequest fuel cType s = Ret tt s' /\
    trace s'
    = trace s ++ syscall_reads ++ byte_reads (S n) a0 0
        ++ [EvPutPkt (path_request a7 a0 (Z.of_nat n + 1) a1 a2)] /\
    hex_number (fmt_x (Z.of_nat n + 1)) = Z.of_nat n + 1.
Proof.
  intros a0 a1 a2 a7 Ha7 Hfit Hfuel Hmax Hbody Hend.
  set (s1 := syscall_entered cType s).
  assert (Hlen :
    stringLength fuel a0 s1
    = Ret (Z.of_nat n + 1) (logs (byte_reads (S n) a0 0) s1)).
  { unfold stringLength.
    rewrite (stringLength_from_run n fuel a0 0 s1); try lia.
    - reflexivity.
    - intros i Hi. unfold s1, syscall_entered. rewrite logs_cpu.
      cbn [cpu with_mSyscallContinuation]. apply Hbody. exact Hi.
    - unfold s1, syscall_entered. rewrite logs_cpu.
      cbn [cpu with_mSyscallContinuation]. exact Hend. }
  exists (sent_state (path_request a7 a0 (Z.of_nat n + 1) a1 a2)
            (logs (byte_reads (S n) a0 0) s1)).
  assert (Hbuf : forall txt : list ascii,
             (length txt <= 48)%nat ->
             Z.of_nat (length txt)
             < getBufSize (pkt (logs (byte_reads (S n) a0 0) s1))).
  { intros txt Htxt. rewrite logs_pkt. unfold s1, syscall_entered.
    rewrite logs_pkt. cbn [pkt with_mSyscallContinuation]. lia. }
  pose proof (fmt_x_length a0) as L0. pose proof (fmt_x_length a1) as L1.
  pose proof (fmt_x_length a2) as L2.
  pose proof (fmt_x_length (Z.of_nat n + 1)) as Ln.
  split; [|split].
  - unfold rspSyscallRequest.
    do 6 (erewrite bind_Ret by reflexivity).
    cbn [cpu log with_mSyscallContinuation].
    fold a0 a1 a2 a7.
    change (log (EvReadRegister 17)
              (log (EvReadRegister 13)
                 (log (EvReadRegister 12)
                    (log (EvReadRegister 11)
                       (log (EvReadRegister 10)
                          (with_mSyscallContinuation cType s))))))
      with s1.
    destruct Ha7 as [Ha7 | [Ha7 | Ha7]]; rewrite Ha7; cbn [Z.eqb Pos.eqb];
      rewrite (bind_Ret _ _ _ _ _ Hlen); unfold path_request;
      cbn [Z.eqb Pos.eqb];
      (apply sprintf_send_eq;
       [ solve_no_nul
       | apply Hbuf; rewrite !length_app; simpl length; lia ]).
  - cbn [sent_state log with_rsp with_pkt trace].
    rewrite logs_trace. unfold s1. rewrite syscall_entered_trace.
    rewrite <- !app_assoc. reflexivity.
  - rewrite fmt_x_number. apply uint32_small. unfold INT_MAX in Hmax. lia.
Qed.

(** ** What a continue may call *)

Lemma only_rspReportException (P : Event -> Prop) (sig : TargetSignal) :
  P (EvPutPkt (stop_reply sig)) -> only P (rspReportException sig).
Proof.
  intros HP s. destruct (Z_lt_le_dec (getBufSize (pkt s)) 4) as [Hs|Hs].
  - destruct (rspReportException_small sig s Hs) as (s' & -> & Htr).
    exists []. simpl. rewrite app_nil_r. split; [exact Htr | constructor].
  - rewrite rspReportException_eq by exact Hs.
    exists [EvPutPkt (stop_reply sig)]. split; [reflexivity|].
    constructor; [exact HP | constructor].
Qed.

Lemma only_sprintf_send (P : Event -> Prop) (txt : list ascii) :
  no_nul txt -> P (EvPutPkt txt) ->
  only P (sprintf txt ;; setLen_strlen ;; rsp_putPkt).
Proof.
  intros Hnn HP s.
  destruct (Z_lt_le_dec (Z.of_nat (length txt)) (getBufSize (pkt s)))
    as [Hs|Hs].
  - rewrite sprintf_send_eq by assumption.
    exists [EvPutPkt txt]. split; [reflexivity|].
    constructor; [exact HP | constructor].
  - unfold bind at 1. rewrite sprintf_small by exact Hs.
    exists []. simpl. rewrite app_nil_r. split; [reflexivity | constructor].
Qed.

Lemma only_sprintf_clear_send (P : Event -> Prop) (txt : list ascii) :
  no_nul txt -> P (EvPutPkt txt) ->
  only P (sprintf txt ;;
          modify (with_mSyscallContinuation SYSCALL_NONE_PENDING) ;;
          setLen_strlen ;; rsp_putPkt).
Proof.
  intros Hnn HP s.
  destruct (Z_lt_le_dec (Z.of_nat (length txt)) (getBufSize (pkt s)))
    as [Hs|Hs].
  - rewrite sprintf_clear_send_eq by assumption.
    exists [EvPutPkt txt]. split; [reflexivity|].
    constructor; [exact HP | constructor].
  - unfold bind at 1. rewrite sprintf_small by exact Hs.
    exists []. simpl. rewrite app_nil_r. split; [reflexivity | constructor].
Qed.

Lemma only_stringLength_from (P : Event -> Prop) (fuel : nat)
  (addr count : Z) :
  (forall a, P (EvRead a)) -> only P (stringLength_from fuel addr count).
Proof.
  intros HP. revert count. induction fuel as [|fuel IH]; intros count;
    cbn [stringLength_from].
  - apply only_silent, silent_out_of_fuel.
  - apply only_bind.
    + eapply only_calls; [apply calls_cpu_read | apply HP].
    + intros [ch|].
      * destruct (uint8 ch =? 0); [apply only_silent, silent_ret | apply IH].
      * apply only_silent, silent_ret.
Qed.

Lemma silent_set_continuation (c : SyscallContinuationType) :
  silent (modify (with_mSyscallContinuation c)).
Proof. apply silent_modify. reflexivity. Qed.

Lemma only_rspSyscallRequest (fuel : nat) (cType : SyscallContinuationType) :
  only syscall_event (rspSyscallRequest fuel cType).
Proof.
  unfold rspSyscallRequest.
  apply only_bind; [apply only_silent, silent_set_continuation | intros _].
  do 5 (apply only_bind;
        [eapply only_calls; [apply calls_cpu_readRegister | exact I]
        | intros ?]).
  cbv zeta.
  repeat match goal with
         | |- only _ (if ?b then _ else _) => destruct b
         end;
    try (apply only_bind;
         [apply only_stringLength_from; intros; exact I | intros ?]);
    try (apply only_sprintf_send; [solve_no_nul | left; reflexivity]).
  - apply only_sprintf_clear_send; [solve_no_nul | right; left; reflexivity].
  - apply only_rspReportException. right. right. reflexivity.
Qed.

Lemma syscall_event_continue (e : Event) : syscall_event e -> continue_event e.
Proof. destruct e; simpl; tauto. Qed.

Lemma only_stop (P : Event -> Prop) (sig : TargetSignal) :
  P (EvResume STOP None) -> P (EvPutPkt (stop_reply sig)) ->
  only P (cpu_resume STOP None ;; rspReportException sig).
Proof.
  intros Hr Hp. apply only_bind.
  - eapply only_calls; [apply calls_cpu_resume | exact Hr].
  - intros _. apply only_rspReportException. exact Hp.
Qed.

Lemma only_rspContinue_loop (fuel : nat) (timeout_end : Z) :
  only continue_event (rspContinue_loop fuel timeout_end).
Proof.
  induction fuel as [|fuel IH]; cbn [rspContinue_loop].
  - apply only_silent, silent_out_of_fuel.
  - apply only_bind;
      [eapply only_calls; [apply calls_cpu_resume | exact I] | intros r].
    destruct r; try apply only_silent, silent_exit_failure.
    + apply only_rspReportException. simpl. tauto.
    + apply only_rspReportException. simpl. tauto.
    + apply only_bind; [apply only_silent, silent_get | intros timeout].
      apply only_bind.
      * destruct (timeout =? 0); [apply only_silent, silent_ret|].
        apply only_bind;
          [eapply only_calls; [apply calls_system_clock_now | exact I]
          | intros ?; apply only_silent, silent_ret].
      * intros [|]; [apply only_stop; simpl; tauto|].
        apply only_bind;
          [eapply only_calls; [apply calls_rsp_haveBreak | exact I]
          | intros [|]]; [apply only_stop; simpl; tauto | exact IH].
    + eapply only_weaken; [apply syscall_event_continue|].
      apply only_rspSyscallRequest.
Qed.

Lemma only_rspContinue (fuel : nat) : only continue_event (rspContinue fuel).
Proof.
  unfold rspContinue.
  apply only_bind;
    [eapply only_calls; [apply calls_system_clock_now | exact I] | intros t0].
  apply only_bind; [apply only_silent, silent_get | intros timeout].
  apply only_bind;
    [eapply only_calls; [apply calls_rsp_haveBreak | exact I] | intros [|]].
  - apply only_stop; simpl; tauto.
  - apply only_rspContinue_loop.
Qed.

(** ** The reply to a system call *)

Lemma rspSyscallReply_valid (fuel : nat) (s : Server) :
  valid (parse (data (pkt s))) = true ->
  exists s1,
    mSyscallContinuation s1 = SYSCALL_NONE_PENDING /\
    trace s1 = trace s ++ a0_write (parse (data (pkt s))) /\
    pkt s1 = pkt s /\ rsp s1 = rsp s /\ clock s1 = clock s /\
    mTimeout s1 = mTimeout s /\
    rspSyscallReply fuel s
    = syscall_reply_rest fuel (parse (data (pkt s)))
        (mSyscallContinuation s) s1.
Proof.
  intros Hv. unfold rspSyscallReply.
  do 3 (erewrite bind_Ret by reflexivity).
  cbn [pkt with_mSyscallContinuation]. cbv zeta. rewrite Hv.
  unfold a0_write, syscall_reply_rest.
  destruct (retcode (parse (data (pkt s))) =? -1).
  - erewrite bind_Ret by reflexivity.
    exists (with_mSyscallContinuation SYSCALL_NONE_PENDING s).
    repeat split; try reflexivity;
      try (cbn [trace with_mSyscallContinuation]; now rewrite app_nil_r);
      destruct (hasCtrlC (parse (data (pkt s)))); try reflexivity;
      destruct (mSyscallContinuation s); reflexivity.
  - unfold bind at 1. unfold bind at 1. unfold cpu_writeRegister.
    destruct (writeRegister 10 (uint32 (retcode (parse (data (pkt s)))))
                (cpu (with_mSyscallContinuation SYSCALL_NONE_PENDING s)))
      as [n t].
    cbn [ret].
    exists (log (EvWriteRegister 10 (uint32 (retcode (parse (data (pkt s))))))
              (with_cpu t (with_mSyscallContinuation SYSCALL_NONE_PENDING s))).
    repeat split; try reflexivity;
      destruct (hasCtrlC (parse (data (pkt s)))); try reflexivity;
      destruct (mSyscallContinuation s); reflexivity.
Qed.

Lemma rspSyscallReply_invalid (fuel : nat) (s : Server) :
  4 <= getBufSize (pkt s) ->
  valid (parse (data (pkt s))) = false ->
  rspSyscallReply fuel s
  = Ret tt (sent_state (str "E01")
              (with_mSyscallContinuation SYSCALL_NONE_PENDING s)).
Proof.
  intros Hfit Hv. unfold rspSyscallReply.
  do 3 (erewrite bind_Ret by reflexivity).
  cbn [pkt with_mSyscallContinuation]. cbv zeta. rewrite Hv.
  apply reply_eq; [repeat constructor | simpl; lia].
Qed.

(** C3: on any [F] reply the pending continuation is latched and reset
    to [SYSCALL_NONE_PENDING] before the target is resumed: the rest of
    the handler runs from a state [s1] whose continuation is reset and
    whose trace holds, after the calls made before the reply, at most
    the write of a0.  For a valid reply without [;C] a [TRAP] stop reply
    is sent when the latched continuation was that of a step or none,
    and the continue loop is entered again when it was that of a
    continue; a valid reply with [;C] sends an [INT] stop reply and the
    target is not resumed.  An invalid reply is answered [E01], the
    continuation reset all the same. *)
Theorem syscall_reply_resumes_from_latch (fuel : nat) (s : Server) :
  4 <= getBufSize (pkt s) ->
  let p := parse (data (pkt s)) in
  (valid p = false ->
   rspSyscallReply fuel s
   = Ret tt (sent_state (str "E01")
               (with_mSyscallContinuation SYSCALL_NONE_PENDING s)))
  /\
  (valid p = true ->
   exists s1,
     mSyscallContinuation s1 = SYSCALL_NONE_PENDING /\
     trace s1 = trace s ++ a0_write p /\
     pkt s1 = pkt s /\ rsp s1 = rsp s /\ clock s1 = clock s /\
     mTimeout s1 = mTimeout s /\
     (hasCtrlC p = true ->
      rspSyscallReply fuel s = Ret tt (sent_state (stop_reply SIG_INT) s1)) /\
     (hasCtrlC p = false ->
      match mSyscallContinuation s with
      | SYSCALL_THEN_FINISH_CONTINUE =>
          rspSyscallReply fuel s = rspContinue fuel s1
      | SYSCALL_THEN_FINISH_STEPPING | SYSCALL_NONE_PENDING =>
          rspSyscallReply fuel s
          = Ret tt (sent_state (stop_reply SIG_TRAP) s1)
      end)).
Proof.
  intros Hfit p. split.
  - apply rspSyscallReply_invalid. exact Hfit.
  - intros Hv.
    destruct (rspSyscallReply_valid fuel s Hv)
      as (s1 & Hc & Htr & Hpkt & Hrsp & Hclk & Hto & Heq).
    exists s1. repeat (split; [assumption|]).
    fold p in Heq. unfold syscall_reply_rest in Heq.
    assert (Hfit1 : 4 <= getBufSize (pkt s1)) by (rewrite Hpkt; exact Hfit).
    split.
    + intros HC. rewrite HC in Heq. rewrite Heq.
      apply rspReportException_eq. exact Hfit1.
    + intros HC. rewrite HC in Heq. rewrite Heq.
      destruct (mSyscallContinuation s);
        try (apply rspReportException_eq; exact Hfit1).
      reflexivity.
Qed.

Lemma only_syscall_reply_rest (fuel : nat) (p : SyscallReplyPacket)
  (sysCont : SyscallContinuationType) :
  only continue_event (syscall_reply_rest fuel p sysCont).
Proof.
  unfold syscall_reply_rest. destruct (hasCtrlC p).
  - apply only_rspReportException. simpl. tauto.
  - destruct sysCont; try apply only_rspContinue;
      apply only_rspReportException; simpl; tauto.
Qed.

Lemma continue_event_no_write (d : list Event) (reg val : Z) :
  Forall continue_event d -> ~ In (EvWriteRegister reg val) d.
Proof.
  intros Hd Hin. rewrite Forall_forall in Hd. apply (Hd _ Hin).
Qed.

(** After a valid reply the rest of the handler runs on the state in
    which the continuation is reset and, unless the retcode is -1, the
    retcode has been written to register 10. *)
Lemma rspSyscallReply_a0 (fuel : nat) (s : Server) :
  let p := parse (data (pkt s)) in
  let s0 := with_mSyscallContinuation SYSCALL_NONE_PENDING s in
  valid p = true ->
  rspSyscallReply fuel s
  = syscall_reply_rest fuel p (mSyscallContinuation s)
      (if retcode p =? -1 then s0
       else log (EvWriteRegister 10 (uint32 (retcode p)))
              (with_cpu
                 (snd (writeRegister 10 (uint32 (retcode p)) (cpu s))) s0)).
Proof.
  intros p s0 Hv. unfold rspSyscallReply.
  do 3 (erewrite bind_Ret by reflexivity).
  cbn [pkt with_mSyscallContinuation]. cbv zeta. fold p. rewrite Hv.
  unfold syscall_reply_rest.
  destruct (retcode p =? -1).
  - erewrite bind_Ret by reflexivity.
    destruct (hasCtrlC p); [reflexivity|].
    destruct (mSyscallContinuation s); reflexivity.
  - unfold bind at 1. unfold bind at 1. unfold cpu_writeRegister.
    change (cpu (with_mSyscallContinuation SYSCALL_NONE_PENDING s))
      with (cpu s).
    destruct (writeRegister 10 (uint32 (retcode p)) (cpu s)) as [n t].
    cbn [ret snd].
    destruct (hasCtrlC p); [reflexivity|].
    destruct (mSyscallContinuation s); reflexivity.
Qed.

(** C4: after a valid [F] reply whose retcode is not -1 the first thing
    the server does is write the retcode to register 10 (a0): the rest
    of the handler runs on the target as [writeRegister] left it, and
    when the handler then sends its stop reply (the reply carries [;C],
    or the latched continuation is not that of a continue) the target
    ends in that state.  No register is written after that.  When the
    retcode is -1 no register is written at all and the rest of the
    handler runs on the target as it was: a0 is left as it was.  An
    invalid reply is answered [E01] and nothing else is called: a0 is
    not written and the target is not resumed. *)
Theorem syscall_reply_writes_a0 (fuel : nat) (s : Server) :
  4 <= getBufSize (pkt s) ->
  let p := parse (data (pkt s)) in
  let o := rspSyscallReply fuel s in
  let a0 := EvWriteRegister 10 (uint32 (retcode p)) in
  let written := snd (writeRegister 10 (uint32 (retcode p)) (cpu s)) in
  let stops :=
    hasCtrlC p = true \/
    mSyscallContinuation s <> SYSCALL_THEN_FINISH_CONTINUE in
  (valid p = true -> retcode p <> -1 ->
   (exists d,
      new_events s o = a0 :: d /\
      forall reg val, ~ In (EvWriteRegister reg val) d) /\
   (exists s1,
      o = syscall_reply_rest fuel p (mSyscallContinuation s) s1 /\
      cpu s1 = written /\ trace s1 = trace s ++ [a0]) /\
   (stops -> exists s', o = Ret tt s' /\ cpu s' = written))
  /\
  (valid p = true -> retcode p = -1 ->
   (forall reg val, ~ In (EvWriteRegister reg val) (new_events s o)) /\
   (exists s1,
      o = syscall_reply_rest fuel p (mSyscallContinuation s) s1 /\
      cpu s1 = cpu s /\ trace s1 = trace s) /\
   (stops -> exists s', o = Ret tt s' /\ cpu s' = cpu s))
  /\
  (valid p = false ->
   exists s',
     o = Ret tt s' /\
     trace s' = trace s ++ [EvPutPkt (str "E01")] /\
     cpu s' = cpu s).
Proof.
  intros Hfit p o a0 written stops.
  assert (Hvalid : valid p = true ->
            exists d, new_events s o = a0_write p ++ d
                      /\ Forall continue_event d).
  { intros Hv.
    destruct (rspSyscallReply_valid fuel s Hv)
      as (s1 & _ & Htr & _ & _ & _ & _ & Heq).
    destruct (only_syscall_reply_rest fuel p (mSyscallContinuation s) s1)
      as (d & Hd & HP).
    exists d. split; [|exact HP].
    apply new_events_app. unfold o. rewrite Heq. fold p. rewrite Hd, Htr.
    fold p. now rewrite app_assoc. }
  assert (Hstop : forall s1 : Server,
            pkt s1 = pkt s -> stops ->
            syscall_reply_rest fuel p (mSyscallContinuation s) s1
            = Ret tt (sent_state
                        (stop_reply (if hasCtrlC p then SIG_INT else SIG_TRAP))
                        s1)).
  { intros s1 Hpkt Hst. unfold syscall_reply_rest.
    assert (Hfit1 : 4 <= getBufSize (pkt s1)) by (rewrite Hpkt; exact Hfit).
    destruct (hasCtrlC p); [apply rspReportException_eq; exact Hfit1|].
    destruct Hst as [Hst | Hst]; [discriminate|].
    destruct (mSyscallContinuation s);
      try (apply rspReportException_eq; exact Hfit1).
    contradiction. }
  split; [|split].
  - intros Hv Hrc.
    pose proof (rspSyscallReply_a0 fuel s Hv) as Heq. fold p in Heq.
    replace (retcode p =? -1) with false in Heq
      by (symmetry; apply Z.eqb_neq; exact Hrc).
    fold o written a0 in Heq.
    split; [|split].
    + destruct (Hvalid Hv) as (d & Hd & HP).
      exists d. split.
      * rewrite Hd. unfold a0_write.
        replace (retcode p =? -1) with false
          by (symmetry; apply Z.eqb_neq; exact Hrc).
        reflexivity.
      * intros reg val. apply continue_event_no_write. exact HP.
    + eexists. split; [exact Heq|]. split; reflexivity.
    + intros Hst. rewrite Heq, Hstop by (try reflexivity; exact Hst).
      eexists. split; reflexivity.
  - intros Hv Hrc.
    pose proof (rspSyscallReply_a0 fuel s Hv) as Heq. fold p in Heq.
    rewrite Hrc in Heq. cbn [Z.eqb] in Heq. fold o in Heq.
    split; [|split].
    + intros reg val. destruct (Hvalid Hv) as (d & Hd & HP).
      rewrite Hd. unfold a0_write. rewrite Hrc. cbn [Z.eqb app].
      apply continue_event_no_write. exact HP.
    + eexists. split; [exact Heq|]. split; reflexivity.
    + intros Hst. rewrite Heq, Hstop by (try reflexivity; exact Hst).
      eexists. split; reflexivity.
  - intros Hv. eexists. split; [apply rspSyscallReply_invalid; assumption|].
    split; reflexivity.
Qed.

(** ** The slices of a continue *)

Lemma syscall_event_not_xcpu (e : Event) : syscall_event e -> not_xcpu e.
Proof.
  unfold not_xcpu. destruct e; simpl; try discriminate.
  intros Hs Heq. inversion Heq as [Hp]. rewrite Hp in Hs.
  destruct Hs as [Hh | [Hh | Hh]]; discriminate.
Qed.

Lemma not_xcpu_stop (sig : TargetSignal) :
  sig <> SIG_XCPU -> not_xcpu (EvPutPkt (stop_reply sig)).
Proof. unfold not_xcpu. destruct sig; try discriminate. congruence. Qed.

Lemma only_extend {A} (P : Event -> Prop) (m : M Server A) (s s1 : Server)
  (pre : list Event) :
  only P m -> trace s1 = trace s ++ pre -> Forall P pre ->
  exists d, trace (final (m s1)) = trace s ++ d /\ Forall P d.
Proof.
  intros Hm Htr Hpre. destruct (Hm s1) as (d & Hd & HP).
  exists (pre ++ d). split.
  - rewrite Hd, Htr, app_assoc. reflexivity.
  - apply Forall_app. split; assumption.
Qed.

(** With no user timeout the loop of a continue never sends the stop
    reply of a timeout. *)
Lemma rspContinue_loop_no_xcpu (fuel : nat) (timeout_end : Z) :
  forall s : Server,
    mTimeout s = 0 ->
    exists d,
      trace (final (rspContinue_loop fuel timeout_end s)) = trace s ++ d /\
      Forall not_xcpu d.
Proof.
  induction fuel as [|fuel IH]; intros s Hto; cbn [rspContinue_loop].
  - exists []. simpl. rewrite app_nil_r. split; [reflexivity | constructor].
  - rewrite bind_cpu_resume.
    set (slice := EvResume CONTINUE (Some interruptTimeout)).
    set (s1 := log slice _).
    assert (Hslice : Forall not_xcpu [slice])
      by (repeat constructor; discriminate).
    assert (Htr1 : trace s1 = trace s ++ [slice]) by reflexivity.
    destruct (fst (resume CONTINUE (Some interruptTimeout) (cpu s)));
      try (exists [slice]; split; [exact Htr1 | exact Hslice]).
    + apply (only_extend not_xcpu _ s s1 [slice]); try assumption.
      apply only_rspReportException, not_xcpu_stop. discriminate.
    + apply (only_extend not_xcpu _ s s1 [slice]); try assumption.
      apply only_rspReportException, not_xcpu_stop. discriminate.
    + erewrite bind_Ret by reflexivity.
      replace (mTimeout s1) with 0 by (symmetry; exact Hto).
      cbn [Z.eqb]. erewrite bind_Ret by reflexivity. cbv iota.
      rewrite bind_rsp_haveBreak.
      set (s2 := log EvHaveBreak _).
      assert (Htr2 : trace s2 = trace s ++ [slice; EvHaveBreak])
        by (unfold s2, s1; cbn [trace log with_rsp with_cpu];
            now rewrite <- app_assoc).
      assert (Hpre : Forall not_xcpu [slice; EvHaveBreak])
        by (repeat constructor; discriminate).
      destruct (fst (haveBreak (rsp s1))).
      * apply (only_extend not_xcpu _ s s2 [slice; EvHaveBreak]);
          try assumption.
        apply only_stop; [discriminate | apply not_xcpu_stop; discriminate].
      * destruct (IH s2 Hto) as (d & Hd & HP).
        exists ([slice; EvHaveBreak] ++ d). split.
        -- rewrite Hd, Htr2, <- app_assoc. reflexivity.
        -- apply Forall_app. split; assumption.
    + apply (only_extend not_xcpu _ s s1 [slice]); try assumption.
      eapply only_weaken; [apply syscall_event_not_xcpu|].
      apply only_rspSyscallRequest.
Qed.

Lemma rspContinue_no_xcpu (fuel : nat) (s : Server) :
  mTimeout s = 0 ->
  exists d,
    trace (final (rspContinue fuel s)) = trace s ++ d /\ Forall not_xcpu d.
Proof.
  intros Hto. unfold rspContinue.
  rewrite bind_system_clock_now.
  erewrite bind_Ret by reflexivity.
  rewrite bind_rsp_haveBreak.
  set (s2 := log EvHaveBreak _).
  assert (Htr2 : trace s2 = trace s ++ [EvNow; EvHaveBreak])
    by (unfold s2; cbn [trace log with_rsp with_clock];
        now rewrite <- app_assoc).
  assert (Hpre : Forall not_xcpu [EvNow; EvHaveBreak])
    by (repeat constructor; discriminate).
  match goal with |- context [if ?b then _ else _] => destruct b end.
  - apply (only_extend not_xcpu _ s s2 [EvNow; EvHaveBreak]); try assumption.
    apply only_stop; [discriminate | apply not_xcpu_stop; discriminate].
  - match goal with
    | |- context [rspContinue_loop fuel ?te s2] =>
        destruct (rspContinue_loop_no_xcpu fuel te s2 Hto) as (d & Hd & HP)
    end.
    exists ([EvNow; EvHaveBreak] ++ d). split.
    + rewrite Hd, Htr2, <- app_assoc. reflexivity.
    + apply Forall_app. split; assumption.
Qed.

Lemma bind_assoc {A B D} (m : M Server A) (f : A -> M Server B)
  (k : B -> M Server D) (s : Server) :
  bind (bind m f) k s = bind m (fun x => bind (f x) k) s.
Proof. unfold bind. destruct (m s); reflexivity. Qed.

(** Stopping the target and sending a stop reply. *)
Lemma stop_and_report (sig : TargetSignal) (s : Server) :
  4 <= getBufSize (pkt s) ->
  exists s',
    (cpu_resume STOP None ;; rspReportException sig) s = Ret tt s' /\
    trace s' = trace s ++ [EvResume STOP None; EvPutPkt (stop_reply sig)].
Proof.
  intros Hfit. rewrite bind_cpu_resume.
  rewrite rspReportException_eq by exact Hfit.
  eexists. split; [reflexivity|].
  cbn [trace sent_state log with_rsp with_pkt with_cpu].
  now rewrite <- app_assoc.
Qed.

(** C5 (as amended): during a continue, when [resume (CONTINUE,
    interruptTimeout)] returns [TIMEOUT] the server first consults the
    user timeout, and the clock only when that timeout is not zero: past
    the deadline it stops the target and sends the [XCPU] stop reply;
    otherwise it polls for a break and, when one is pending, stops the
    target and sends the [INT] stop reply without running a further
    slice; otherwise it runs the next slice.  So a break that is pending
    when a slice times out is answered [INT] unless the user timeout is
    not zero and its deadline has passed; and with a user timeout of zero
    no continue ever sends the [XCPU] stop reply. *)
Theorem continue_timeout_slice :
  (forall (fuel : nat) (timeout_end : Z) (s : Server) (t' : T),
     4 <= getBufSize (pkt s) ->
     resume CONTINUE (Some interruptTimeout) (cpu s) = (TIMEOUT, t') ->
     let slice := EvResume CONTINUE (Some interruptTimeout) in
     let expired :=
       negb (mTimeout s =? 0) && (timeout_end <? fst (now (clock s))) in
     let clock_read := if mTimeout s =? 0 then [] else [EvNow] in
     let brk := fst (haveBreak (rsp s)) in
     (expired = true ->
      exists s',
        rspContinue_loop (S fuel) timeout_end s = Ret tt s' /\
        trace s'
        = trace s ++ [slice; EvNow; EvResume STOP None;
                      EvPutPkt (stop_reply SIG_XCPU)])
     /\
     (expired = false -> brk = true ->
      exists s',
        rspContinue_loop (S fuel) timeout_end s = Ret tt s' /\
        trace s'
        = trace s ++ slice :: clock_read
            ++ [EvHaveBreak; EvResume STOP None;
                EvPutPkt (stop_reply SIG_INT)])
     /\
     (expired = false -> brk = false ->
      exists s2,
        rspContinue_loop (S fuel) timeout_end s
        = rspContinue_loop fuel timeout_end s2 /\
        trace s2 = trace s ++ slice :: clock_read ++ [EvHaveBreak] /\
        mTimeout s2 = mTimeout s))
  /\
  (forall (fuel : nat) (s : Server),
     mTimeout s = 0 ->
     ~ In (EvPutPkt (stop_reply SIG_XCPU))
          (new_events s (rspContinue fuel s))).
Proof.
  split.
  - intros fuel timeout_end s t' Hfit Hres slice expired clock_read brk.
    assert (Hloop :
      rspContinue_loop (S fuel) timeout_end s
      = (expired' <-
           (if mTimeout s =? 0 then ret false
            else t <- system_clock_now ;; ret (timeout_end <? t)) ;;
         if (expired' : bool) then
           cpu_resume STOP None ;; rspReportException SIG_XCPU
         else
           b <- rsp_haveBreak ;;
           if (b : bool) then
             cpu_resume STOP None ;; rspReportException SIG_INT
           else rspContinue_loop fuel timeout_end)
          (log slice (with_cpu t' s))).
    { cbn [rspContinue_loop]. rewrite bind_cpu_resume, Hres. cbn [fst snd].
      erewrite bind_Ret by reflexivity. reflexivity. }
    rewrite Hloop. clear Hloop.
    set (s1 := log slice (with_cpu t' s)).
    unfold expired, clock_read. destruct (mTimeout s =? 0) eqn:Hto;
      cbn [negb andb].
    + (* no user timeout: the clock is not read *)
      erewrite bind_Ret by reflexivity. cbv iota.
      rewrite bind_rsp_haveBreak. change (rsp s1) with (rsp s). fold brk.
      split; [discriminate|]. split.
      * intros _ Hb. rewrite Hb.
        match goal with
        | |- context [_ ?st = Ret tt _] =>
            destruct (stop_and_report SIG_INT st Hfit) as (s' & Heq & Htr)
        end.
        exists s'. split; [exact Heq|]. rewrite Htr.
        cbn [trace log with_rsp with_cpu s1 app].
        now rewrite <- !app_assoc.
      * intros _ Hb. rewrite Hb. eexists. split; [reflexivity|].
        split; [|reflexivity].
        cbn [trace log with_rsp with_cpu s1 app]. now rewrite <- !app_assoc.
    + (* a user timeout: the clock is read *)
      rewrite bind_assoc, bind_system_clock_now.
      erewrite bind_Ret by reflexivity. change (clock s1) with (clock s).
      set (s2 := log EvNow _).
      destruct (timeout_end <? fst (now (clock s))).
      * split; [|split; discriminate]. intros _.
        destruct (stop_and_report SIG_XCPU s2 Hfit) as (s' & Heq & Htr).
        exists s'. split; [exact Heq|]. rewrite Htr.
        cbn [trace log with_clock with_cpu s1 s2 app].
        now rewrite <- !app_assoc.
      * split; [discriminate|].
        rewrite bind_rsp_haveBreak. change (rsp s2) with (rsp s). fold brk.
        split.
        -- intros _ Hb. rewrite Hb.
           match goal with
           | |- context [_ ?st = Ret tt _] =>
               destruct (stop_and_report SIG_INT st Hfit) as (s' & Heq & Htr)
           end.
           exists s'. split; [exact Heq|]. rewrite Htr.
           cbn [trace log with_rsp with_clock with_cpu s1 s2 app].
           now rewrite <- !app_assoc.
        -- intros _ Hb. rewrite Hb. eexists. split; [reflexivity|].
           split; [|reflexivity].
           cbn [trace log with_rsp with_clock with_cpu s1 s2 app].
           now rewrite <- !app_assoc.
  - intros fuel s Hto Hin.
    destruct (rspContinue_no_xcpu fuel s Hto) as (d & Hd & HP).
    rewrite (new_events_app s _ d Hd) in Hin.
    rewrite Forall_forall in HP. apply (HP _ Hin). reflexivity.
Qed.

(** ** Monitor commands *)

Lemma hexstr_length (l : list ascii) : length (hexstr l) = (2 * length l)%nat.
Proof. induction l as [|c l IH]; simpl; [reflexivity | rewrite IH; lia]. Qed.

Lemma payload_packRcmdStr (line : list ascii) (p : RspPacket) :
  (2 <= length (data p))%nat ->
  payload (packRcmdStr line p) = rcmd_payload (length (data p)) line.
Proof.
  intros Hfit. unfold payload, packRcmdStr, rcmd_payload. cbn [data len].
  set (s' := firstn ((length (data p) - 2) / 2) (cstr line)).
  assert (Hs' : (2 * length s' <= length (data p) - 2)%nat).
  { unfold s'. rewrite length_firstn.
    pose proof (Nat.Div0.mul_div_le (length (data p) - 2) 2). lia. }
  rewrite Nat2Z.id.
  change ("O"%char :: hexstr s' ++ [NUL])
    with (("O"%char :: hexstr s') ++ [NUL]).
  apply payload_store. simpl. rewrite hexstr_length. lia.
Qed.

Lemma packRcmdStr_size (line : list ascii) (p : RspPacket) :
  length (data (packRcmdStr line p)) = length (data p).
Proof. unfold packRcmdStr. cbn [data]. apply store_length. Qed.

(** [packRcmdStr] and [putPkt] of one line. *)
Lemma put_rcmd_run (line : list ascii) (s : Server) :
  (2 <= length (data (pkt s)))%nat ->
  exists s',
    put_rcmd line s = Ret tt s' /\
    trace s' = trace s ++ [EvPutPkt (rcmd_payload (length (data (pkt s))) line)]
    /\ length (data (pkt s')) = length (data (pkt s)) /\
    cpu s' = cpu s.
Proof.
  intros Hfit. unfold put_rcmd, pkt_packRcmdStr.
  erewrite bind_Ret by reflexivity.
  eexists. split; [reflexivity|].
  cbn [pkt log with_rsp with_pkt trace cpu].
  rewrite payload_packRcmdStr by exact Hfit.
  rewrite packRcmdStr_size. repeat split.
Qed.

(** The same, once per line. *)
Lemma for_each_put_rcmd {A} (g : A -> list ascii) (lines : list A) :
  forall s : Server,
    (2 <= length (data (pkt s)))%nat ->
    exists s',
      for_each lines (fun l => put_rcmd (g l)) s = Ret tt s' /\
      trace s'
      = trace s ++ rcmd_packets (length (data (pkt s))) (map g lines) /\
      length (data (pkt s')) = length (data (pkt s)) /\
      cpu s' = cpu s.
Proof.
  induction lines as [|l lines IH]; intros s Hfit; cbn [for_each].
  - exists s. repeat split. simpl. now rewrite app_nil_r.
  - destruct (put_rcmd_run (g l) s Hfit) as (s1 & Heq1 & Htr1 & Hsz1 & Hcpu1).
    rewrite (bind_Ret _ _ _ _ _ Heq1).
    destruct (IH s1 ltac:(lia)) as (s' & Heq & Htr & Hsz & Hcpu).
    exists s'. split; [exact Heq|]. split; [|split; congruence].
    rewrite Htr, Htr1, Hsz1. cbn [map rcmd_packets].
    now rewrite <- app_assoc.
Qed.

(** The help command: the help text line by line, the target's own
    help, then [OK]. *)
Lemma rspCommand_help_run (s : Server) :
  3 <= getBufSize (pkt s) ->
  exists s',
    rspCommand_help s = Ret tt s' /\
    trace s'
    = trace s ++ rcmd_packets (length (data (pkt s))) help_mess
        ++ EvCommand (str "help")
        :: rcmd_packets (length (data (pkt s)))
             (target_help (fst (command (str "help") (cpu s))))
        ++ [EvPutPkt (str "OK")].
Proof.
  intros Hfit. unfold getBufSize in Hfit. unfold rspCommand_help.
  destruct (for_each_put_rcmd (fun l => l) help_mess s ltac:(lia))
    as (s1 & Heq1 & Htr1 & Hsz1 & Hcpu1).
  rewrite map_id in Htr1.
  rewrite (bind_Ret _ _ _ _ _ Heq1).
  rewrite bind_cpu_command. rewrite Hcpu1.
  set (r := fst (command (str "help") (cpu s))).
  set (s2 := log _ _).
  assert (Hsz2 : length (data (pkt s2)) = length (data (pkt s)))
    by exact Hsz1.
  assert (Htr2 : trace s2 = trace s1 ++ [EvCommand (str "help")])
    by reflexivity.
  assert (Hlines : exists s3,
            (if fst r then
               put_rcmd (str "The following target specific monitor commands are supported:" ++ endl) ;;
               for_each (getlines (snd r)) (fun line => put_rcmd (line ++ endl))
             else
               put_rcmd (str "There are no target specific monitor commands"))
              s2 = Ret tt s3 /\
            trace s3
            = trace s2 ++ rcmd_packets (length (data (pkt s))) (target_help r)
            /\ length (data (pkt s3)) = length (data (pkt s))).
  { unfold target_help. destruct (fst r).
    - destruct (put_rcmd_run
                  (str "The following target specific monitor commands are supported:"
                     ++ endl) s2 ltac:(lia))
        as (s3 & Heq3 & Htr3 & Hsz3 & _).
      rewrite (bind_Ret _ _ _ _ _ Heq3).
      destruct (for_each_put_rcmd (fun line => line ++ endl)
                  (getlines (snd r)) s3 ltac:(lia))
        as (s4 & Heq4 & Htr4 & Hsz4 & _).
      exists s4. split; [exact Heq4|]. split; [|lia].
      rewrite Htr4, Htr3, Hsz3, Hsz2. cbn [rcmd_packets map].
      now rewrite <- app_assoc.
    - destruct (put_rcmd_run
                  (str "There are no target specific monitor commands")
                  s2 ltac:(lia))
        as (s3 & Heq3 & Htr3 & Hsz3 & _).
      exists s3. split; [exact Heq3|]. split; [|lia].
      rewrite Htr3, Hsz2. reflexivity. }
  destruct Hlines as (s3 & Heq3 & Htr3 & Hsz3).
  rewrite (bind_Ret _ _ _ _ _ Heq3).
  rewrite reply_eq;
    [ | repeat constructor
      | unfold getBufSize; rewrite Hsz3; cbn [length str list_ascii_of_string];
        lia ].
  eexists. split; [reflexivity|].
  cbn [trace sent_state log with_rsp with_pkt].
  rewrite Htr3, Htr2, Htr1. rewrite <- !app_assoc. reflexivity.
Qed.

Lemma help_prefix_matches (n : nat) :
  strncmp0 (str "help") (firstn n (str "help"))
           (length (firstn n (str "help"))) = true.
Proof. do 5 (destruct n as [|n]; [reflexivity|]). reflexivity. Qed.

(** C10: a monitor command whose decoded text is a prefix of [help]
    (the empty text, [h], [he], [hel], [help]) runs the help handler:
    the help text is sent line by line in [O] packets, then the target's
    own help, then [OK].  The match compares only the first
    [strlen (cmd)] characters. *)
Theorem help_prefix_runs_help (s : Server) (n : nat) :
  cstr (hex2Ascii (at_off 6 (data (pkt s)))) = firstn n (str "help") ->
  3 <= getBufSize (pkt s) ->
  exists s',
    rspCommand s = Ret tt s' /\
    trace s'
    = trace s ++ rcmd_packets (length (data (pkt s))) help_mess
        ++ EvCommand (str "help")
        :: rcmd_packets (length (data (pkt s)))
             (target_help (fst (command (str "help") (cpu s))))
        ++ [EvPutPkt (str "OK")].
Proof.
  intros Hcmd Hfit.
  assert (Heq : rspCommand s = rspCommand_help s).
  { unfold rspCommand. erewrite bind_Ret by reflexivity. cbv zeta.
    rewrite Hcmd, help_prefix_matches. reflexivity. }
  rewrite Heq. apply rspCommand_help_run. exact Hfit.
Qed.

(** A command that is none of the generic ones reaches the last [else]
    of [rspCommand]. *)
Lemma rspCommand_falls_through (s : Server) :
  generic_command (cstr (hex2Ascii (at_off 6 (data (pkt s))))) = false ->
  rspCommand s
  = rspCommand_target (cstr (hex2Ascii (at_off 6 (data (pkt s))))) s.
Proof.
  unfold generic_command. intros Hg.
  repeat (apply orb_false_iff in Hg; destruct Hg as [Hg ?]).
  unfold rspCommand. erewrite bind_Ret by reflexivity. cbv zeta.
  set (cmd := cstr (hex2Ascii (at_off 6 (data (pkt s))))) in *.
  destruct (sscanf_timeout cmd); [discriminate|].
  repeat match goal with
         | Hc : ?b = false |- context [?b] => rewrite Hc
         end.
  cbn [orb]. reflexivity.
Qed.

(** C2 (what the code does): a monitor command that is none of the
    generic ones is handed to the target's [command]; when the target
    accepts it the server relays the output in an [O] packet and sends
    [OK]; when the target rejects it the server replies [E01]. *)
Theorem monitor_fallback_replies_E01 (s : Server) :
  let cmd := cstr (hex2Ascii (at_off 6 (data (pkt s)))) in
  let r := fst (command cmd (cpu s)) in
  generic_command cmd = false ->
  4 <= getBufSize (pkt s) ->
  exists s',
    rspCommand s = Ret tt s' /\
    trace s'
    = trace s ++ EvCommand cmd
        :: (if fst r
            then [EvPutPkt (rcmd_payload (length (data (pkt s))) (snd r));
                  EvPutPkt (str "OK")]
            else [EvPutPkt (str "E01")]).
Proof.
  intros cmd r Hg Hfit. rewrite rspCommand_falls_through by exact Hg.
  fold cmd. unfold rspCommand_target. rewrite bind_cpu_command. fold r.
  set (s1 := log _ _).
  assert (Hfit1 : (4 <= length (data (pkt s1)))%nat)
    by (unfold getBufSize in Hfit; cbn [s1 pkt log with_cpu]; lia).
  destruct (fst r).
  - unfold relay_output. rewrite <- bind_assoc.
    destruct (put_rcmd_run (snd r) s1 ltac:(lia))
      as (s2 & Heq2 & Htr2 & Hsz2 & _).
    change (pkt_packRcmdStr (snd r) ;; rsp_putPkt) with (put_rcmd (snd r)).
    rewrite (bind_Ret _ _ _ _ _ Heq2).
    rewrite reply_eq;
      [ | repeat constructor
        | unfold getBufSize; rewrite Hsz2;
          cbn [length str list_ascii_of_string]; lia ].
    eexists. split; [reflexivity|].
    cbn [trace sent_state log with_rsp with_pkt]. rewrite Htr2.
    cbn [s1 trace log with_cpu pkt]. now rewrite <- !app_assoc.
  - rewrite reply_eq;
      [ | repeat constructor
        | unfold getBufSize; cbn [length str list_ascii_of_string]; lia ].
    eexists. split; [reflexivity|].
    cbn [trace sent_state log with_rsp with_pkt s1 with_cpu].
    now rewrite <- !app_assoc.
Qed.

(** ** Scanning the header of a memory packet *)

Lemma hex_digit_plain (c : ascii) :
  is_hex_digit c ->
  isspace c = false /\ Ascii.eqb c "-" = false /\ Ascii.eqb c "+" = false /\
  Ascii.eqb c "x" = false /\ Ascii.eqb c "X" = false /\
  Ascii.eqb c ":" = false /\ Ascii.eqb c "," = false /\ is_nul c = false.
Proof.
  unfold is_hex_digit. intros Hc.
  assert (Hne : forall d : ascii, hex_val d = None -> Ascii.eqb c d = false).
  { intros d Hd. destruct (Ascii.eqb_spec c d) as [->|]; [contradiction|].
    reflexivity. }
  repeat split; try (apply Hne; reflexivity).
  unfold isspace, hex_val in *.
  destruct ((48 <=? code c) && (code c <=? 57)) eqn:E1.
  - apply andb_true_iff in E1 as [L1 U1]. apply Z.leb_le in L1, U1.
    apply orb_false_iff. split; [apply Z.eqb_neq; lia|].
    apply andb_false_iff. right. apply Z.leb_gt. lia.
  - destruct ((97 <=? code c) && (code c <=? 102)) eqn:E2.
    + apply andb_true_iff in E2 as [L1 U1]. apply Z.leb_le in L1, U1.
      apply orb_false_iff. split; [apply Z.eqb_neq; lia|].
      apply andb_false_iff. right. apply Z.leb_gt. lia.
    + destruct ((65 <=? code c) && (code c <=? 70)) eqn:E3; [|congruence].
      apply andb_true_iff in E3 as [L1 U1]. apply Z.leb_le in L1, U1.
      apply orb_false_iff. split; [apply Z.eqb_neq; lia|].
      apply andb_false_iff. right. apply Z.leb_gt. lia.
Qed.

Lemma hex_digits_no_nul (h : list ascii) : Forall is_hex_digit h -> no_nul h.
Proof.
  unfold no_nul. intros Hh. eapply Forall_impl; [|exact Hh].
  intros c Hc. apply (hex_digit_plain c Hc).
Qed.

Lemma cstr_app_no_nul (a b : list ascii) :
  no_nul a -> cstr (a ++ b) = a ++ cstr b.
Proof.
  induction 1 as [|c a Hc _ IH]; simpl; [reflexivity|].
  now rewrite Hc, IH.
Qed.

Lemma hex_number_cons (c : ascii) (h : list ascii) (acc : Z) :
  fold_left
    (fun a x => 16 * a + match hex_val x with Some d => d | None => 0 end)
    (c :: h) acc
  = fold_left
      (fun a x => 16 * a + match hex_val x with Some d => d | None => 0 end)
      h (16 * acc + match hex_val c with Some d => d | None => 0 end).
Proof. reflexivity. Qed.

Lemma scan_digits_hex (h : list ascii) (c : ascii) (rest : list ascii) :
  Forall is_hex_digit h -> hex_val c = None ->
  forall acc : Z,
    scan_digits hex_val 16 (Some acc) (h ++ c :: rest)
    = (Some (fold_left
               (fun a x =>
                  16 * a + match hex_val x with Some d => d | None => 0 end)
               h acc),
       c :: rest).
Proof.
  intros Hh Hc. induction Hh as [|x h Hx _ IH]; intros acc.
  - simpl. rewrite Hc. reflexivity.
  - cbn [app scan_digits]. unfold is_hex_digit in Hx.
    destruct (hex_val x) as [d|] eqn:E; [|contradiction].
    rewrite IH. rewrite hex_number_cons, E. reflexivity.
Qed.

(** [%x] on a run of hexadecimal digits that a delimiter follows. *)
Lemma scan_hex_digits (h : list ascii) (c : ascii) (rest : list ascii) :
  h <> [] -> Forall is_hex_digit h -> delimiter c ->
  scan_hex (h ++ c :: rest)
  = Some (strtoul_result false (hex_number h), c :: rest).
Proof.
  intros Hne Hh (Hc & Hx & HX).
  destruct h as [|x h]; [contradiction|]. inversion Hh as [|? ? Hxd Hh']; subst.
  destruct (hex_digit_plain x Hxd) as (Hsp & Hm & Hp & _).
  unfold scan_hex. cbn [app skip_ws]. rewrite Hsp.
  cbn [scan_sign]. rewrite Hm, Hp.
  assert (H0x : skip_0x (x :: h ++ c :: rest)
                = (false, x :: h ++ c :: rest)).
  { unfold skip_0x. destruct h as [|y h]; cbn [app].
    - rewrite Hx, HX. cbn [orb]. now rewrite andb_false_r.
    - inversion Hh' as [|? ? Hyd _]; subst.
      destruct (hex_digit_plain y Hyd) as (_ & _ & _ & Hyx & HyX & _).
      rewrite Hyx, HyX. cbn [orb]. now rewrite andb_false_r. }
  rewrite H0x. cbn [scan_digits]. unfold is_hex_digit in Hxd.
  destruct (hex_val x) as [d|] eqn:E; [|contradiction].
  rewrite (scan_digits_hex h c rest Hh' Hc).
  unfold hex_number. rewrite hex_number_cons, E. reflexivity.
Qed.

Lemma hex_number_nonneg (h : list ascii) : 0 <= hex_number h.
Proof.
  unfold hex_number.
  assert (Hgen : forall acc, 0 <= acc ->
            0 <= fold_left
                   (fun a x =>
                      16 * a + match hex_val x with Some d => d | None => 0 end)
                   h acc).
  { induction h as [|x h IH]; intros acc Hacc; cbn [fold_left]; [exact Hacc|].
    apply IH. unfold hex_val.
    destruct ((48 <=? code x) && (code x <=? 57)) eqn:E1.
    - apply andb_true_iff in E1 as [L1 _]. apply Z.leb_le in L1. lia.
    - destruct ((97 <=? code x) && (code x <=? 102)) eqn:E2.
      + apply andb_true_iff in E2 as [L1 _]. apply Z.leb_le in L1. lia.
      + destruct ((65 <=? code x) && (code x <=? 70)) eqn:E3; [|lia].
        apply andb_true_iff in E3 as [L1 _]. apply Z.leb_le in L1. lia. }
  apply Hgen. lia.
Qed.

Lemma strtoul_small (v : Z) :
  0 <= v < 2 ^ 32 -> uint32 (strtoul_result false v) = v.
Proof.
  intros Hv. unfold strtoul_result, uint64, uint32.
  change (2 ^ 64) with 18446744073709551616.
  change (2 ^ 32) with 4294967296 in *.
  replace (18446744073709551616 - 1 <? v) with false
    by (symmetry; apply Z.ltb_ge; lia).
  rewrite (Z.mod_small v 18446744073709551616) by lia.
  apply Z.mod_small. lia.
Qed.

(** [sscanf (buf, "M%x,%x:", ...)] on a well-formed header. *)
Lemma sscanf_M_header (ha hl tail : list ascii) :
  ha <> [] -> Forall is_hex_digit ha -> hex_number ha < 2 ^ 32 ->
  hl <> [] -> Forall is_hex_digit hl -> hex_number hl < 2 ^ 32 ->
  sscanf_c_x_x "M"
    (str "M" ++ ha ++ str "," ++ hl ++ str ":" ++ tail)
  = Some (hex_number ha, hex_number hl).
Proof.
  intros Hane Hah Hab Hlne Hlh Hlb. unfold sscanf_c_x_x.
  change (str "M" ++ ha ++ str "," ++ hl ++ str ":" ++ tail)
    with ("M"%char :: (ha ++ ","%char :: hl ++ ":"%char :: tail)).
  cbn [cstr is_nul Ascii.eqb Bool.eqb NUL Ascii.zero andb].
  rewrite (cstr_app_no_nul ha) by (apply hex_digits_no_nul; exact Hah).
  cbn [cstr is_nul Ascii.eqb Bool.eqb NUL Ascii.zero andb].
  rewrite (cstr_app_no_nul hl) by (apply hex_digits_no_nul; exact Hlh).
  cbn [cstr is_nul Ascii.eqb Bool.eqb NUL Ascii.zero andb scan_lit].
  rewrite scan_hex_digits by (try assumption; repeat split).
  cbn [scan_lit Ascii.eqb Bool.eqb andb].
  rewrite scan_hex_digits by (try assumption; repeat split).
  pose proof (hex_number_nonneg ha). pose proof (hex_number_nonneg hl).
  rewrite !strtoul_small by lia. reflexivity.
Qed.

Lemma memchr_from_skip (pre : list ascii) (c : ascii) (rest : list ascii) :
  Forall (fun x => Ascii.eqb x c = false) pre ->
  forall (i : Z) (n : nat),
    (length pre < n)%nat ->
    memchr_from i (pre ++ c :: rest) c n = Some (i + Z.of_nat (length pre)).
Proof.
  induction 1 as [|x pre Hx _ IH]; intros i n Hn.
  - destruct n as [|n]; [simpl in Hn; lia|]. cbn [app memchr_from].
    rewrite Ascii.eqb_refl. f_equal. simpl. lia.
  - destruct n as [|n]; [simpl in Hn; lia|]. cbn [app memchr_from].
    rewrite Hx. rewrite IH by (simpl in Hn; lia). f_equal.
    cbn [length]. lia.
Qed.

(** ** Writing memory *)

Lemma char_at_app (pre : list ascii) (x : ascii) (rest : list ascii) :
  char_at (pre ++ x :: rest) (Z.of_nat (length pre)) = x.
Proof.
  unfold char_at.
  replace (Z.of_nat (length pre) <? 0) with false
    by (symmetry; apply Z.ltb_ge; lia).
  rewrite Nat2Z.id, app_nth2, Nat.sub_diag by lia. reflexivity.
Qed.

(** The loop of [rspWriteMem] over [k] pairs of digits: one write per
    pair, at consecutive addresses. *)
Lemma rspWriteMem_loop (buf : list ascii) (addr symDat : Z)
  (body : Z -> M Server unit) :
  (forall off s,
     body off s
     = Ret tt
         (log (EvWrite (uint32 (addr + off))
                 [hex_pair (char_at buf (symDat + off * 2))
                           (char_at buf (symDat + off * 2 + 1))])
            (with_cpu
               (snd (write (uint32 (addr + off))
                       [hex_pair (char_at buf (symDat + off * 2))
                                 (char_at buf (symDat + off * 2 + 1))]
                       (cpu s))) s))) ->
  forall (k : nat) (off : Z) (s : Server) (pre dat tail : list ascii),
    buf = pre ++ dat ++ tail ->
    Z.of_nat (length pre) = symDat + off * 2 ->
    length dat = (2 * k)%nat ->
    exists s',
      for_loop k off body s = Ret tt s' /\
      trace s' = trace s ++ byte_writes addr off (hex_pairs dat) /\
      pkt s' = pkt s /\
      length (hex_pairs dat) = k /\
      cpu s' = written_bytes addr off (hex_pairs dat) (cpu s) /\
      rsp s' = rsp s.
Proof.
  intros Hbody. induction k as [|k IH]; intros off s pre dat tail Hbuf Hpre Hlen.
  - destruct dat; [|simpl in Hlen; lia]. exists s. cbn [for_loop].
    repeat split. simpl. now rewrite app_nil_r.
  - destruct dat as [|a [|b dat]]; try (simpl in Hlen; lia).
    cbn [for_loop]. erewrite bind_Ret by apply Hbody.
    assert (Ha : char_at buf (symDat + off * 2) = a).
    { rewrite Hbuf, <- Hpre. cbn [app]. apply char_at_app. }
    assert (Hb : char_at buf (symDat + off * 2 + 1) = b).
    { rewrite Hbuf. cbn [app].
      change (pre ++ a :: b :: dat ++ tail)
        with (pre ++ [a] ++ b :: dat ++ tail).
      rewrite app_assoc.
      replace (symDat + off * 2 + 1) with (Z.of_nat (length (pre ++ [a])))
        by (rewrite length_app; simpl; lia).
      apply char_at_app. }
    rewrite Ha, Hb.
    match goal with
    | |- context [for_loop k (off + 1) body ?st] =>
        destruct (IH (off + 1) st (pre ++ [a; b]) dat tail)
          as (s' & Heq & Htr & Hpkt & Hn & Hcpu & Hrsp)
    end.
    + rewrite Hbuf, <- app_assoc. reflexivity.
    + rewrite length_app. simpl. lia.
    + simpl in Hlen. lia.
    + exists s'. split; [exact Heq|]. split; [|split; [|split; [|split]]].
      * rewrite Htr. cbn [trace log with_cpu hex_pairs byte_writes].
        now rewrite <- app_assoc.
      * rewrite Hpkt. reflexivity.
      * cbn [hex_pairs length]. now rewrite Hn.
      * rewrite Hcpu. reflexivity.
      * rewrite Hrsp. reflexivity.
Qed.

(** An [int] is the value that differs from the number by a multiple of
    [2 ^ 32] and is in range. *)
Lemma int32_eq (z k : Z) :
  - 2 ^ 31 <= z + k * 2 ^ 32 < 2 ^ 31 -> int32 z = z + k * 2 ^ 32.
Proof.
  intros Hz. unfold int32.
  replace (z + 2 ^ 31) with (z + k * 2 ^ 32 + 2 ^ 31 + (- k) * 2 ^ 32) by lia.
  rewrite Z_mod_plus_full, Z.mod_small; lia.
Qed.

(** C8 (what the code does): an [M<addr>,<len>:<data>] packet whose
    data is [2 * len] digits long has each pair of digits decoded and
    written, one byte per call at consecutive addresses from [addr], and
    is answered [OK]; the target ends as those writes leave it.  A
    packet whose data is not [2 * len] digits long is answered [E01] and
    nothing is written to the target, unless [len * 2] wraps in [int]
    onto the length of the data: [len] is read into an [int], so a
    [<len>] from [2 ^ 31] up is negative, and when [2 * len - 2 ^ 32]
    is the number of digits the check passes, no byte is written and
    the answer is [OK]. *)
Theorem write_memory_packet (s : Server) (ha hl dat junk : list ascii) :
  let header := str "M" ++ ha ++ str "," ++ hl ++ str ":" in
  let addr := hex_number ha in
  let n := hex_number hl in
  let wraps := 2 ^ 31 <= n /\ Z.of_nat (length dat) = 2 * n - 2 ^ 32 in
  data (pkt s) = header ++ dat ++ NUL :: junk ->
  len (pkt s) = Z.of_nat (length (header ++ dat)) ->
  getBufSize (pkt s) <= INT_MAX ->
  ha <> [] -> Forall is_hex_digit ha -> addr < 2 ^ 32 ->
  hl <> [] -> Forall is_hex_digit hl -> n < 2 ^ 32 ->
  (Z.of_nat (length dat) <> 2 * n -> ~ wraps ->
   exists s',
     rspWriteMem s = Ret tt s' /\
     trace s' = trace s ++ [EvPutPkt (str "E01")] /\
     cpu s' = cpu s)
  /\
  (Z.of_nat (length dat) = 2 * n ->
   exists s',
     rspWriteMem s = Ret tt s' /\
     trace s'
     = trace s ++ byte_writes addr 0 (hex_pairs dat) ++ [EvPutPkt (str "OK")]
     /\ cpu s' = written_bytes addr 0 (hex_pairs dat) (cpu s)
     /\ Z.of_nat (length (hex_pairs dat)) = n)
  /\
  (wraps ->
   exists s',
     rspWriteMem s = Ret tt s' /\
     trace s' = trace s ++ [EvPutPkt (str "OK")] /\
     cpu s' = cpu s).
Proof.
  intros header addr n wraps Hdata Hlen Hsize Hane Hah Hab Hlne Hlh Hlb.
  pose proof (hex_number_nonneg ha) as Ha0.
  pose proof (hex_number_nonneg hl) as Hl0. fold addr in Ha0. fold n in Hl0.
  unfold INT_MAX in Hsize.
  assert (Hscan : sscanf_c_x_x "M" (data (pkt s)) = Some (addr, n)).
  { rewrite Hdata. unfold header. rewrite <- !app_assoc.
    apply sscanf_M_header; assumption. }
  set (pre := "M"%char :: ha ++ ","%char :: hl).
  assert (Hpre : header = pre ++ [":"%char]).
  { unfold header, pre. cbn [str list_ascii_of_string app].
    rewrite <- !app_assoc. reflexivity. }
  assert (Hcolon :
    memchr (data (pkt s)) ":" (getBufSize (pkt s))
    = Some (Z.of_nat (length pre))).
  { unfold memchr, getBufSize. rewrite Nat2Z.id, Hdata, Hpre.
    rewrite <- !app_assoc. cbn [app].
    rewrite memchr_from_skip; [reflexivity | |].
    - unfold pre. constructor; [reflexivity|].
      apply Forall_app. split.
      + eapply Forall_impl; [|exact Hah]. intros c Hc.
        apply (hex_digit_plain c Hc).
      + constructor; [reflexivity|].
        eapply Forall_impl; [|exact Hlh]. intros c Hc.
        apply (hex_digit_plain c Hc).
    - rewrite length_app. simpl. lia. }
  assert (Hbuflen :
    getBufSize (pkt s)
    = Z.of_nat (length pre) + 1 + Z.of_nat (length dat) + 1
      + Z.of_nat (length junk)).
  { unfold getBufSize. rewrite Hdata, Hpre, !length_app. simpl length. lia. }
  assert (HdatLen :
    int32 (len (pkt s) - (Z.of_nat (length pre) + 1))
    = Z.of_nat (length dat)).
  { rewrite Hlen, Hpre, !length_app. simpl length.
    rewrite int32_small; lia. }
  assert (Hrun :
    rspWriteMem s
    = (if negb (int32 (int32 n * 2) =? Z.of_nat (length dat))
       then reply (str "E01")
       else
         for_loop (Z.to_nat (int32 n)) 0
           (fun off =>
              let nyb1 :=
                uint8 (char2Hex (char_at (data (pkt s))
                                   (Z.of_nat (length pre) + 1 + off * 2))) in
              let nyb2 :=
                uint8 (char2Hex (char_at (data (pkt s))
                                   (Z.of_nat (length pre) + 1 + off * 2 + 1))) in
              let val := uint8 (Z.lor (Z.shiftl nyb1 4) nyb2) in
              cpu_write (uint32 (addr + off)) [val] ;; ret tt) ;;
         reply (str "OK")) s).
  { unfold rspWriteMem. do 3 (erewrite bind_Ret by reflexivity).
    rewrite Hscan, Hcolon. cbv zeta. rewrite HdatLen. reflexivity. }
  rewrite Hrun. clear Hrun.
  assert (Hfit : forall txt : list ascii,
            (length txt <= 3)%nat ->
            Z.of_nat (length txt) < getBufSize (pkt s)).
  { intros txt Htxt. rewrite Hbuflen. unfold pre.
    destruct ha; [contradiction|]. simpl length. lia. }
  (* the [int]s of the length and of its double *)
  assert (Hprod :
    (n < 2 ^ 30 /\ int32 n = n /\ int32 (int32 n * 2) = 2 * n) \/
    (2 ^ 30 <= n < 2 ^ 31 /\ int32 (int32 n * 2) < 0) \/
    (2 ^ 31 <= n < 2 ^ 31 + 2 ^ 30 /\ int32 n < 0 /\
     int32 (int32 n * 2) = 2 * n - 2 ^ 32) \/
    (2 ^ 31 + 2 ^ 30 <= n /\ int32 (int32 n * 2) < 0)).
  { destruct (Z_lt_le_dec n (2 ^ 30)) as [H1|H1];
      [|destruct (Z_lt_le_dec n (2 ^ 31)) as [H2|H2];
        [|destruct (Z_lt_le_dec n (2 ^ 31 + 2 ^ 30)) as [H3|H3]]].
    - left. rewrite (int32_eq n 0) by lia.
      rewrite (int32_eq _ 0) by lia. lia.
    - right; left. rewrite (int32_eq n 0) by lia.
      rewrite (int32_eq _ (-1)) by lia. lia.
    - right; right; left. rewrite (int32_eq n (-1)) by lia.
      rewrite (int32_eq _ 1) by lia. lia.
    - right; right; right. rewrite (int32_eq n (-1)) by lia.
      rewrite (int32_eq _ 0) by lia. lia. }
  assert (Hdat : 0 <= Z.of_nat (length dat) < 2 ^ 31) by lia.
  split; [|split].
  - intros Hne Hnw.
    replace (int32 (int32 n * 2) =? Z.of_nat (length dat)) with false.
    + cbn [negb].
      rewrite reply_eq;
        [ | repeat constructor | apply Hfit; simpl; lia ].
      eexists. split; [reflexivity|]. split; reflexivity.
    + symmetry. apply Z.eqb_neq. intros Heq. unfold wraps in Hnw.
      destruct Hprod as [H|[H|[H|H]]]; lia.
  - intros Heq.
    destruct Hprod as [(H1 & Hn0 & Hn2)|[H|[H|H]]]; try lia.
    rewrite Hn2, Hn0.
    replace (2 * n =? Z.of_nat (length dat)) with true
      by (symmetry; apply Z.eqb_eq; lia).
    cbn [negb].
    destruct (rspWriteMem_loop (data (pkt s)) addr (Z.of_nat (length pre) + 1)
                (fun off =>
                   let nyb1 :=
                     uint8 (char2Hex (char_at (data (pkt s))
                                        (Z.of_nat (length pre) + 1 + off * 2))) in
                   let nyb2 :=
                     uint8 (char2Hex (char_at (data (pkt s))
                                        (Z.of_nat (length pre) + 1 + off * 2 + 1))) in
                   let val := uint8 (Z.lor (Z.shiftl nyb1 4) nyb2) in
                   cpu_write (uint32 (addr + off)) [val] ;; ret tt)
                ltac:(intros off st; cbv beta zeta; rewrite bind_cpu_write;
                      reflexivity)
                (Z.to_nat n) 0 s (pre ++ [":"%char]) dat (NUL :: junk))
      as (s1 & Heq1 & Htr1 & Hpkt1 & Hn1 & Hcpu1 & _).
    + rewrite Hdata, Hpre. reflexivity.
    + rewrite length_app. simpl. lia.
    + lia.
    + rewrite (bind_Ret _ _ _ _ _ Heq1).
      rewrite reply_eq;
        [ | repeat constructor | rewrite Hpkt1; apply Hfit; simpl; lia ].
      eexists. split; [reflexivity|]. split; [|split].
      * cbn [trace sent_state log with_rsp with_pkt]. rewrite Htr1.
        now rewrite <- app_assoc.
      * cbn [cpu sent_state log with_rsp with_pkt]. exact Hcpu1.
      * rewrite Hn1. lia.
  - intros (Hbig & Hw).
    destruct Hprod as [H|[H|[(H1 & Hneg & Hn2)|H]]]; try lia.
    rewrite Hn2.
    replace (2 * n - 2 ^ 32 =? Z.of_nat (length dat)) with true
      by (symmetry; apply Z.eqb_eq; lia).
    cbn [negb].
    replace (Z.to_nat (int32 n)) with O by lia.
    cbn [for_loop]. erewrite bind_Ret by reflexivity.
    rewrite reply_eq; [ | repeat constructor | apply Hfit; simpl; lia ].
    eexists. split; [reflexivity|]. split; reflexivity.
Qed.

(** ** One packet per request *)

Lemma sends_no_return {A} (lo hi : nat) (m : M Server A) :
  silent m -> (forall s a s', m s <> Ret a s') -> sends lo hi m.
Proof.
  intros Hm Hno s. exists []. rewrite app_nil_r. unfold puts. simpl.
  split; [apply Hm | split; [lia|]].
  intros a s' E. exfalso. exact (Hno s a s' E).
Qed.

Ltac silent_tac :=
  repeat first
    [ apply silent_ret | apply silent_get | apply silent_poke
    | apply silent_sprintf_at | apply silent_pkt_val2Hex
    | apply silent_undefined | apply silent_exit_failure
    | apply silent_out_of_fuel
    | apply silent_modify; intros; reflexivity
    | apply silent_bind; [|intros] ].

Ltac calls_tac :=
  first
    [ apply calls_cpu_resume | apply calls_cpu_reset
    | apply calls_cpu_readRegister | apply calls_cpu_writeRegister
    | apply calls_cpu_read | apply calls_cpu_write | apply calls_cpu_command
    | apply calls_cpu_getCycleCount | apply calls_cpu_getInstrCount
    | apply calls_rsp_rspConnect | apply calls_rsp_rspClose
    | apply calls_rsp_getPkt | apply calls_rsp_haveBreak
    | apply calls_system_clock_now | apply calls_system_clock_strftime
    | apply calls_cout ].

(** Steps that put no packet. *)
Ltac sends_quiet :=
  lazymatch goal with
  | |- sends 0 0 (if ?b then _ else _) => destruct b; sends_quiet
  | |- sends 0 0 (match ?x with _ => _ end) => destruct x; sends_quiet
  | |- sends 0 0 _ =>
      first
        [ apply sends_silent; solve [silent_tac]
        | eapply sends_calls; [solve [calls_tac] | reflexivity]
        | apply (sends_after 0 0); [sends_quiet | intros; sends_quiet] ]
  end.

Lemma sends_send : sends 1 1 (setLen_strlen ;; rsp_putPkt).
Proof.
  apply sends_after; [sends_quiet | intros; apply sends_rsp_putPkt].
Qed.

Lemma sends_reply (txt : list ascii) : sends 1 1 (reply txt).
Proof.
  unfold reply, pkt_packStr.
  apply sends_after; [sends_quiet | intros; apply sends_rsp_putPkt].
Qed.

Lemma sends_rspReportException (sig : TargetSignal) :
  sends 1 1 (rspReportException sig).
Proof.
  unfold rspReportException.
  do 5 (apply sends_after; [sends_quiet | intros _]).
  apply sends_rsp_putPkt.
Qed.

Lemma sends_stringLength_from (fuel : nat) (addr count : Z) :
  sends 0 0 (stringLength_from fuel addr count).
Proof.
  revert count. induction fuel as [|fuel IH]; intros count;
    cbn [stringLength_from].
  - sends_quiet.
  - apply sends_after; [sends_quiet | intros [ch|]]; [|sends_quiet].
    destruct (uint8 ch =? 0); [sends_quiet | apply IH].
Qed.

(** Steps that end with exactly one packet put. *)
Ltac sends_one :=
  lazymatch goal with
  | |- sends 1 1 (if ?b then _ else _) => destruct b; sends_one
  | |- sends 1 1 (match ?x with _ => _ end) => destruct x; sends_one
  | |- sends 1 1 _ =>
      first
        [ apply sends_rsp_putPkt | apply sends_send | apply sends_reply
        | apply sends_rspReportException
        | apply sends_no_return;
          [solve [silent_tac] | intros; discriminate]
        | apply sends_after; [sends_quiet | intros; sends_one]
        | apply sends_before; [sends_one | intros; sends_quiet] ]
  end.

Lemma sends_rspSyscallRequest (fuel : nat) (cType : SyscallContinuationType) :
  sends 1 1 (rspSyscallRequest fuel cType).
Proof.
  unfold rspSyscallRequest, sprintf.
  do 6 (apply sends_after; [sends_quiet | intros ?]).
  cbv zeta.
  repeat match goal with
         | |- sends _ _ (if ?b then _ else _) => destruct b
         end;
    try (apply sends_after;
         [apply sends_stringLength_from | intros ?]);
    sends_one.
Qed.

Lemma sends_rspContinue_loop (fuel : nat) (timeout_end : Z) :
  sends 1 1 (rspContinue_loop fuel timeout_end).
Proof.
  induction fuel as [|fuel IH]; cbn [rspContinue_loop].
  - sends_one.
  - apply sends_after; [sends_quiet | intros r].
    destruct r; try sends_one.
    + apply sends_after; [sends_quiet | intros timeout].
      apply sends_after; [sends_quiet | intros expired].
      destruct expired; [sends_one|].
      apply sends_after; [sends_quiet | intros brk].
      destruct brk; [sends_one | exact IH].
    + apply sends_rspSyscallRequest.
Qed.

Lemma sends_rspContinue (fuel : nat) : sends 1 1 (rspContinue fuel).
Proof.
  unfold rspContinue.
  do 3 (apply sends_after; [sends_quiet | intros ?]).
  match goal with |- sends _ _ (if ?b then _ else _) => destruct b end;
    [sends_one | apply sends_rspContinue_loop].
Qed.

Lemma sends_rspSingleStep (fuel : nat) : sends 1 1 (rspSingleStep fuel).
Proof.
  unfold rspSingleStep.
  apply sends_after; [sends_quiet | intros brk].
  destruct brk; [sends_one|].
  apply sends_after; [sends_quiet | intros r].
  destruct r; try sends_one. apply sends_rspSyscallRequest.
Qed.

Lemma sends_rspSyscallReply (fuel : nat) : sends 1 1 (rspSyscallReply fuel).
Proof.
  unfold rspSyscallReply.
  do 3 (apply sends_after; [sends_quiet | intros ?]).
  cbv zeta.
  match goal with |- sends _ _ (if ?b then _ else _) => destruct b end;
    [|sends_one].
  apply sends_after; [sends_quiet | intros _].
  match goal with |- sends _ _ (if ?b then _ else _) => destruct b end;
    [sends_one|].
  match goal with |- sends _ _ (match ?x with _ => _ end) => destruct x end;
    try sends_one.
  apply sends_rspContinue.
Qed.

Lemma sends_rspReadAllRegs_loop (n : nat) (regNum pktSize : Z) :
  sends 0 0 (rspReadAllRegs_loop n regNum pktSize).
Proof.
  revert regNum pktSize. induction n as [|n IH]; intros regNum pktSize;
    cbn [rspReadAllRegs_loop].
  - sends_quiet.
  - apply sends_after; [sends_quiet | intros r].
    apply sends_after; [sends_quiet | intros _]. apply IH.
Qed.

Lemma sends_rspReadAllRegs : sends 1 1 rspReadAllRegs.
Proof.
  unfold rspReadAllRegs.
  apply sends_after; [apply sends_rspReadAllRegs_loop | intros ?].
  sends_one.
Qed.

Lemma sends_rspWriteAllRegs : sends 1 1 rspWriteAllRegs.
Proof.
  unfold rspWriteAllRegs.
  apply sends_after; [|intros; sends_one].
  apply sends_for_loop. intros j. sends_quiet.
Qed.

Lemma sends_rspReadMem : sends 1 1 rspReadMem.
Proof.
  unfold rspReadMem.
  do 2 (apply sends_after; [sends_quiet | intros ?]).
  match goal with |- sends _ _ (match ?x with _ => _ end) => destruct x as [[? ?]|] end;
    [|sends_one].
  apply sends_after; [|intros; sends_one].
  apply sends_for_loop. intros j. sends_quiet.
Qed.

Lemma sends_rspWriteMem : sends 1 1 rspWriteMem.
Proof.
  unfold rspWriteMem.
  do 3 (apply sends_after; [sends_quiet | intros ?]).
  match goal with |- sends _ _ (match ?x with _ => _ end) => destruct x as [[? ?]|] end;
    [|sends_one].
  match goal with |- sends _ _ (match ?x with _ => _ end) => destruct x end;
    [|sends_one].
  match goal with |- sends _ _ (if ?b then _ else _) => destruct b end;
    [sends_one|].
  apply sends_after; [|intros; sends_one].
  apply sends_for_loop. intros j. cbv zeta. sends_quiet.
Qed.

Lemma sends_rspReadReg : sends 1 1 rspReadReg.
Proof.
  unfold rspReadReg.
  apply sends_after; [sends_quiet | intros ?].
  match goal with |- sends _ _ (match ?x with _ => _ end) => destruct x end;
    [|sends_one].
  apply sends_after; [sends_quiet | intros ?]. sends_one.
Qed.

Lemma sends_rspWriteReg : sends 1 1 rspWriteReg.
Proof.
  unfold rspWriteReg.
  apply sends_after; [sends_quiet | intros ?].
  match goal with |- sends _ _ (match ?x with _ => _ end) => destruct x as [[? ?]|] end;
    sends_one.
Qed.

Lemma sends_rspWriteMemBin : sends 1 1 rspWriteMemBin.
Proof.
  unfold rspWriteMemBin.
  do 3 (apply sends_after; [sends_quiet | intros ?]).
  match goal with |- sends _ _ (match ?x with _ => _ end) => destruct x as [[? ?]|] end;
    [|sends_one].
  match goal with |- sends _ _ (match ?x with _ => _ end) => destruct x end;
    sends_one.
Qed.

(** A query other than [qRcmd] is answered with one packet. *)
Lemma rspQuery_sends (s : Server) :
  starts_with "qRcmd," (data (pkt s)) = false ->
  exists d : list Event,
    trace (final (rspQuery s)) = trace s ++ d /\
    (puts d <= 1)%nat /\
    (forall a s', rspQuery s = Ret a s' -> (1 <= puts d)%nat).
Proof.
  intros Hq. unfold rspQuery.
  do 2 (erewrite bind_Ret by reflexivity). rewrite Hq.
  repeat match goal with
         | |- context [if ?b then _ else _] => destruct b
         end;
    match goal with
    | |- exists d, trace (final (?m ?st)) = _ /\ _ =>
        let Hs := fresh "Hs" in
        assert (Hs : sends 1 1 m) by (unfold sprintf; sends_one);
        exact (Hs st)
    end.
Qed.

Lemma switch_answered (fuel : nat) (ch : ascii) :
  In ch answered_requests \/ In ch running_requests ->
  sends 1 1 (rspClientRequest_switch fuel ch).
Proof.
  unfold answered_requests, running_requests.
  cbn [str list_ascii_of_string In].
  intros Hin.
  repeat match goal with
         | Hd : _ \/ _ |- _ => destruct Hd as [Hd | Hd]
         end;
    try contradiction; subst ch;
    unfold rspClientRequest_switch;
    cbn [is_char Ascii.eqb Bool.eqb andb orb];
    first
      [ apply sends_rspSyscallReply | apply sends_rspContinue
      | apply sends_rspSingleStep | apply sends_rspReadAllRegs
      | apply sends_rspWriteAllRegs | apply sends_rspReadMem
      | apply sends_rspWriteMem | apply sends_rspReadReg
      | apply sends_rspWriteReg | apply sends_rspWriteMemBin
      | unfold rspSet, rspVpkt, rspRemoveMatchpoint, rspInsertMatchpoint;
        sends_one ].
Qed.

Lemma switch_ignored (fuel : nat) (ch : ascii) (s : Server) :
  In ch ignored_requests \/ ~ In ch known_requests ->
  exists s', rspClientRequest_switch fuel ch s = Ret tt s' /\
             trace s' = trace s.
Proof.
  unfold ignored_requests, known_requests.
  cbn [str list_ascii_of_string In].
  intros [Hin | Hout].
  - repeat match goal with
           | Hd : _ \/ _ |- _ => destruct Hd as [Hd | Hd]
           end;
      try contradiction; subst ch;
      unfold rspClientRequest_switch;
      cbn [is_char Ascii.eqb Bool.eqb andb orb];
      try (eexists; split; reflexivity).
    erewrite bind_Ret by reflexivity.
    destruct (killBehaviour s); eexists; split; reflexivity.
  - unfold rspClientRequest_switch, is_char.
    repeat match goal with
           | |- context [Ascii.eqb ch ?x] =>
               destruct (Ascii.eqb_spec ch x) as [->|_];
               [exfalso; apply Hout; tauto|]
           end.
    cbn [orb]. eexists. split; reflexivity.
Qed.

Lemma switch_total (fuel : nat) (ch : ascii) (s : Server) :
  In ch (str "!ADHTQvzZ") ->
  exists s', rspClientRequest_switch fuel ch s = Ret tt s'.
Proof.
  cbn [str list_ascii_of_string In]. intros Hin.
  repeat match goal with
         | Hd : _ \/ _ |- _ => destruct Hd as [Hd | Hd]
         end;
    try contradiction; subst ch;
    unfold rspClientRequest_switch;
    cbn [is_char Ascii.eqb Bool.eqb andb orb];
    eexists; reflexivity.
Qed.

(** ** What each request is answered with *)

Lemma runs_ret (s : Server) : runs (ret tt) s [].
Proof. exists s. split; [reflexivity|]. now rewrite app_nil_r. Qed.

Lemma runs_bind {A} (m : M Server A) (k : A -> M Server unit)
  (s s1 : Server) (a : A) (e1 e2 : list Event) :
  m s = Ret a s1 -> trace s1 = trace s ++ e1 -> runs (k a) s1 e2 ->
  runs (bind m k) s (e1 ++ e2).
Proof.
  intros Hm Htr (s' & Hk & Htr'). exists s'. split.
  - unfold bind. rewrite Hm. exact Hk.
  - rewrite Htr', Htr, app_assoc. reflexivity.
Qed.

Lemma runs_reply (txt : list ascii) (s : Server) :
  no_nul txt -> Z.of_nat (length txt) < getBufSize (pkt s) ->
  runs (reply txt) s [EvPutPkt txt].
Proof.
  intros Hnn Hfit. unfold runs. rewrite reply_eq by assumption.
  eexists. split; reflexivity.
Qed.

Lemma runs_rspReportException (sig : TargetSignal) (s : Server) :
  4 <= getBufSize (pkt s) ->
  runs (rspReportException sig) s [EvPutPkt (stop_reply sig)].
Proof.
  intros Hfit. unfold runs. rewrite rspReportException_eq by exact Hfit.
  eexists. split; reflexivity.
Qed.

(** From the [switch] to the request. *)
Lemma handled_switch (fuel : nat) (s : Server) (p : RspPacket) (c : C)
  (evs : list Event) :
  getPkt (pkt s) (rsp s) = (true, p, c) ->
  runs (rspClientRequest_switch fuel (char_at (data p) 0))
       (log EvGetPkt (with_pkt p (with_rsp c s))) evs ->
  handled fuel s evs.
Proof.
  intros Hget (s' & Heq & Htr). exists s'. split.
  - rewrite (rspClientRequest_got fuel s p c Hget). exact Heq.
  - rewrite Htr. cbn [trace log with_pkt with_rsp].
    now rewrite <- app_assoc.
Qed.

Lemma switch_fixed (fuel : nat) (ch : ascii) (s : Server) (txt : list ascii) :
  4 <= getBufSize (pkt s) ->
  fixed_reply ch = Some txt ->
  runs (rspClientRequest_switch fuel ch) s [EvPutPkt txt].
Proof.
  intros Hfit Hr. unfold fixed_reply in Hr. unfold rspClientRequest_switch.
  destruct ch as [b0 b1 b2 b3 b4 b5 b6 b7].
  destruct b0, b1, b2, b3, b4, b5, b6, b7;
    cbn [is_char Ascii.eqb Bool.eqb andb orb] in Hr; try discriminate;
    cbn [is_char Ascii.eqb Bool.eqb andb orb];
    injection Hr as <-;
    unfold rspSet, rspVpkt, rspRemoveMatchpoint, rspInsertMatchpoint;
    first
      [ apply runs_rspReportException; exact Hfit
      | apply runs_reply; [repeat constructor | simpl; lia] ].
Qed.

Lemma switch_detach (fuel : nat) (s : Server) :
  4 <= getBufSize (pkt s) ->
  runs (rspClientRequest_switch fuel "D") s [EvPutPkt (str "OK"); EvClose].
Proof.
  intros Hfit. unfold rspClientRequest_switch.
  cbn [is_char Ascii.eqb Bool.eqb andb orb].
  unfold runs. rewrite (bind_Ret _ _ _ _ _ (reply_eq (str "OK") s
                          ltac:(repeat constructor) ltac:(simpl; lia))).
  eexists. split; [reflexivity|].
  cbn [trace log with_rsp sent_state with_pkt]. now rewrite <- app_assoc.
Qed.

(** *** Queries *)

Lemma strncmp0_prefix (l buf : list ascii) :
  no_nul l -> strncmp0 l buf (length l) = true ->
  exists rest, buf = l ++ rest.
Proof.
  intros Hnn. revert buf. induction Hnn as [|x l Hx _ IH]; intros buf Hcmp.
  - exists buf. reflexivity.
  - cbn [length strncmp0 hd tl] in Hcmp. rewrite Hx in Hcmp.
    destruct (Ascii.eqb_spec x (hd NUL buf)) as [E|]; [|discriminate].
    destruct buf as [|y buf].
    + cbn [hd] in E. subst x. discriminate.
    + cbn [hd] in E. subst y. cbn [tl] in Hcmp.
      destruct (IH buf Hcmp) as (rest & ->). exists rest. reflexivity.
Qed.

Lemma starts_with_prefix (lit : string) (buf : list ascii) :
  no_nul (str lit) -> starts_with lit buf = true ->
  exists rest, buf = str lit ++ rest.
Proof. intros Hnn Hs. apply strncmp0_prefix; assumption. Qed.

(** A buffer that holds a C string holds its characters, and then ends
    or holds a NUL. *)
Lemma cstr_inv (buf x : list ascii) :
  cstr buf = x -> exists rest, buf = x ++ rest /\ cstr rest = [].
Proof.
  revert x. induction buf as [|c buf IH]; intros x Hx.
  - cbn [cstr] in Hx. subst x. exists []. split; reflexivity.
  - cbn [cstr] in Hx. destruct (is_nul c) eqn:Ec.
    + subst x. exists (c :: buf). split; [reflexivity|].
      cbn [cstr]. now rewrite Ec.
    + destruct x as [|y x]; [discriminate|]. injection Hx as <- Hx.
      destruct (IH x Hx) as (rest & -> & Hrest).
      exists rest. split; [reflexivity | exact Hrest].
Qed.

Lemma runs_sprintf_send (txt : list ascii) (s : Server) :
  no_nul txt -> Z.of_nat (length txt) < getBufSize (pkt s) ->
  runs (sprintf txt ;; setLen_strlen ;; rsp_putPkt) s [EvPutPkt txt].
Proof.
  intros Hnn Hfit. unfold runs. rewrite sprintf_send_eq by assumption.
  eexists. split; reflexivity.
Qed.

Lemma strcmp0_cstr (lit buf : list ascii) :
  strcmp0 lit buf = list_eqb (cstr lit) (cstr buf).
Proof. reflexivity. Qed.

Lemma rspQuery_answers (s : Server) :
  let buf := data (pkt s) in
  let size := getBufSize (pkt s) in
  32 <= size ->
  (cstr buf = str "qC" -> runs rspQuery s [EvPutPkt (str "QC1")]) /\
  (starts_with "qCRC" buf = true -> runs rspQuery s [EvPutPkt (str "E01")]) /\
  (cstr buf = str "qfThreadInfo" -> runs rspQuery s [EvPutPkt (str "m1")]) /\
  (cstr buf = str "qsThreadInfo" -> runs rspQuery s [EvPutPkt (str "l")]) /\
  (starts_with "qL" buf = true -> runs rspQuery s [EvPutPkt (str "qM001")]) /\
  (starts_with "qSupported" buf = true ->
   runs rspQuery s [EvPutPkt (str "PacketSize=" ++ fmt_x size)]) /\
  (starts_with "qSymbol:" buf = true -> runs rspQuery s [EvPutPkt (str "OK")]) /\
  (starts_with "qThreadExtraInfo," buf = true ->
   runs rspQuery s [EvPutPkt (str "52756e6e61626c6500")]) /\
  (known_query buf = false -> runs rspQuery s [EvPutPkt []]).
Proof.
  intros buf size Hfit.
  assert (Hsend : forall txt : list ascii,
            no_nul txt -> (length txt <= 24)%nat ->
            runs (sprintf txt ;; setLen_strlen ;; rsp_putPkt) s
                 [EvPutPkt txt]).
  { intros txt Hnn Hlen. apply runs_sprintf_send; [exact Hnn|].
    fold size. lia. }
  assert (Hreply : forall txt : list ascii,
            no_nul txt -> (length txt <= 24)%nat ->
            runs (reply txt) s [EvPutPkt txt]).
  { intros txt Hnn Hlen. apply runs_reply; [exact Hnn|]. fold size. lia. }
  repeat split.
  - intros Hb. destruct (cstr_inv _ _ Hb) as (rest & Hbuf & Hrest).
    unfold runs, rspQuery.
    do 2 (erewrite bind_Ret by reflexivity).
    rewrite strcmp0_cstr. fold buf. rewrite Hb.
    apply (Hsend (str "QC1")); [repeat constructor | simpl; lia].
  - intros Hb.
    destruct (starts_with_prefix "qCRC" buf ltac:(repeat constructor) Hb)
      as (rest & Hbuf).
    unfold runs, rspQuery.
    do 2 (erewrite bind_Ret by reflexivity). fold buf. rewrite Hbuf.
    apply (Hreply (str "E01")); [repeat constructor | simpl; lia].
  - intros Hb. destruct (cstr_inv _ _ Hb) as (rest & Hbuf & Hrest).
    unfold runs, rspQuery.
    do 2 (erewrite bind_Ret by reflexivity).
    rewrite !strcmp0_cstr. fold buf. rewrite Hb.
    replace (starts_with "qCRC" buf) with false by (rewrite Hbuf; reflexivity).
    apply (Hsend (str "m1")); [repeat constructor | simpl; lia].
  - intros Hb. destruct (cstr_inv _ _ Hb) as (rest & Hbuf & Hrest).
    unfold runs, rspQuery.
    do 2 (erewrite bind_Ret by reflexivity).
    rewrite !strcmp0_cstr. fold buf. rewrite Hb.
    replace (starts_with "qCRC" buf) with false by (rewrite Hbuf; reflexivity).
    apply (Hreply (str "l")); [repeat constructor | simpl; lia].
  - intros Hb.
    destruct (starts_with_prefix "qL" buf ltac:(repeat constructor) Hb)
      as (rest & Hbuf).
    unfold runs, rspQuery.
    do 2 (erewrite bind_Ret by reflexivity). fold buf. rewrite Hbuf.
    apply (Hreply (str "qM001")); [repeat constructor | simpl; lia].
  - intros Hb.
    destruct (starts_with_prefix "qSupported" buf ltac:(repeat constructor) Hb)
      as (rest & Hbuf).
    unfold runs, rspQuery.
    do 2 (erewrite bind_Ret by reflexivity). fold buf size. rewrite Hbuf.
    apply (Hsend (str "PacketSize=" ++ fmt_x size)); [solve_no_nul|].
    rewrite length_app. pose proof (fmt_x_length size). simpl length. lia.
  - intros Hb.
    destruct (starts_with_prefix "qSymbol:" buf ltac:(repeat constructor) Hb)
      as (rest & Hbuf).
    unfold runs, rspQuery.
    do 2 (erewrite bind_Ret by reflexivity). fold buf. rewrite Hbuf.
    apply (Hreply (str "OK")); [repeat constructor | simpl; lia].
  - intros Hb.
    destruct (starts_with_prefix "qThreadExtraInfo," buf
                ltac:(repeat constructor) Hb) as (rest & Hbuf).
    unfold runs, rspQuery.
    do 2 (erewrite bind_Ret by reflexivity). fold buf. rewrite Hbuf.
    apply (Hsend (str "52756e6e61626c6500")); [repeat constructor | simpl; lia].
  - intros Hk. unfold known_query in Hk.
    repeat (apply orb_false_iff in Hk; destruct Hk as [Hk ?]).
    unfold runs, rspQuery.
    do 2 (erewrite bind_Ret by reflexivity). fold buf.
    repeat match goal with
           | Hc : ?b = false |- context [?b] => rewrite Hc
           end.
    change (str "") with (@nil ascii). rewrite reply_empty.
    eexists. split; reflexivity.
Qed.

(** *** Step, continue and the reply to a system call *)

Lemma continue_event_run (e : Event) : continue_event e -> run_event e.
Proof.
  destruct e; cbn [continue_event syscall_event run_event]; try tauto.
  unfold run_reply. tauto.
Qed.

Lemma only_rspSingleStep (fuel : nat) :
  only continue_event (rspSingleStep fuel).
Proof.
  unfold rspSingleStep.
  apply only_bind;
    [eapply only_calls; [apply calls_rsp_haveBreak | exact I] | intros [|]].
  - apply only_stop; simpl; tauto.
  - apply only_bind;
      [eapply only_calls; [apply calls_cpu_resume | exact I] | intros r].
    assert (Hrest :
      only continue_event
        ((brk' <- rsp_haveBreak ;;
          if (brk' : bool)
          then cpu_resume STOP None ;; rspReportException SIG_INT
          else rspReportException SIG_TRAP) : M Server unit)).
    { apply only_bind;
        [ eapply only_calls; [apply calls_rsp_haveBreak | exact I]
        | intros [|] ].
      - apply only_stop; simpl; tauto.
      - apply only_rspReportException. simpl. tauto. }
    destruct r; try exact Hrest.
    eapply only_weaken; [apply syscall_event_continue|].
    apply only_rspSyscallRequest.
Qed.

Lemma only_rspSyscallReply (fuel : nat) (s : Server) :
  4 <= getBufSize (pkt s) ->
  exists d : list Event,
    trace (final (rspSyscallReply fuel s)) = trace s ++ d /\
    Forall run_event d.
Proof.
  intros Hfit. destruct (valid (parse (data (pkt s)))) eqn:Hv.
  - rewrite (rspSyscallReply_a0 fuel s Hv).
    match goal with
    | |- context [syscall_reply_rest ?f ?p ?c ?st] =>
        destruct (only_syscall_reply_rest f p c st) as (d & Hd & HP);
        set (s1 := st) in *
    end.
    assert (Hs1 : exists d1, trace s1 = trace s ++ d1 /\ Forall run_event d1).
    { unfold s1. destruct (retcode (parse (data (pkt s))) =? -1).
      - exists []. split; [now rewrite app_nil_r | constructor].
      - eexists [_]. split; [reflexivity|]. repeat constructor. }
    destruct Hs1 as (d1 & Hd1 & HP1).
    exists (d1 ++ d). split.
    + rewrite Hd, Hd1, app_assoc. reflexivity.
    + apply Forall_app. split; [exact HP1|].
      eapply Forall_impl; [|exact HP]. apply continue_event_run.
  - rewrite rspSyscallReply_invalid by assumption.
    eexists [_]. split; [reflexivity|]. constructor; [|constructor].
    cbn [run_event]. unfold run_reply. do 5 right. reflexivity.
Qed.

Lemma rspSingleStep_runs (fuel : nat) (s : Server) :
  4 <= getBufSize (pkt s) ->
  let brk := haveBreak (rsp s) in
  (fst brk = true ->
   runs (rspSingleStep fuel) s
        [EvHaveBreak; EvResume STOP None; EvPutPkt (stop_reply SIG_INT)]) /\
  (fst brk = false -> fst (resume STEP None (cpu s)) <> SYSCALL ->
   runs (rspSingleStep fuel) s
        ([EvHaveBreak; EvResume STEP None; EvHaveBreak]
           ++ (if fst (haveBreak (snd brk))
               then [EvResume STOP None; EvPutPkt (stop_reply SIG_INT)]
               else [EvPutPkt (stop_reply SIG_TRAP)]))).
Proof.
  intros Hfit brk.
  set (s0 := log EvHaveBreak (with_rsp (snd brk) s)).
  assert (Hhead :
    rspSingleStep fuel s
    = (if fst brk then cpu_resume STOP None ;; rspReportException SIG_INT
       else
         resType <- cpu_resume STEP None ;;
         match resType with
         | SYSCALL => rspSyscallRequest fuel SYSCALL_THEN_FINISH_STEPPING
         | _ =>
             brk' <- rsp_haveBreak ;;
             if (brk' : bool)
             then cpu_resume STOP None ;; rspReportException SIG_INT
             else rspReportException SIG_TRAP
         end) s0).
  { unfold rspSingleStep. rewrite bind_rsp_haveBreak. reflexivity. }
  assert (Hfit0 : 4 <= getBufSize (pkt s0)) by exact Hfit.
  unfold runs. rewrite Hhead. split.
  - intros Hb. rewrite Hb.
    destruct (stop_and_report SIG_INT s0 Hfit0) as (s' & Heq & Htr).
    exists s'. split; [exact Heq|]. rewrite Htr.
    cbn [s0 trace log with_rsp]. now rewrite <- app_assoc.
  - intros Hb Hr. rewrite Hb.
    rewrite bind_cpu_resume. change (cpu s0) with (cpu s).
    set (s1 := log (EvResume STEP None) _).
    assert (Hfit1 : 4 <= getBufSize (pkt s1)) by exact Hfit.
    assert (Htr1 : trace s1 = trace s ++ [EvHaveBreak; EvResume STEP None]).
    { cbn [s1 s0 trace log with_rsp with_cpu]. now rewrite <- app_assoc. }
    assert (Hrest :
      exists s',
        (brk' <- rsp_haveBreak ;;
         if (brk' : bool)
         then cpu_resume STOP None ;; rspReportException SIG_INT
         else rspReportException SIG_TRAP) s1 = Ret tt s' /\
        trace s'
        = trace s ++ [EvHaveBreak; EvResume STEP None; EvHaveBreak]
            ++ (if fst (haveBreak (snd brk))
                then [EvResume STOP None; EvPutPkt (stop_reply SIG_INT)]
                else [EvPutPkt (stop_reply SIG_TRAP)])).
    { rewrite bind_rsp_haveBreak.
      change (rsp s1) with (snd brk).
      set (s2 := log EvHaveBreak _).
      assert (Hfit2 : 4 <= getBufSize (pkt s2)) by exact Hfit.
      assert (Htr2 : trace s2
                     = trace s ++ [EvHaveBreak; EvResume STEP None; EvHaveBreak]).
      { cbn [s2 trace log with_rsp]. rewrite Htr1. now rewrite <- app_assoc. }
      destruct (fst (haveBreak (snd brk))).
      - destruct (stop_and_report SIG_INT s2 Hfit2) as (s' & Heq & Htr).
        exists s'. split; [exact Heq|]. rewrite Htr, Htr2.
        now rewrite <- !app_assoc.
      - rewrite rspReportException_eq by exact Hfit2.
        eexists. split; [reflexivity|].
        cbn [trace sent_state log with_rsp with_pkt]. rewrite Htr2.
        now rewrite <- !app_assoc. }
    destruct (fst (resume STEP None (cpu s))); try exact Hrest.
    contradiction.
Qed.

Lemma rspContinue_runs (fuel : nat) (s : Server) :
  4 <= getBufSize (pkt s) ->
  let brk := haveBreak (rsp s) in
  let slice := EvResume CONTINUE (Some interruptTimeout) in
  let r := fst (resume CONTINUE (Some interruptTimeout) (cpu s)) in
  (fst brk = true ->
   runs (rspContinue fuel) s
        [EvNow; EvHaveBreak; EvResume STOP None;
         EvPutPkt (stop_reply SIG_INT)]) /\
  (fst brk = false -> r = STEPPED \/ r = INTERRUPTED ->
   runs (rspContinue (S fuel)) s
        [EvNow; EvHaveBreak; slice; EvPutPkt (stop_reply SIG_TRAP)]) /\
  (fst brk = false -> r = NONE \/ r = SUCCESS \/ r = FAILURE ->
   exists s',
     rspContinue (S fuel) s = Exit s' /\
     trace s' = trace s ++ [EvNow; EvHaveBreak; slice]).
Proof.
  intros Hfit brk slice r.
  set (s1 := log EvHaveBreak
               (with_rsp (snd brk)
                  (log EvNow (with_clock (snd (now (clock s))) s)))).
  assert (Hhead : forall f,
            rspContinue f s
            = (if fst brk
               then cpu_resume STOP None ;; rspReportException SIG_INT
               else rspContinue_loop f
                      (fst (now (clock s)) + mTimeout s * ticks_per_second))
                s1).
  { intros f. unfold rspContinue.
    rewrite bind_system_clock_now. erewrite bind_Ret by reflexivity.
    cbv zeta. rewrite bind_rsp_haveBreak. reflexivity. }
  assert (Htr1 : trace s1 = trace s ++ [EvNow; EvHaveBreak]).
  { cbn [s1 trace log with_rsp with_clock]. now rewrite <- app_assoc. }
  assert (Hfit1 : 4 <= getBufSize (pkt s1)) by exact Hfit.
  unfold runs. split; [|split].
  - intros Hb. rewrite Hhead, Hb.
    destruct (stop_and_report SIG_INT s1 Hfit1) as (s' & Heq & Htr).
    exists s'. split; [exact Heq|]. rewrite Htr, Htr1.
    now rewrite <- !app_assoc.
  - intros Hb Hr. rewrite Hhead, Hb. cbn [rspContinue_loop].
    rewrite bind_cpu_resume. change (cpu s1) with (cpu s). fold r.
    destruct Hr as [-> | ->];
      (rewrite rspReportException_eq by exact Hfit1;
       eexists; split; [reflexivity|];
       cbn [trace sent_state log with_rsp with_pkt with_cpu];
       rewrite Htr1; now rewrite <- !app_assoc).
  - intros Hb Hr. rewrite Hhead, Hb. cbn [rspContinue_loop].
    rewrite bind_cpu_resume. change (cpu s1) with (cpu s). fold r.
    destruct Hr as [-> | [-> | ->]];
      (eexists; split; [reflexivity|];
       cbn [trace log with_cpu]; rewrite Htr1; now rewrite <- !app_assoc).
Qed.

Lemma rspSyscallReply_runs (fuel : nat) (s : Server) :
  4 <= getBufSize (pkt s) ->
  let p := parse (data (pkt s)) in
  (valid p = false -> runs (rspSyscallReply fuel) s [EvPutPkt (str "E01")]) /\
  (valid p = true -> hasCtrlC p = true ->
   runs (rspSyscallReply fuel) s
        (a0_write p ++ [EvPutPkt (stop_reply SIG_INT)])) /\
  (valid p = true -> hasCtrlC p = false ->
   mSyscallContinuation s <> SYSCALL_THEN_FINISH_CONTINUE ->
   runs (rspSyscallReply fuel) s
        (a0_write p ++ [EvPutPkt (stop_reply SIG_TRAP)])).
Proof.
  intros Hfit p. unfold runs. split; [|split].
  - intros Hv. rewrite rspSyscallReply_invalid by assumption.
    eexists. split; reflexivity.
  - intros Hv HC.
    destruct (rspSyscallReply_valid fuel s Hv)
      as (s1 & _ & Htr & Hpkt & _ & _ & _ & Heq).
    rewrite Heq. fold p. unfold syscall_reply_rest. rewrite HC.
    rewrite rspReportException_eq by (rewrite Hpkt; exact Hfit).
    eexists. split; [reflexivity|].
    cbn [trace sent_state log with_rsp with_pkt]. rewrite Htr. fold p.
    now rewrite <- app_assoc.
  - intros Hv HC Hcont.
    destruct (rspSyscallReply_valid fuel s Hv)
      as (s1 & _ & Htr & Hpkt & _ & _ & _ & Heq).
    rewrite Heq. fold p. unfold syscall_reply_rest. rewrite HC.
    assert (Hfit1 : 4 <= getBufSize (pkt s1)) by (rewrite Hpkt; exact Hfit).
    destruct (mSyscallContinuation s); try contradiction;
      (rewrite rspReportException_eq by exact Hfit1;
       eexists; split; [reflexivity|];
       cbn [trace sent_state log with_rsp with_pkt]; rewrite Htr; fold p;
       now rewrite <- app_assoc).
Qed.

(** *** Registers and memory *)

(** A request whose header does not scan is answered [E01]. *)
Lemma malformed_runs (s : Server) :
  let buf := data (pkt s) in
  4 <= getBufSize (pkt s) ->
  (sscanf_c_x_x "m" buf = None -> runs rspReadMem s [EvPutPkt (str "E01")]) /\
  (sscanf_c_x_x "M" buf = None -> runs rspWriteMem s [EvPutPkt (str "E01")]) /\
  (sscanf_p buf = None -> runs rspReadReg s [EvPutPkt (str "E01")]) /\
  (sscanf_P buf = None -> runs rspWriteReg s [EvPutPkt (str "E01")]) /\
  (sscanf_X buf = None -> runs rspWriteMemBin s [EvPutPkt (str "E01")]).
Proof.
  intros buf Hfit.
  assert (HE : runs (reply (str "E01")) s [EvPutPkt (str "E01")])
    by (apply runs_reply; [repeat constructor | simpl; lia]).
  repeat split; intros Hs.
  - unfold runs, rspReadMem. do 2 (erewrite bind_Ret by reflexivity).
    fold buf. rewrite Hs. exact HE.
  - unfold runs, rspWriteMem. do 3 (erewrite bind_Ret by reflexivity).
    fold buf. rewrite Hs. exact HE.
  - unfold runs, rspReadReg. erewrite bind_Ret by reflexivity.
    fold buf. rewrite Hs. exact HE.
  - unfold runs, rspWriteReg. erewrite bind_Ret by reflexivity.
    fold buf. rewrite Hs. exact HE.
  - unfold runs, rspWriteMemBin. do 3 (erewrite bind_Ret by reflexivity).
    fold buf. rewrite Hs. exact HE.
Qed.

Lemma bind_cpu_writeRegister {B} reg val (k : Z -> M Server B) (s : Server) :
  bind (cpu_writeRegister reg val) k s
  = k (fst (writeRegister reg val (cpu s)))
      (log (EvWriteRegister reg val)
         (with_cpu (snd (writeRegister reg val (cpu s))) s)).
Proof.
  unfold bind, cpu_writeRegister.
  destruct (writeRegister reg val (cpu s)); reflexivity.
Qed.

(** [P]: the register is written and the answer is [OK], whatever
    [writeRegister] returns. *)
Lemma rspWriteReg_runs (s : Server) (r : Z) (v : list ascii) :
  4 <= getBufSize (pkt s) ->
  sscanf_P (data (pkt s)) = Some (r, v) ->
  runs rspWriteReg s
       [EvWriteRegister (int32 r) (uint32 (hex2Val v REG_BYTES));
        EvPutPkt (str "OK")].
Proof.
  intros Hfit Hs. unfold runs, rspWriteReg.
  erewrite bind_Ret by reflexivity. rewrite Hs. cbv zeta.
  rewrite bind_cpu_writeRegister.
  rewrite reply_eq by (try (repeat constructor); simpl; lia).
  eexists. split; [reflexivity|].
  cbn [trace sent_state log with_rsp with_pkt with_cpu].
  now rewrite <- app_assoc.
Qed.

Lemma hex2Char_nibble (d : Z) :
  0 <= d < 16 -> is_nul (hex2Char d) = false.
Proof.
  intros Hd. unfold hex2Char.
  replace ((0 <=? d) && (d <=? 15)) with true.
  - apply digit_char_not_nul. exact Hd.
  - symmetry. apply andb_true_iff. split; apply Z.leb_le; lia.
Qed.

Lemma land_15_range (z : Z) : 0 <= Z.land z 15 < 16.
Proof.
  change 15 with (Z.ones 4). rewrite Z.land_ones by lia.
  apply Z.mod_pos_bound. lia.
Qed.

Lemma val2Hex_no_nul (val : Z) (n : nat) : no_nul (val2Hex val n).
Proof.
  revert val. induction n as [|n IH]; intros val; cbn [val2Hex].
  - constructor.
  - constructor; [apply hex2Char_nibble, land_15_range|].
    constructor; [apply hex2Char_nibble, land_15_range|]. apply IH.
Qed.

Lemma val2Hex_length (val : Z) (n : nat) :
  length (val2Hex val n) = (2 * n)%nat.
Proof.
  revert val. induction n as [|n IH]; intros val; cbn [val2Hex length].
  - reflexivity.
  - rewrite IH. lia.
Qed.

(** [p]: [E01] when the target reports a negative size, the digits of
    the register otherwise. *)
Lemma rspReadReg_runs (s : Server) (r : Z) :
  4 <= getBufSize (pkt s) ->
  sscanf_p (data (pkt s)) = Some r ->
  let reg := readRegister (int32 r) (cpu s) in
  let size := int32 (snd reg) in
  (size < 0 ->
   runs rspReadReg s [EvReadRegister (int32 r); EvPutPkt (str "E01")]) /\
  (0 <= size -> 2 * size < getBufSize (pkt s) ->
   runs rspReadReg s
        [EvReadRegister (int32 r);
         EvPutPkt (val2Hex (uint32 (fst reg)) (Z.to_nat size))]).
Proof.
  intros Hfit Hs reg size. unfold runs, rspReadReg.
  erewrite bind_Ret by reflexivity. rewrite Hs.
  erewrite bind_Ret by reflexivity. cbv zeta. fold reg size.
  set (s1 := log (EvReadRegister (int32 r)) s).
  split.
  - intros Hneg.
    replace (size <? 0) with true by (symmetry; apply Z.ltb_lt; exact Hneg).
    rewrite reply_eq by (try (repeat constructor); simpl; exact Hfit || lia).
    eexists. split; [reflexivity|].
    cbn [trace sent_state log with_rsp with_pkt s1].
    now rewrite <- app_assoc.
  - intros Hpos Hroom.
    replace (size <? 0) with false by (symmetry; apply Z.ltb_ge; exact Hpos).
    unfold pkt_val2Hex.
    replace (size <? 0) with false by (symmetry; apply Z.ltb_ge; exact Hpos).
    pose proof (sprintf_send_eq (val2Hex (uint32 (fst reg)) (Z.to_nat size))
                  s1 (val2Hex_no_nul _ _)) as Hsend.
    unfold sprintf in Hsend. rewrite Hsend.
    + eexists. split; [reflexivity|].
      cbn [trace sent_state log with_rsp with_pkt s1].
      now rewrite <- app_assoc.
    + rewrite val2Hex_length. change (pkt s1) with (pkt s). lia.
Qed.

(** [X]: one write, then [OK]. *)
Lemma rspWriteMemBin_runs (s : Server) (addr n colon : Z) :
  4 <= getBufSize (pkt s) ->
  sscanf_X (data (pkt s)) = Some (addr, n) ->
  memchr (data (pkt s)) ":" (getBufSize (pkt s)) = Some colon ->
  exists bytes : list Z,
    runs rspWriteMemBin s [EvWrite addr bytes; EvPutPkt (str "OK")].
Proof.
  intros Hfit Hs Hc. unfold runs, rspWriteMemBin.
  do 3 (erewrite bind_Ret by reflexivity). rewrite Hs, Hc. cbv zeta.
  erewrite bind_Ret by reflexivity.
  rewrite bind_cpu_write.
  eexists.
  rewrite reply_eq.
  - eexists. split; [reflexivity|].
    cbn [trace sent_state log with_rsp with_pkt with_cpu].
    now rewrite <- app_assoc.
  - repeat constructor.
  - unfold getBufSize in *. cbn [pkt log with_cpu with_pkt setData data].
    rewrite store_length. simpl length. lia.
Qed.

(** A loop whose body always returns after one call that is not a
    [putPkt] and leaves the packet buffer alone. *)
Lemma for_loop_quiet (body : Z -> M Server unit) :
  (forall off s, exists s' e,
     body off s = Ret tt s' /\ trace s' = trace s ++ [e] /\
     is_put e = false /\ pkt s' = pkt s) ->
  forall (n : nat) (off : Z) (s : Server),
    exists s' evs,
      for_loop n off body s = Ret tt s' /\ trace s' = trace s ++ evs /\
      length evs = n /\ puts evs = 0%nat /\ pkt s' = pkt s.
Proof.
  intros Hbody. induction n as [|n IH]; intros off s; cbn [for_loop].
  - exists s, []. repeat split. now rewrite app_nil_r.
  - destruct (Hbody off s) as (s1 & e & Heq1 & Htr1 & He & Hpkt1).
    rewrite (bind_Ret _ _ _ _ _ Heq1).
    destruct (IH (off + 1) s1) as (s' & evs & Heq & Htr & Hlen & Hputs & Hpkt).
    exists s', (e :: evs). split; [exact Heq|]. repeat split.
    + rewrite Htr, Htr1, <- app_assoc. reflexivity.
    + simpl. now rewrite Hlen.
    + unfold puts in *. cbn [count]. rewrite He, Hputs. reflexivity.
    + congruence.
Qed.

(** [M]: [E01] when the number of digits is not the [int] [len * 2];
    otherwise [len] writes, then [OK]. *)
Lemma rspWriteMem_runs (s : Server) (addr n colon : Z) :
  4 <= getBufSize (pkt s) ->
  sscanf_c_x_x "M" (data (pkt s)) = Some (addr, n) ->
  memchr (data (pkt s)) ":" (getBufSize (pkt s)) = Some colon ->
  let digits := int32 (len (pkt s) - (colon + 1)) in
  (int32 (int32 n * 2) <> digits ->
   runs rspWriteMem s [EvPutPkt (str "E01")]) /\
  (int32 (int32 n * 2) = digits ->
   exists writes : list Event,
     runs rspWriteMem s (writes ++ [EvPutPkt (str "OK")]) /\
     length writes = Z.to_nat (int32 n) /\ puts writes = 0%nat).
Proof.
  intros Hfit Hs Hc digits. unfold runs, rspWriteMem.
  do 3 (erewrite bind_Ret by reflexivity). rewrite Hs, Hc. cbv zeta.
  fold digits. split.
  - intros Hne.
    replace (int32 (int32 n * 2) =? digits) with false
      by (symmetry; apply Z.eqb_neq; exact Hne).
    cbn [negb]. rewrite reply_eq by (try (repeat constructor); simpl; lia).
    eexists. split; reflexivity.
  - intros Heq.
    replace (int32 (int32 n * 2) =? digits) with true
      by (symmetry; apply Z.eqb_eq; exact Heq).
    cbn [negb].
    match goal with
    | |- context [for_loop ?k ?i ?b] =>
        destruct (for_loop_quiet b) with (n := k) (off := i) (s := s)
          as (s1 & evs & Heq1 & Htr1 & Hlen1 & Hputs1 & Hpkt1)
    end.
    { intros off st. cbv beta zeta. rewrite bind_cpu_write.
      eexists _, _. split; [reflexivity|]. repeat split. }
    exists evs. split; [|split; assumption].
    rewrite (bind_Ret _ _ _ _ _ Heq1).
    rewrite reply_eq
      by (try (repeat constructor); rewrite Hpkt1; simpl; lia).
    eexists. split; [reflexivity|].
    cbn [trace sent_state log with_rsp with_pkt]. rewrite Htr1.
    now rewrite <- app_assoc.
Qed.

(** [G]: the thirty-three registers are written, in order, from the
    start of the buffer, and the answer is [OK]. *)
Lemma rspWriteAllRegs_loop (buf : list ascii) :
  forall (n k : nat) (s : Server),
    data (pkt s) = buf ->
    exists s',
      for_loop n (Z.of_nat k)
        (fun regNum =>
           buf0 <- get (fun s0 : Server => data (pkt s0)) ;;
           let pktSize := regNum * (Z.of_nat REG_BYTES * 2) in
           let val := uint32 (hex2Val (at_off pktSize buf0) REG_BYTES) in
           cpu_writeRegister regNum val ;; ret tt) s
      = Ret tt s' /\
      trace s'
      = trace s
          ++ map (fun i =>
                    EvWriteRegister i
                      (uint32 (hex2Val (at_off (i * (Z.of_nat REG_BYTES * 2))
                                          buf) REG_BYTES)))
                 (map Z.of_nat (seq k n)) /\
      pkt s' = pkt s.
Proof.
  induction n as [|n IH]; intros k s Hbuf; cbn [for_loop seq map].
  - exists s. repeat split. now rewrite app_nil_r.
  - erewrite bind_Ret
      by (erewrite bind_Ret by reflexivity; cbv zeta;
          rewrite bind_cpu_writeRegister; reflexivity).
    rewrite Hbuf.
    match goal with
    | |- context [for_loop n _ _ ?st] =>
        destruct (IH (S k) st) as (s' & Heq & Htr & Hpkt)
    end.
    { exact Hbuf. }
    replace (Z.of_nat k + 1) with (Z.of_nat (S k)) by lia.
    exists s'. split; [exact Heq|]. split.
    + rewrite Htr. cbn [trace log with_cpu]. now rewrite <- app_assoc.
    + rewrite Hpkt. reflexivity.
Qed.

Lemma rspWriteAllRegs_runs (s : Server) :
  4 <= getBufSize (pkt s) ->
  runs rspWriteAllRegs s
       (all_reg_writes (data (pkt s)) ++ [EvPutPkt (str "OK")]).
Proof.
  intros Hfit. unfold runs, rspWriteAllRegs.
  destruct (rspWriteAllRegs_loop (data (pkt s)) RISCV_NUM_REGS 0 s eq_refl)
    as (s1 & Heq1 & Htr1 & Hpkt1).
  change (Z.of_nat 0) with 0 in Heq1.
  rewrite (bind_Ret _ _ _ _ _ Heq1).
  rewrite reply_eq by (try (repeat constructor); rewrite Hpkt1; simpl; lia).
  eexists. split; [reflexivity|].
  cbn [trace sent_state log with_rsp with_pkt]. rewrite Htr1.
  unfold all_reg_writes, all_regs. now rewrite <- app_assoc.
Qed.

Lemma cstr_app_nul_le (a b : list ascii) :
  (length (cstr (a ++ NUL :: b)) <= length a)%nat.
Proof.
  induction a as [|x a IH]; cbn [app cstr length].
  - cbn. lia.
  - destruct (is_nul x); cbn [length]; lia.
Qed.

Lemma store_one (i : nat) (c : ascii) (d : list ascii) :
  (i < length d)%nat ->
  store (Z.of_nat i) [c] d = firstn i d ++ c :: skipn (i + 1) d.
Proof.
  intros Hi. unfold store. rewrite Nat2Z.id.
  replace (length d - i)%nat with (S (length d - i - 1)) by lia.
  cbn [firstn length app]. rewrite firstn_nil. reflexivity.
Qed.

(** [m]: the bytes are read one at a time, and one packet is sent, of
    two characters a byte at most. *)
Lemma rspReadMem_loop (addr : Z) :
  forall (n : nat) (off : Z) (s : Server),
    0 <= off -> 2 * (off + Z.of_nat n) <= getBufSize (pkt s) ->
    exists s',
      for_loop n off
        (fun off =>
           r <- cpu_read (uint32 (addr + off)) ;;
           match r with
           | Some ch =>
               poke (off * 2) (hex2Char (Z.shiftr (uint8 ch) 4)) ;;
               poke (off * 2 + 1) (hex2Char (Z.land (uint8 ch) 15))
           | None => ret tt
           end) s = Ret tt s' /\
      trace s' = trace s ++ byte_reads n addr off /\
      getBufSize (pkt s') = getBufSize (pkt s) /\
      rsp s' = rsp s.
Proof.
  induction n as [|n IH]; intros off s Hoff Hroom; cbn [for_loop byte_reads].
  - exists s. repeat split. now rewrite app_nil_r.
  - assert (Hbody : exists s1,
              (r <- cpu_read (uint32 (addr + off)) ;;
               match r with
               | Some ch =>
                   poke (off * 2) (hex2Char (Z.shiftr (uint8 ch) 4)) ;;
                   poke (off * 2 + 1) (hex2Char (Z.land (uint8 ch) 15))
               | None => ret tt
               end) s = Ret tt s1 /\
              trace s1 = trace s ++ [EvRead (uint32 (addr + off))] /\
              getBufSize (pkt s1) = getBufSize (pkt s) /\ rsp s1 = rsp s).
    { erewrite bind_Ret by reflexivity.
      destruct (read (uint32 (addr + off)) (cpu s)) as [ch|].
      - unfold bind. rewrite poke_ok by (cbn [pkt log]; lia).
        rewrite poke_ok by (rewrite getBufSize_poked; cbn [pkt log]; lia).
        eexists. split; [reflexivity|]. repeat split.
        rewrite !getBufSize_poked. reflexivity.
      - eexists. split; [reflexivity|]. repeat split. }
    destruct Hbody as (s1 & Heq1 & Htr1 & Hsz1 & Hrsp1).
    rewrite (bind_Ret _ _ _ _ _ Heq1).
    destruct (IH (off + 1) s1) as (s' & Heq & Htr & Hsz & Hrsp);
      [lia | rewrite Hsz1; lia |].
    exists s'. split; [exact Heq|]. repeat split.
    + rewrite Htr, Htr1, <- app_assoc. reflexivity.
    + congruence.
    + congruence.
Qed.

Lemma rspReadMem_runs (s : Server) (addr n : Z) :
  4 <= getBufSize (pkt s) ->
  sscanf_c_x_x "m" (data (pkt s)) = Some (addr, n) ->
  int_fits (int32 n * 2) ->
  let size := getBufSize (pkt s) in
  let k :=
    Z.to_nat (if int32 n * 2 >=? size then Z.quot (size - 1) 2
              else int32 n) in
  exists pl : list ascii,
    runs rspReadMem s (byte_reads k addr 0 ++ [EvPutPkt pl]) /\
    (length pl <= 2 * k)%nat.
Proof.
  intros Hfit Hs Hint size k. unfold int_fits, INT_MIN, INT_MAX in Hint.
  unfold runs, rspReadMem.
  do 2 (erewrite bind_Ret by reflexivity). rewrite Hs. cbv zeta.
  fold size. rewrite (int32_small (int32 n * 2)) by lia.
  set (len1 := if int32 n * 2 >=? size then Z.quot (size - 1) 2
               else int32 n) in *.
  assert (Hlen1 : 2 * Z.max len1 0 < size).
  { unfold len1. destruct (int32 n * 2 >=? size) eqn:E.
    - pose proof (Z.quot_pos (size - 1) 2 ltac:(lia) ltac:(lia)).
      pose proof (Z.mul_quot_le (size - 1) 2 ltac:(lia) ltac:(lia)). lia.
    - rewrite Z.geb_leb in E. apply Z.leb_gt in E. lia. }
  destruct (rspReadMem_loop addr k 0 s ltac:(lia) ltac:(fold size; lia))
    as (s1 & Heq1 & Htr1 & Hsz1 & Hrsp1).
  fold k. rewrite (bind_Ret _ _ _ _ _ Heq1).
  unfold bind at 1. rewrite poke_ok by (rewrite Hsz1; fold size; lia).
  eexists. split.
  - eexists. split; [reflexivity|].
    cbn [trace log with_rsp with_pkt setLen_strlen modify bind rsp_putPkt].
    rewrite Htr1, <- app_assoc. reflexivity.
  - unfold payload, setLen, setData, strlen. cbn [pkt with_pkt len data].
    rewrite Nat2Z.id, firstn_cstr.
    replace (Z.max len1 0 * 2) with (Z.of_nat (2 * k)) by lia.
    assert (Hd : (2 * k < length (data (pkt s1)))%nat).
    { assert (Hk : Z.of_nat (2 * k) < size) by lia.
      clearbody k len1. subst size. unfold getBufSize in *. lia. }
    rewrite store_one by exact Hd.
    apply (Nat.le_trans _ _ _ (cstr_app_nul_le _ _)).
    rewrite length_firstn. lia.
Qed.

Lemma sprintf_at_ok (off : Z) (txt : list ascii) (s : Server) :
  0 <= off -> off + Z.of_nat (length txt) < getBufSize (pkt s) ->
  sprintf_at off txt s
  = Ret tt (with_pkt (setData (store off (txt ++ [NUL]) (data (pkt s)))
                        (pkt s)) s).
Proof.
  intros Hoff Hroom. unfold sprintf_at.
  replace ((0 <=? off) && (off + Z.of_nat (length txt) <? getBufSize (pkt s)))
    with true; [reflexivity|].
  symmetry. apply andb_true_iff. split; [apply Z.leb_le | apply Z.ltb_lt]; lia.
Qed.

(** A text stored at [off] follows the characters before [off]. *)
Lemma firstn_store (off : nat) (txt d : list ascii) :
  (off + length txt < length d)%nat ->
  firstn (off + length txt) (store (Z.of_nat off) (txt ++ [NUL]) d)
  = firstn off d ++ txt.
Proof.
  intros Hroom. unfold store. rewrite Nat2Z.id.
  assert (H1 : firstn (length d - off) (txt ++ [NUL]) = txt ++ [NUL])
    by (apply firstn_all2; rewrite length_app; simpl; lia).
  rewrite H1.
  assert (H2 : length (firstn off d) = off)
    by (rewrite length_firstn; lia).
  rewrite firstn_app, H2.
  assert (H3 : firstn (off + length txt) (firstn off d) = firstn off d)
    by (apply firstn_all2; lia).
  rewrite H3.
  replace (off + length txt - off)%nat with (length txt) by lia.
  rewrite <- app_assoc, firstn_app, Nat.sub_diag, firstn_all. simpl.
  now rewrite app_nil_r.
Qed.

Lemma firstn_store_above (i : nat) (x d : list ascii) :
  firstn i (store (Z.of_nat i) x d) = firstn i d.
Proof.
  unfold store. rewrite Nat2Z.id, firstn_app, length_firstn.
  destruct (Nat.le_gt_cases i (length d)) as [Hle | Hgt].
  - replace (Nat.min i (length d)) with i by lia.
    rewrite Nat.sub_diag. cbn [firstn]. rewrite app_nil_r.
    apply firstn_all2. rewrite length_firstn. lia.
  - rewrite !firstn_all2 by (try rewrite length_firstn; lia).
    replace (length d - i)%nat with O by lia.
    rewrite skipn_all2 by lia. cbn [firstn app].
    rewrite Nat.min_r by lia.
    destruct (i - length d)%nat; now rewrite app_nil_r.
Qed.

(** [g] on a target whose registers are four bytes wide. *)
Lemma rspReadAllRegs_loop_run :
  forall (n k : nat) (s : Server),
    (forall r, snd (readRegister r (cpu s)) = 4) ->
    8 * Z.of_nat (k + n) < getBufSize (pkt s) ->
    8 * Z.of_nat (k + n) < 2 ^ 31 ->
    exists s',
      rspReadAllRegs_loop n (Z.of_nat k) (8 * Z.of_nat k) s
      = Ret (8 * Z.of_nat (k + n)) s' /\
      trace s' = trace s ++ map EvReadRegister (map Z.of_nat (seq k n)) /\
      firstn (8 * (k + n)) (data (pkt s'))
      = firstn (8 * k) (data (pkt s))
          ++ flat_map
               (fun i => val2Hex (uint32 (fst (readRegister i (cpu s)))) 4)
               (map Z.of_nat (seq k n)) /\
      length (data (pkt s')) = length (data (pkt s)) /\
      cpu s' = cpu s /\ rsp s' = rsp s.
Proof.
  induction n as [|n IH]; intros k s Hsz Hroom Hint;
    cbn [rspReadAllRegs_loop seq map flat_map].
  - exists s. replace (k + 0)%nat with k by lia.
    repeat split; now rewrite app_nil_r.
  - erewrite bind_Ret by reflexivity. cbv zeta.
    cbn [cpu log]. rewrite Hsz. change (int32 4) with 4.
    unfold pkt_val2Hex. change (4 <? 0) with false. cbv iota.
    change (Z.to_nat 4) with 4%nat.
    set (txt := val2Hex (uint32 (fst (readRegister (Z.of_nat k) (cpu s)))) 4).
    assert (Htxt : length txt = 8%nat) by (unfold txt; apply val2Hex_length).
    erewrite bind_Ret
      by (apply sprintf_at_ok; [lia | rewrite Htxt; cbn [pkt log]; lia]).
    rewrite int32_small by lia.
    replace (8 * Z.of_nat k + 4 * 2) with (8 * Z.of_nat (S k)) by lia.
    replace (Z.of_nat k + 1) with (Z.of_nat (S k)) by lia.
    match goal with
    | |- context [rspReadAllRegs_loop n _ _ ?st] =>
        destruct (IH (S k) st) as (s' & Heq & Htr & Hdat & Hlen & Hcpu & Hrsp)
    end.
    + exact Hsz.
    + unfold getBufSize in *. cbn [pkt with_pkt log setData data].
      rewrite store_length. lia.
    + lia.
    + exists s'. replace (k + S n)%nat with (S k + n)%nat by lia.
      split; [exact Heq|]. repeat split.
      * rewrite Htr. cbn [trace log with_pkt]. now rewrite <- app_assoc.
      * rewrite Hdat. cbn [pkt with_pkt log setData data cpu].
        replace (8 * S k)%nat with (8 * k + length txt)%nat by lia.
        replace (8 * Z.of_nat k) with (Z.of_nat (8 * k)) by lia.
        rewrite firstn_store
          by (unfold getBufSize in Hroom; rewrite Htxt; lia).
        fold txt. now rewrite <- app_assoc.
      * rewrite Hlen. cbn [pkt with_pkt log setData data].
        apply store_length.
      * rewrite Hcpu. reflexivity.
      * rewrite Hrsp. reflexivity.
Qed.

Lemma rspReadAllRegs_runs (s : Server) :
  (forall r, snd (readRegister r (cpu s)) = 4) ->
  265 <= getBufSize (pkt s) ->
  runs rspReadAllRegs s
       (map EvReadRegister all_regs ++ [EvPutPkt (all_regs_hex (cpu s))]).
Proof.
  intros Hsz Hfit. unfold runs, rspReadAllRegs.
  destruct (rspReadAllRegs_loop_run RISCV_NUM_REGS 0 s Hsz)
    as (s1 & Heq1 & Htr1 & Hdat1 & Hlen1 & Hcpu1 & Hrsp1);
    [simpl; lia | simpl; lia |].
  change (Z.of_nat 0) with 0 in Heq1. change (8 * 0) with 0 in Heq1.
  rewrite (bind_Ret _ _ _ _ _ Heq1).
  change (8 * Z.of_nat (0 + RISCV_NUM_REGS)) with 264.
  assert (Hfit1 : 265 <= getBufSize (pkt s1))
    by (unfold getBufSize in *; rewrite Hlen1; exact Hfit).
  unfold bind at 1. rewrite poke_ok by lia.
  erewrite bind_Ret by reflexivity.
  eexists. split; [reflexivity|].
  cbn [trace log with_rsp with_pkt]. rewrite Htr1, <- app_assoc.
  do 3 f_equal.
  unfold payload, setLen, setData. cbn [pkt with_pkt len data].
  change (Z.to_nat 264) with 264%nat.
  change 264 with (Z.of_nat 264).
  rewrite firstn_store_above.
  change 264%nat with (8 * (0 + RISCV_NUM_REGS))%nat.
  rewrite Hdat1. reflexivity.
Qed.

(** ** The main loop *)

Lemma bind_rsp_rspConnect {B} (k : bool -> M Server B) (s : Server) :
  bind rsp_rspConnect k s
  = k (fst (rspConnect (rsp s)))
      (log EvConnect (with_rsp (snd (rspConnect (rsp s))) s)).
Proof.
  unfold bind, rsp_rspConnect. destruct (rspConnect (rsp s)); reflexivity.
Qed.

(** One turn of [rspServer] on a connected server that has not been told
    to exit: the request is handled and the loop goes on. *)
Lemma rspServer_turn (fuel : nat) (s : Server) :
  mExitServer s = false -> isConnected (rsp s) = true ->
  rspServer (S (S fuel)) s
  = (rspClientRequest (S fuel) ;; rspServer (S fuel)) s.
Proof.
  intros Hq Hc. cbn [rspServer rspServer_connect].
  erewrite bind_Ret by reflexivity. rewrite Hq.
  unfold bind at 1. unfold bind at 1. unfold get at 1. rewrite Hc.
  reflexivity.
Qed.

(** When [getPkt] fails the connection is closed and nothing else is
    done; if the connection then reports that it is down and cannot be
    brought up again, the server returns [EXIT_FAILURE], without a call
    on the target and without a packet sent. *)
Theorem lost_connection_ends_server
  (fuel : nat) (s : Server) (p : RspPacket) (c : C) :
  mExitServer s = false ->
  isConnected (rsp s) = true ->
  getPkt (pkt s) (rsp s) = (false, p, c) ->
  isConnected (rspClose c) = false ->
  fst (rspConnect (rspClose c)) = false ->
  exists s1 s2,
    rspClientRequest fuel s = Ret tt s1 /\
    trace s1 = trace s ++ [EvGetPkt; EvClose] /\
    rspServer (S (S (S fuel))) s = Ret EXIT_FAILURE s2 /\
    trace s2 = trace s ++ [EvGetPkt; EvClose; EvConnect] /\
    cpu s2 = cpu s.
Proof.
  intros Hq Hc Hget Hdown Hfail.
  assert (Hreq : forall f,
            rspClientRequest f s
            = Ret tt (log EvClose
                        (with_rsp (rspClose c)
                           (log EvGetPkt (with_pkt p (with_rsp c s)))))).
  { intros f. unfold rspClientRequest, bind, rsp_getPkt. rewrite Hget.
    reflexivity. }
  eexists. eexists. split; [apply Hreq|]. split.
  { cbn [trace log with_rsp with_pkt]. now rewrite <- app_assoc. }
  rewrite rspServer_turn by assumption.
  rewrite (bind_Ret _ _ _ _ _ (Hreq (S (S fuel)))).
  cbn [rspServer rspServer_connect].
  erewrite bind_Ret by reflexivity.
  cbn [mExitServer log with_rsp with_pkt]. rewrite Hq.
  unfold bind at 1. unfold bind at 1. unfold get at 1.
  cbn [rsp log with_rsp with_pkt]. rewrite Hdown.
  rewrite bind_rsp_rspConnect. cbn [rsp log with_rsp with_pkt].
  rewrite Hfail. cbn [negb ret].
  split; [reflexivity|]. split; [|reflexivity].
  cbn [trace log with_rsp with_pkt]. now rewrite <- !app_assoc.
Qed.

(** A [k] packet is not answered and the target is left alone.
    Under [EXIT_ON_KILL] it sets the exit flag, and the main loop then
    returns [EXIT_SUCCESS] before reading another packet; under
    [RESET_ON_KILL] nothing changes: the target is not reset. *)
Theorem kill_request (fuel : nat) (s : Server) (p : RspPacket) (c : C) :
  getPkt (pkt s) (rsp s) = (true, p, c) ->
  char_at (data p) 0 = "k"%char ->
  exists s',
    rspClientRequest fuel s = Ret tt s' /\
    trace s' = trace s ++ [EvGetPkt] /\
    cpu s' = cpu s /\
    mExitServer s'
    = match killBehaviour s with
      | EXIT_ON_KILL => true
      | RESET_ON_KILL => mExitServer s
      end /\
    (killBehaviour s = EXIT_ON_KILL -> mExitServer s = false ->
     isConnected (rsp s) = true ->
     rspServer (S (S fuel)) s = Ret EXIT_SUCCESS s').
Proof.
  intros Hget Hk.
  assert (Hreq : forall f, exists s',
            rspClientRequest f s = Ret tt s' /\
            s' = (match killBehaviour s with
                  | EXIT_ON_KILL => with_mExitServer true
                  | RESET_ON_KILL => fun x => x
                  end) (log EvGetPkt (with_pkt p (with_rsp c s)))).
  { intros f. rewrite (rspClientRequest_got f s p c Hget), Hk.
    unfold rspClientRequest_switch.
    cbn [is_char Ascii.eqb Bool.eqb andb orb].
    erewrite bind_Ret by reflexivity.
    cbn [killBehaviour log with_pkt with_rsp].
    destruct (killBehaviour s); eexists; split; reflexivity. }
  destruct (Hreq fuel) as (s' & Heq & Hs').
  exists s'. split; [exact Heq|].
  split; [|split; [|split]].
  - rewrite Hs'. destruct (killBehaviour s); reflexivity.
  - rewrite Hs'. destruct (killBehaviour s); reflexivity.
  - rewrite Hs'. destruct (killBehaviour s); reflexivity.
  - intros Hkb Hq Hc. rewrite rspServer_turn by assumption.
    destruct (Hreq (S fuel)) as (s1 & Heq1 & Hs1).
    rewrite (bind_Ret _ _ _ _ _ Heq1). cbn [rspServer].
    erewrite bind_Ret by reflexivity.
    rewrite Hs1, Hs', Hkb. reflexivity.
Qed.

(** A [qRcmd,] packet is a monitor command. *)
Lemma rspQuery_rcmd (s : Server) :
  starts_with "qRcmd," (data (pkt s)) = true ->
  rspQuery s = rspCommand s.
Proof.
  intros Hq. unfold rspQuery.
  do 2 (erewrite bind_Ret by reflexivity).
  destruct (starts_with_prefix "qRcmd," (data (pkt s))
              ltac:(repeat constructor) Hq) as (rest & Hbuf).
  rewrite Hbuf. reflexivity.
Qed.

(** The monitor command [exit] sets the exit flag and is not
    answered, not even with [OK]; the main loop then returns
    [EXIT_SUCCESS] before reading another packet.  The target is not
    called. *)
Theorem monitor_exit_ends_server
  (fuel : nat) (s : Server) (p : RspPacket) (c : C) :
  getPkt (pkt s) (rsp s) = (true, p, c) ->
  starts_with "qRcmd," (data p) = true ->
  cstr (hex2Ascii (at_off 6 (data p))) = str "exit" ->
  exists s',
    rspClientRequest fuel s = Ret tt s' /\
    trace s' = trace s ++ [EvGetPkt] /\
    mExitServer s' = true /\
    cpu s' = cpu s /\
    (mExitServer s = false -> isConnected (rsp s) = true ->
     rspServer (S (S fuel)) s = Ret EXIT_SUCCESS s').
Proof.
  intros Hget Hq Hcmd.
  assert (Hc0 : char_at (data p) 0 = "q"%char).
  { destruct (starts_with_prefix "qRcmd," (data p)
                ltac:(repeat constructor) Hq) as (rest & ->).
    reflexivity. }
  assert (Hreq : forall f,
            rspClientRequest f s
            = Ret tt (with_mExitServer true
                        (log EvGetPkt (with_pkt p (with_rsp c s))))).
  { intros f. rewrite (rspClientRequest_got f s p c Hget), Hc0.
    unfold rspClientRequest_switch.
    cbn [is_char Ascii.eqb Bool.eqb andb orb].
    rewrite rspQuery_rcmd by exact Hq.
    unfold rspCommand. erewrite bind_Ret by reflexivity.
    cbn [pkt log with_pkt with_rsp]. cbv zeta. rewrite Hcmd.
    reflexivity. }
  eexists. split; [apply Hreq|]. repeat split.
  intros Hx Hc. rewrite rspServer_turn by assumption.
  rewrite (bind_Ret _ _ _ _ _ (Hreq (S fuel))). reflexivity.
Qed.

(** ** More monitor commands *)

Lemma bind_cpu_reset {B} ty (k : ResumeRes -> M Server B) (s : Server) :
  bind (cpu_reset ty) k s
  = k (fst (reset ty (cpu s)))
      (log (EvReset ty) (with_cpu (snd (reset ty (cpu s))) s)).
Proof.
  unfold bind, cpu_reset. destruct (reset ty (cpu s)); reflexivity.
Qed.

(** The monitor commands [reset] and [reset warm] reset the target warm,
    [reset cold] resets it cold; the answer is [OK] when the target
    reports [SUCCESS], and the server exits without an answer when it
    reports anything else. *)
Theorem monitor_reset (s : Server) (ty : ResetType) :
  let cmd := cstr (hex2Ascii (at_off 6 (data (pkt s)))) in
  let r := reset ty (cpu s) in
  4 <= getBufSize (pkt s) ->
  (ty = WARM /\ (cmd = str "reset" \/ cmd = str "reset warm")) \/
  (ty = COLD /\ cmd = str "reset cold") ->
  (fst r = SUCCESS ->
   exists s',
     rspCommand s = Ret tt s' /\
     trace s' = trace s ++ [EvReset ty; EvPutPkt (str "OK")] /\
     cpu s' = snd r)
  /\
  (fst r <> SUCCESS ->
   exists s',
     rspCommand s = Exit s' /\
     trace s' = trace s ++ [EvReset ty] /\
     cpu s' = snd r).
Proof.
  intros cmd r Hfit Hcmd.
  assert (Heq : rspCommand s
                = (x <- cpu_reset ty ;;
                   match x with
                   | SUCCESS => reply (str "OK")
                   | _ => exit_failure
                   end) s).
  { unfold rspCommand. erewrite bind_Ret by reflexivity. cbv zeta.
    fold cmd.
    destruct Hcmd as [[-> [-> | ->]] | [-> ->]]; reflexivity. }
  rewrite Heq, bind_cpu_reset. fold r.
  set (s1 := log (EvReset ty) (with_cpu (snd r) s)).
  split.
  - intros ->. cbv beta iota.
    rewrite reply_eq;
      [ | repeat constructor
        | unfold getBufSize in *;
          cbn [s1 pkt log with_cpu length str list_ascii_of_string]; lia ].
    eexists. split; [reflexivity|]. split; [|reflexivity].
    cbn [trace sent_state log with_rsp with_pkt s1 with_cpu].
    now rewrite <- app_assoc.
  - intros Hne. exists s1. split.
    + destruct (fst r); try reflexivity. contradiction.
    + split; reflexivity.
Qed.

Lemma scan_lits_prefix (l s r : list ascii) :
  scan_lits l s = Some r -> s = l ++ r.
Proof.
  revert s. induction l as [|c l IH]; intros s H; cbn [scan_lits] in H.
  - now injection H as ->.
  - destruct s as [|x s]; cbn [scan_lit] in H; [discriminate|].
    destruct (Ascii.eqb_spec x c) as [->|]; [|discriminate].
    cbn [app]. f_equal. apply IH. exact H.
Qed.

(** The monitor command [timeout <n>] sets the time allowed to a
    continue to [n] seconds and is answered [OK]; the target is not
    called. *)
Theorem monitor_timeout (s : Server) (n : Z) :
  let cmd := cstr (hex2Ascii (at_off 6 (data (pkt s)))) in
  4 <= getBufSize (pkt s) ->
  sscanf_timeout cmd = Some n ->
  exists s',
    rspCommand s = Ret tt s' /\
    trace s' = trace s ++ [EvPutPkt (str "OK")] /\
    mTimeout s' = n /\
    cpu s' = cpu s.
Proof.
  intros cmd Hfit Hscan.
  assert (Hpre : exists rest, cmd = str "timeout" ++ rest).
  { unfold sscanf_timeout in Hscan.
    destruct (scan_lits (str "timeout") (cstr cmd)) as [s1|] eqn:E;
      [|discriminate].
    apply scan_lits_prefix in E.
    destruct (cstr_inv _ _ E) as (rest' & Hc & _).
    exists (s1 ++ rest'). rewrite Hc at 1. now rewrite <- app_assoc. }
  destruct Hpre as (rest & Hrest).
  assert (Heq : rspCommand s
                = (modify (with_mTimeout n) ;; reply (str "OK")) s).
  { unfold rspCommand. erewrite bind_Ret by reflexivity. cbv zeta.
    fold cmd. rewrite Hscan.
    replace (strncmp0 (str "help") cmd (length cmd)) with false
      by (rewrite Hrest; reflexivity).
    replace (strcmp0 cmd (str "reset")) with false
      by (rewrite Hrest; reflexivity).
    replace (strcmp0 cmd (str "reset warm")) with false
      by (rewrite Hrest; reflexivity).
    replace (strcmp0 cmd (str "reset cold")) with false
      by (rewrite Hrest; reflexivity).
    replace (strcmp0 cmd (str "exit")) with false
      by (rewrite Hrest; reflexivity).
    reflexivity. }
  rewrite Heq. erewrite bind_Ret by reflexivity.
  rewrite reply_eq;
    [ | repeat constructor
      | unfold getBufSize in *;
        cbn [length str list_ascii_of_string pkt with_mTimeout]; lia ].
  eexists. split; [reflexivity|]. repeat split.
Qed.

(** What the target's answer to a command is turned into: its output in
    an [O] packet and [OK], or the error [err]. *)
Lemma target_answer_runs (cmd err : list ascii) (s : Server) :
  no_nul err -> (length err <= 3)%nat -> 4 <= getBufSize (pkt s) ->
  let r := fst (command cmd (cpu s)) in
  runs (r <- cpu_command cmd ;;
        if fst r then relay_output (snd r) else reply err) s
       (EvCommand cmd
          :: (if fst r
              then [EvPutPkt (rcmd_payload (length (data (pkt s))) (snd r));
                    EvPutPkt (str "OK")]
              else [EvPutPkt err])).
Proof.
  intros Hnn Hlen Hfit r. unfold runs. rewrite bind_cpu_command. fold r.
  set (s1 := log _ _).
  assert (Hfit1 : (4 <= length (data (pkt s1)))%nat)
    by (unfold getBufSize in Hfit; cbn [s1 pkt log with_cpu]; lia).
  destruct (fst r).
  - unfold relay_output. rewrite <- bind_assoc.
    destruct (put_rcmd_run (snd r) s1 ltac:(lia))
      as (s2 & Heq2 & Htr2 & Hsz2 & _).
    change (pkt_packRcmdStr (snd r) ;; rsp_putPkt) with (put_rcmd (snd r)).
    rewrite (bind_Ret _ _ _ _ _ Heq2).
    rewrite reply_eq;
      [ | repeat constructor
        | unfold getBufSize; rewrite Hsz2;
          cbn [length str list_ascii_of_string]; lia ].
    eexists. split; [reflexivity|].
    cbn [trace sent_state log with_rsp with_pkt]. rewrite Htr2.
    cbn [s1 trace log with_cpu pkt]. now rewrite <- !app_assoc.
  - rewrite reply_eq; [ | exact Hnn | unfold getBufSize; lia ].
    eexists. split; [reflexivity|].
    cbn [trace sent_state log with_rsp with_pkt s1 with_cpu].
    now rewrite <- !app_assoc.
Qed.

(** A [set] or [show] command that is not about [debug] goes to the
    target with its keyword put back in front; the target's output is
    relayed in an [O] packet followed by [OK], and a command the target
    rejects is answered [E04]. *)
Theorem set_show_fall_through (cmd : list ascii) (s : Server) :
  4 <= getBufSize (pkt s) ->
  list_eqb (str "debug") (hd [] (split cmd)) = false ->
  let answered (full : list ascii) :=
    let r := fst (command full (cpu s)) in
    EvCommand full
      :: (if fst r
          then [EvPutPkt (rcmd_payload (length (data (pkt s))) (snd r));
                EvPutPkt (str "OK")]
          else [EvPutPkt (str "E04")]) in
  runs (rspSetCommand cmd) s (answered (str "set " ++ cstr cmd)) /\
  runs (rspShowCommand cmd) s (answered (str "show " ++ cstr cmd)).
Proof.
  intros Hfit Hnd answered.
  assert (Hno : forall t0, hd [] (split cmd) = t0 ->
                  list_eqb (str "debug") t0 = false)
    by (intros t0 <-; exact Hnd).
  assert (Hset := target_answer_runs (str "set " ++ cstr cmd) (str "E04") s
                    ltac:(repeat constructor) ltac:(simpl; lia) Hfit).
  assert (Hshow := target_answer_runs (str "show " ++ cstr cmd) (str "E04") s
                     ltac:(repeat constructor) ltac:(simpl; lia) Hfit).
  cbv zeta in Hset, Hshow.
  split.
  - unfold rspSetCommand. cbv zeta.
    destruct (split cmd) as [|t0 [|t1 [|t2 [|t3 rest]]]] eqn:E;
      try exact Hset.
    rewrite (Hno t0 eq_refl). exact Hset.
  - unfold rspShowCommand. cbv zeta.
    destruct (split cmd) as [|t0 [|t1 [|t2 rest]]] eqn:E;
      try exact Hshow; rewrite (Hno t0 eq_refl); exact Hshow.
Qed.

End Server.

(** * The claims on concrete sessions *)



(** C2, witness, at the failing input: the monitor command [foo]
    ([qRcmd,666f6f]) is rejected by the target and answered [E01]. *)
Lemma monitor_fallback_replies_E01_witness :
  let s := fake_holding (str "qRcmd,666f6f") [] [] [] None
             SYSCALL_NONE_PENDING in
  generic_command (str "foo") = false /\
  exists s',
    rspCommand s = Ret tt s' /\
    trace s' = trace s ++ [EvCommand (str "foo"); EvPutPkt (str "E01")].
Proof.
  intros s. split; [reflexivity|].
  assert (Hfit : 4 <= getBufSize (pkt s)) by (vm_compute; discriminate).
  exact (monitor_fallback_replies_E01 s eq_refl Hfit).
Defined.

(** C3, witness: the reply [F5] to a system call made during a continue;
    a0 is written, then the continue is entered with the continuation
    reset. *)
Lemma syscall_reply_resumes_from_latch_witness :
  let s := fake_holding (str "F5") [] [] [] None
             SYSCALL_THEN_FINISH_CONTINUE in
  exists s1,
    mSyscallContinuation s1 = SYSCALL_NONE_PENDING /\
    trace s1 = trace s ++ [EvWriteRegister 10 5] /\
    rspSyscallReply fake_parse 3 s = rspContinue 3 s1.
Proof.
  intros s.
  assert (Hfit : 4 <= getBufSize (pkt s)) by (vm_compute; discriminate).
  destruct (proj2 (syscall_reply_resumes_from_latch fake_parse 3 s Hfit)
              eq_refl)
    as (s1 & Hc & Htr & _ & _ & _ & _ & _ & Hrest).
  exists s1. split; [exact Hc|]. split; [exact Htr|].
  exact (Hrest eq_refl).
Defined.

(** C4, witness: after [F5] the first call is the write of 5 to a0,
    and the target holds 5 in register 10 when the stop reply is sent. *)
Lemma syscall_reply_writes_a0_witness :
  let s := fake_holding (str "F5") [(10, 7)] [] [] None
             SYSCALL_THEN_FINISH_STEPPING in
  (exists d,
     new_events s (rspSyscallReply fake_parse 3 s)
     = EvWriteRegister 10 5 :: d /\
     forall reg val, ~ In (EvWriteRegister reg val) d) /\
  (exists s',
     rspSyscallReply fake_parse 3 s = Ret tt s' /\
     readRegister 10 (cpu s') = (5, 4)).
Proof.
  intros s.
  assert (Hfit : 4 <= getBufSize (pkt s)) by (vm_compute; discriminate).
  destruct (proj1 (syscall_reply_writes_a0 fake_parse 3 s Hfit) eq_refl)
    as (Hfirst & _ & Hstop).
  { vm_compute. discriminate. }
  split; [exact Hfirst|].
  destruct Hstop as (s' & Heq & Hcpu).
  { right. vm_compute. discriminate. }
  exists s'. split; [exact Heq|]. rewrite Hcpu. vm_compute. reflexivity.
Defined.

(** C5, witness: a slice times out with no user timeout and a break
    pending; the [INT] stop reply is sent. *)
Lemma continue_timeout_slice_witness :
  let s := fake_server [] [] [] [TIMEOUT] None [true] [] in
  exists s',
    rspContinue_loop 1 0 s = Ret tt s' /\
    trace s'
    = trace s ++ [EvResume CONTINUE (Some interruptTimeout); EvHaveBreak;
                  EvResume STOP None; EvPutPkt (str "S02")].
Proof.
  intros s.
  assert (Hfit : 4 <= getBufSize (pkt s)) by (vm_compute; discriminate).
  exact (proj1 (proj2 (proj1 continue_timeout_slice 0%nat 0 s _ Hfit eq_refl))
           eq_refl eq_refl).
Defined.

(** C5, counterexample: a user timeout of one second has passed when the
    slice times out, and a break is pending; the stop reply is [XCPU]
    ([S18]), no [INT] stop reply is sent, and the break is still pending
    when the continue returns. *)
Lemma pending_break_answered_XCPU :
  exists s',
    rspContinue 3
      (with_mTimeout 1
         (fake_server [] [] [] [TIMEOUT] None [false; true]
            [0; 2 * ticks_per_second]))
    = Ret tt s' /\
    trace s'
    = [EvNow; EvHaveBreak; EvResume CONTINUE (Some interruptTimeout); EvNow;
       EvResume STOP None; EvPutPkt (str "S18")] /\
    fst (haveBreak (rsp s')) = true.
Proof.
  exists (final (rspContinue 3
                   (with_mTimeout 1
                      (fake_server [] [] [] [TIMEOUT] None [false; true]
                         [0; 2 * ticks_per_second])))).
  vm_compute. repeat split.
Qed.

(** C6, witness: exit with status 0. *)
Lemma exit_syscall_sends_W_witness :
  let s := fake_server [] [(17, 93); (10, 0)] [] [] None [] [] in
  exists s',
    rspSyscallRequest 1 SYSCALL_THEN_FINISH_CONTINUE s = Ret tt s' /\
    trace s' = trace s ++ syscall_reads ++ [EvPutPkt (str "W0")] /\
    mSyscallContinuation s' = SYSCALL_NONE_PENDING /\
    hex_number (str "0") = 0 /\
    Forall (fun c => In c (str "0123456789abcdef")) (str "0").
Proof.
  intros s.
  assert (Hfit : 10 <= getBufSize (pkt s)) by (vm_compute; discriminate).
  exact (proj1 exit_syscall_sends_W 1%nat SYSCALL_THEN_FINISH_CONTINUE s
           eq_refl Hfit).
Defined.

(** C7, witness: the packet [Z0,1000,4]. *)
Lemma matchpoint_packets_unsupported_witness :
  let s := fake_server [str "Z0,1000,4"] [] [] [] None [] [] in
  exists s',
    rspClientRequest fake_parse 1 s = Ret tt s' /\
    trace s' = trace s ++ [EvGetPkt; EvPutPkt []] /\
    mpHash s' = mpHash s /\
    cpu s' = cpu s.
Proof.
  intros s.
  eapply (matchpoint_packets_unsupported fake_parse 1 s);
    [reflexivity | right; reflexivity].
Defined.

(** C8, witness: the packet [M1000,4:deadbeef] writes the four bytes,
    which the target then holds. *)
Lemma write_memory_packet_witness :
  let s := fake_holding (str "M1000,4:deadbeef") [] [] [] None
             SYSCALL_NONE_PENDING in
  exists s',
    rspWriteMem s = Ret tt s' /\
    trace s' = trace s ++ [EvWrite 4096 [222]; EvWrite 4097 [173];
                           EvWrite 4098 [190]; EvWrite 4099 [239];
                           EvPutPkt (str "OK")] /\
    map (fun a => read a (cpu s')) [4096; 4097; 4098; 4099]
    = [Some 222; Some 173; Some 190; Some 239].
Proof.
  intros s.
  destruct (proj1 (proj2 (write_memory_packet s (str "1000") (str "4")
                            (str "deadbeef") (repeat NUL 239)
                            eq_refl eq_refl
                            ltac:(vm_compute; discriminate)
                            ltac:(discriminate)
                            ltac:(repeat constructor; discriminate)
                            ltac:(reflexivity)
                            ltac:(discriminate)
                            ltac:(repeat constructor; discriminate)
                            ltac:(reflexivity)))
              eq_refl)
    as (s' & Heq & Htr & Hcpu & _).
  exists s'. split; [exact Heq|]. split; [exact Htr|].
  rewrite Hcpu. vm_compute. reflexivity.
Defined.

(** C8, at the failing inputs: [M0,80000000:] carries no data and
    [M1000,80000001:ab] carries one byte, neither [2 * len] digits; both
    are answered [OK] and nothing is written. *)
Lemma wrapped_length_answered_OK :
  (exists s',
     rspWriteMem (fake_holding (str "M0,80000000:") [] [] [] None
                    SYSCALL_NONE_PENDING) = Ret tt s' /\
     fake_outbox (rsp s') = [str "OK"] /\ fake_mem (cpu s') = []) /\
  (exists s',
     rspWriteMem (fake_holding (str "M1000,80000001:ab") [] [] [] None
                    SYSCALL_NONE_PENDING) = Ret tt s' /\
     fake_outbox (rsp s') = [str "OK"] /\ fake_mem (cpu s') = []).
Proof.
  split.
  - exists (final (rspWriteMem (fake_holding (str "M0,80000000:") [] [] []
                                  None SYSCALL_NONE_PENDING))).
    vm_compute. repeat split.
  - exists (final (rspWriteMem (fake_holding (str "M1000,80000001:ab") [] []
                                  [] None SYSCALL_NONE_PENDING))).
    vm_compute. repeat split.
Qed.

(** C9, witness: [open] of the path ["ab"] at 0x2000; the length field
    is 3. *)
Lemma path_syscall_length_witness :
  let s := fake_server []
             [(17, 1024); (10, 8192); (11, 1); (12, 2)]
             [(8192, 97); (8193, 98); (8194, 0)] [] None [] [] in
  exists s',
    rspSyscallRequest 5 SYSCALL_THEN_FINISH_CONTINUE s = Ret tt s' /\
    trace s'
    = trace s ++ syscall_reads ++ [EvRead 8192; EvRead 8193; EvRead 8194]
        ++ [EvPutPkt (str "Fopen,2000/3,1,2")].
Proof.
  intros s.
  destruct (path_syscall_length 5 SYSCALL_THEN_FINISH_CONTINUE s 2)
    as (s' & Heq & Htr & _).
  - left. reflexivity.
  - vm_compute. discriminate.
  - lia.
  - vm_compute. discriminate.
  - intros i Hi. destruct i as [|[|i]]; [| |lia];
      eexists; (split; [reflexivity | vm_compute; discriminate]).
  - eexists. split; reflexivity.
  - exists s'. split; [exact Heq | exact Htr].
Defined.

(** C10, witness: the monitor command [he] ([qRcmd,6865]) runs the
    help handler, 23 lines of help, the target's answer, then [OK]. *)
Lemma help_prefix_runs_help_witness :
  let s := fake_holding (str "qRcmd,6865") [] [] [] None
             SYSCALL_NONE_PENDING in
  exists s',
    rspCommand s = Ret tt s' /\
    trace s'
    = trace s ++ rcmd_packets 256 help_mess
        ++ EvCommand (str "help")
        :: rcmd_packets 256
             [str "There are no target specific monitor commands"]
        ++ [EvPutPkt (str "OK")].
Proof.
  intros s.
  assert (Hfit : 3 <= getBufSize (pkt s)) by (vm_compute; discriminate).
  exact (help_prefix_runs_help s 2 eq_refl Hfit).
Defined.

(** * The main loop and the monitor on concrete sessions *)

(** On a lost connection the server gives up with [EXIT_FAILURE] after
    one attempt to read, the close and one attempt to reconnect. *)
Lemma lost_connection_ends_server_witness :
  let s :=
    GdbServerImpl_new {| lost_connected := true |}
      {| fake_regs := []; fake_mem := []; fake_results := [];
         fake_command := None |}
      {| fake_ticks := [] |} [] EXIT_ON_KILL fake_buffer in
  exists s2,
    rspServer fake_parse 3 s = Ret EXIT_FAILURE s2 /\
    trace s2 = [EvGetPkt; EvClose; EvConnect].
Proof.
  intros s.
  assert (Hq : mExitServer s = false) by reflexivity.
  assert (Hc : isConnected (rsp s) = true) by reflexivity.
  assert (Hget : getPkt (pkt s) (rsp s) = (false, pkt s, rsp s))
    by reflexivity.
  assert (Hdown : isConnected (rspClose (rsp s)) = false) by reflexivity.
  assert (Hfail : fst (rspConnect (rspClose (rsp s))) = false)
    by reflexivity.
  destruct (lost_connection_ends_server fake_parse 0 s (pkt s) (rsp s)
              Hq Hc Hget Hdown Hfail)
    as (s1 & s2 & _ & _ & Hrun & Htr & _).
  exists s2. split; [exact Hrun | exact Htr].
Defined.

(** The [k] packet ends a server that exits on kill: nothing is sent. *)
Lemma kill_request_witness :
  let s := fake_server [str "k"] [] [] [] None [] [] in
  exists s',
    rspServer fake_parse 3 s = Ret EXIT_SUCCESS s' /\
    trace s' = [EvGetPkt] /\ fake_outbox (rsp s') = [].
Proof.
  intros s.
  assert (Hget : getPkt (pkt s) (rsp s)
                 = (true, snd (fst (getPkt (pkt s) (rsp s))),
                    snd (getPkt (pkt s) (rsp s)))) by reflexivity.
  assert (Hk : char_at (data (snd (fst (getPkt (pkt s) (rsp s))))) 0
               = "k"%char) by reflexivity.
  assert (Hkb : killBehaviour s = EXIT_ON_KILL) by reflexivity.
  assert (Hq : mExitServer s = false) by reflexivity.
  assert (Hc : isConnected (rsp s) = true) by reflexivity.
  destruct (kill_request fake_parse 1 s _ _ Hget Hk)
    as (s' & Heq & Htr & _ & _ & Hloop).
  exists s'. split; [exact (Hloop Hkb Hq Hc)|].
  split; [exact Htr|].
  assert (Hs' : Ret tt s' = rspClientRequest fake_parse 1 s)
    by (symmetry; exact Heq).
  vm_compute in Hs'. injection Hs' as ->. reflexivity.
Defined.

(** The monitor command [exit] ([qRcmd,65786974]) ends the server
    without an answer. *)
Lemma monitor_exit_ends_server_witness :
  let s := fake_server [str "qRcmd,65786974"] [] [] [] None [] [] in
  exists s',
    rspServer fake_parse 3 s = Ret EXIT_SUCCESS s' /\
    trace s' = [EvGetPkt] /\ mExitServer s' = true.
Proof.
  intros s.
  assert (Hget : getPkt (pkt s) (rsp s)
                 = (true, snd (fst (getPkt (pkt s) (rsp s))),
                    snd (getPkt (pkt s) (rsp s)))) by reflexivity.
  assert (Hrcmd : starts_with "qRcmd,"
                    (data (snd (fst (getPkt (pkt s) (rsp s))))) = true)
    by reflexivity.
  assert (Hcmd : cstr (hex2Ascii
                         (at_off 6 (data (snd (fst (getPkt (pkt s)
                                                      (rsp s)))))))
                 = str "exit") by (vm_compute; reflexivity).
  assert (Hq : mExitServer s = false) by reflexivity.
  assert (Hc : isConnected (rsp s) = true) by reflexivity.
  destruct (monitor_exit_ends_server fake_parse 1 s _ _ Hget Hrcmd Hcmd)
    as (s' & _ & Htr & Hx & _ & Hloop).
  exists s'. split; [exact (Hloop Hq Hc)|].
  split; [exact Htr | exact Hx].
Defined.

(** The monitor command [reset] ([qRcmd,7265736574]) resets the target
    warm and is answered [OK]. *)
Lemma monitor_reset_witness :
  let s := fake_holding (str "qRcmd,7265736574") [] [] [] None
             SYSCALL_NONE_PENDING in
  exists s',
    rspCommand s = Ret tt s' /\
    trace s' = [EvReset WARM; EvPutPkt (str "OK")].
Proof.
  intros s.
  assert (Hfit : 4 <= getBufSize (pkt s)) by (vm_compute; discriminate).
  assert (Hcmd :
    (WARM = WARM /\
     (cstr (hex2Ascii (at_off 6 (data (pkt s)))) = str "reset" \/
      cstr (hex2Ascii (at_off 6 (data (pkt s)))) = str "reset warm")) \/
    (WARM = COLD /\
     cstr (hex2Ascii (at_off 6 (data (pkt s)))) = str "reset cold"))
    by (left; split; [reflexivity | left; vm_compute; reflexivity]).
  assert (Hok : fst (reset WARM (cpu s)) = SUCCESS) by reflexivity.
  destruct (proj1 (monitor_reset s WARM Hfit Hcmd) Hok)
    as (s' & Heq & Htr & _).
  exists s'. split; [exact Heq | exact Htr].
Defined.

(** The monitor command [timeout 3] ([qRcmd,74696d656f75742033]) sets
    the timeout to 3 seconds. *)
Lemma monitor_timeout_witness :
  let s := fake_holding (str "qRcmd,74696d656f75742033") [] [] [] None
             SYSCALL_NONE_PENDING in
  exists s',
    rspCommand s = Ret tt s' /\
    trace s' = [EvPutPkt (str "OK")] /\ mTimeout s' = 3.
Proof.
  intros s.
  assert (Hfit : 4 <= getBufSize (pkt s)) by (vm_compute; discriminate).
  assert (Hscan : sscanf_timeout (cstr (hex2Ascii (at_off 6 (data (pkt s)))))
                  = Some 3) by (vm_compute; reflexivity).
  destruct (monitor_timeout s 3 Hfit Hscan) as (s' & Heq & Htr & Ht & _).
  exists s'. split; [exact Heq | split; [exact Htr | exact Ht]].
Defined.

(** [set foo] and [show foo] on a target that takes no commands: both
    are answered [E04]. *)
Lemma set_show_fall_through_witness :
  let s := fake_holding (str "qRcmd,73657420666f6f") [] [] [] None
             SYSCALL_NONE_PENDING in
  runs (rspSetCommand (str "foo")) s
       [EvCommand (str "set foo"); EvPutPkt (str "E04")] /\
  runs (rspShowCommand (str "foo")) s
       [EvCommand (str "show foo"); EvPutPkt (str "E04")].
Proof.
  intros s.
  assert (Hfit : 4 <= getBufSize (pkt s)) by (vm_compute; discriminate).
  assert (Hnd : list_eqb (str "debug") (hd [] (split (str "foo"))) = false)
    by (vm_compute; reflexivity).
  exact (set_show_fall_through (str "foo") s Hfit Hnd).
Defined.

(** * Sessions

    The end-to-end scenarios of the specification, run on the fakes: the
    packets the client receives are those the connection was handed. *)

Example session_status :
  fake_outbox
    (rsp (final (rspClientRequest fake_parse 8
                   (fake_server [str "?"] [] [] [] None [] []))))
  = [str "S05"].
Proof. vm_compute. reflexivity. Qed.

Example session_supported :
  fake_outbox
    (rsp (final (rspClientRequest fake_parse 8
                   (fake_server [str "qSupported:multiprocess+"] [] [] []
                      None [] []))))
  = [str "PacketSize=100"].
Proof. vm_compute. reflexivity. Qed.

Example session_memory :
  fake_outbox
    (rsp (final ((rspClientRequest fake_parse 8 ;;
                  rspClientRequest fake_parse 8)
                   (fake_server [str "M1000,4:deadbeef"; str "m1000,4:"]
                      [] [] [] None [] []))))
  = [str "OK"; str "deadbeef"].
Proof. vm_compute. reflexivity. Qed.

Example session_syscall_write :
  let o := (rspClientRequest fake_parse 8 ;; rspClientRequest fake_parse 8)
             (fake_server [str "c"; str "F5"]
                [(17, 64); (10, 1); (11, 8192); (12, 5)] []
                [SYSCALL; STEPPED] None [] []) in
  fake_outbox (rsp (final o)) = [str "Fwrite,1,2000,5"; str "S05"] /\
  lookup 10 (fake_regs (cpu (final o))) = Some 5.
Proof. vm_compute. split; reflexivity. Qed.

Example session_exit :
  let o := rspClientRequest fake_parse 8
             (fake_server [str "c"] [(17, 93); (10, 0)] [] [SYSCALL]
                None [] []) in
  fake_outbox (rsp (final o)) = [str "W0"] /\
  mSyscallContinuation (final o) = SYSCALL_NONE_PENDING.
Proof. vm_compute. split; reflexivity. Qed.

Example session_timeout :
  let o := rspClientRequest fake_parse 8
             (fake_server [str "qRcmd,74696d656f75742033"] [] [] []
                None [] []) in
  fake_outbox (rsp (final o)) = [str "OK"] /\ mTimeout (final o) = 3.
Proof. vm_compute. split; reflexivity. Qed.

Example session_echo :
  let o := rspClientRequest fake_parse 8
             (fake_server [str "qRcmd,6563686f206869"] [] [] []
                None [] []) in
  fake_outbox (rsp (final o)) = [str "OK"] /\
  In (EvCout (str "hi")) (trace (final o)).
Proof. vm_compute. split; [reflexivity | tauto]. Qed.

Example session_unknown_query :
  fake_outbox
    (rsp (final (rspClientRequest fake_parse 8
                   (fake_server [str "qZoo"] [] [] [] None [] []))))
  = [[]].
Proof. vm_compute. reflexivity. Qed.

(** The three places a monitor command falls through to the target
    answer a rejection differently: [E04] after [set] and [show], [E01]
    otherwise. *)
Example session_rejected_commands :
  fake_outbox
    (rsp (final ((rspClientRequest fake_parse 8 ;;
                  rspClientRequest fake_parse 8 ;;
                  rspClientRequest fake_parse 8)
                   (fake_server
                      [str "qRcmd,73657420666f6f";
                       str "qRcmd,73686f7720666f6f"; str "qRcmd,666f6f"]
                      [] [] [] None [] []))))
  = [str "E04"; str "E04"; str "E01"].
Proof. vm_compute. reflexivity. Qed.

(** The numbers of a header are read as [sscanf] reads [%x]: a bare
    [0x] is the number 0, and a number that does not fit an
    [unsigned long] is the largest one, whatever its sign. *)
Example session_header_numbers :
  let after pk :=
    final (rspClientRequest fake_parse 8
             (fake_server [pk] [] [] [] None [] [])) in
  (fake_outbox (rsp (after (str "M0x,1:ab"))) = [str "OK"] /\
   fake_mem (cpu (after (str "M0x,1:ab"))) = [(0, 171)]) /\
  (fake_outbox (rsp (after (str "M-fffffffffffffffff,1:ab"))) = [str "OK"] /\
   fake_mem (cpu (after (str "M-fffffffffffffffff,1:ab")))
   = [(4294967295, 171)]).
Proof. vm_compute. repeat split; reflexivity. Qed.
